(** * Bike research bot: the add/update wizards and the CSV record store

    A shallow embedding of [main.py].  The development follows the layout of
    the module: Python string primitives, insertion-ordered dictionaries, the
    CSV store ([initialize_csv], [read_csv], [write_csv]), the reply
    keyboards, the thirteen add-flow handlers, the delete command, the
    update-flow handlers and finally the handler table registered in
    [main()].  Theorems come after all definitions. *)

From Stdlib Require Import String Ascii List NArith ZArith Bool Lia DecimalString.
Import ListNotations.
Local Open Scope string_scope.

(** ** Python strings

    A [str] is modelled by a Rocq [string]; the character with code [n]
    stands for the code point [n], so the model covers the code points
    0..255.  The classifications below are those of Python on that range. *)

Module Py.

Definition code (c : ascii) : N := N_of_ascii c.

Definition between (lo hi n : N) : bool := ((lo <=? n) && (n <=? hi))%N.

(** [c.isspace()]: TAB..CR, FS..US, SPACE, NEL and NBSP. *)
Definition isspace_char (c : ascii) : bool :=
  between 9 13 (code c) || between 28 32 (code c)
  || (code c =? 133)%N || (code c =? 160)%N.

(** [c.isdecimal()]: only the ASCII digits on this range. *)
Definition isdecimal_char (c : ascii) : bool := between 48 57 (code c).

(** [c.isdigit()]: the decimal digits and the superscripts two, three and
    one (U+00B2, U+00B3, U+00B9). *)
Definition isdigit_char (c : ascii) : bool :=
  isdecimal_char c || (code c =? 178)%N || (code c =? 179)%N || (code c =? 185)%N.

Definition decimal_value (c : ascii) : Z := Z.of_N (code c) - 48.

(** [c.lower()]: A..Z and the capital letters U+00C0..U+00DE, the
    multiplication sign U+00D7 apart, move up by 32. *)
Definition lower_char (c : ascii) : ascii :=
  if between 65 90 (code c)
     || (between 192 222 (code c) && negb (code c =? 215)%N)
  then ascii_of_N (code c + 32) else c.

Fixpoint all_chars (p : ascii -> bool) (s : string) : bool :=
  match s with
  | EmptyString => true
  | String c r => p c && all_chars p r
  end.

(** [s.isdigit()]: at least one character, all of them digits. *)
Definition isdigit (s : string) : bool :=
  match s with
  | EmptyString => false
  | String _ _ => all_chars isdigit_char s
  end.

Fixpoint lower (s : string) : string :=
  match s with
  | EmptyString => EmptyString
  | String c r => String (lower_char c) (lower r)
  end.

Fixpoint lstrip (s : string) : string :=
  match s with
  | String c r => if isspace_char c then lstrip r else s
  | EmptyString => EmptyString
  end.

Fixpoint rstrip (s : string) : string :=
  match s with
  | EmptyString => EmptyString
  | String c r =>
      match rstrip r with
      | EmptyString => if isspace_char c then EmptyString else String c EmptyString
      | r' => String c r'
      end
  end.

(** The digits of an integer literal: single underscores may separate
    decimal digits. *)
Fixpoint int_digits (s : string) (acc : Z) : option Z :=
  match s with
  | EmptyString => Some acc
  | String c r =>
      if Ascii.eqb c "_" then
        match r with
        | String d _ => if isdecimal_char d then int_digits r acc else None
        | EmptyString => None
        end
      else if isdecimal_char c then int_digits r (10 * acc + decimal_value c)
      else None
  end.

Definition int_unsigned (s : string) : option Z :=
  match s with
  | String c _ => if isdecimal_char c then int_digits s 0 else None
  | EmptyString => None
  end.

(** [int(s)]: surrounding white space is dropped, one sign is allowed;
    [None] stands for [ValueError]. *)
Definition int (s : string) : option Z :=
  match rstrip (lstrip s) with
  | String c r =>
      if Ascii.eqb c "-" then option_map Z.opp (int_unsigned r)
      else if Ascii.eqb c "+" then int_unsigned r
      else int_unsigned (String c r)
  | EmptyString => None
  end.

(** [sep.join(l)]. *)
Fixpoint join (sep : string) (l : list string) : string :=
  match l with
  | [] => ""
  | [x] => x
  | x :: r => x ++ sep ++ join sep r
  end.

(** [s.split()]: the maximal runs of characters that are not white space.
    [cur] is the run being read, in reverse. *)
Fixpoint rev_string (acc : string) (s : string) : string :=
  match s with
  | EmptyString => acc
  | String c r => rev_string (String c acc) r
  end.

Definition flush (cur : string) (out : list string) : list string :=
  match cur with
  | EmptyString => out
  | _ => rev_string "" cur :: out
  end.

Fixpoint split_go (s : string) (cur : string) (out : list string) : list string :=
  match s with
  | EmptyString => rev (flush cur out)
  | String c r =>
      if isspace_char c then split_go r "" (flush cur out)
      else split_go r (String c cur) out
  end.

Definition split (s : string) : list string := split_go s "" [].

(** [c in s] for a character [c]. *)
Fixpoint has_char (c : ascii) (s : string) : bool :=
  match s with
  | EmptyString => false
  | String d r => Ascii.eqb c d || has_char c r
  end.

End Py.

(** The superscript two, a digit for [isdigit] that [int] refuses. *)
Definition superscript_two : string := String (ascii_of_N 178) "".

(** ** Dictionaries

    A Python [dict] with [str] keys keeps its entries in insertion order;
    assigning to a key that is present replaces the value where it stands.
    A value is a [str] or [None]. *)

Definition value := option string.
Definition dict := list (string * value).

(** [s in l] for a list of strings. *)
Definition mem (s : string) (l : list string) : bool := existsb (String.eqb s) l.

Definition dict_empty : dict := [].

(** [d[k]]; no entry is a [KeyError]. *)
Fixpoint dict_get (k : string) (d : dict) : option value :=
  match d with
  | [] => None
  | (k', v) :: r => if String.eqb k' k then Some v else dict_get k r
  end.

(** [k in d]. *)
Definition dict_contains (k : string) (d : dict) : bool :=
  match dict_get k d with Some _ => true | None => false end.

(** [d[k] = v]. *)
Fixpoint dict_set (k : string) (v : value) (d : dict) : dict :=
  match d with
  | [] => [(k, v)]
  | (k', v') :: r =>
      if String.eqb k' k then (k, v) :: r else (k', v') :: dict_set k v r
  end.

Definition dict_keys (d : dict) : list string := map fst d.

(** [str(v)] as an f-string renders a value. *)
Definition str_of_value (v : value) : string :=
  match v with Some s => s | None => "None" end.

(** ** The CSV store *)

Definition CSV_COLUMNS : list string :=
  [ "Serial ID"; "Inventory Tag"; "Pedaling Rate"; "Left Brake Rate";
    "Right Brake Rate"; "Tires Rate"; "Appearence Rate"; "Battery Level";
    "Is Straight Parking Angel"; "Seat Hight"; "Location"; "Speed Rate";
    "Note"; "Date" ].

(** The file is seen through the [csv] module: a sequence of rows of
    strings, the header first ([csv.reader] yields [[]] for a blank line).
    [None] is the file that does not exist. *)
Definition row := list string.
Definition table := list row.
Definition file := option table.

(** What [csv.DictReader] yields for a row: the entries under the header's
    names and, for a row longer than the header, the surplus cells under the
    key [None] (the reader's [restkey]). *)
Record row_dict := mkRow { fields : dict; restkey : option (list string) }.

Definition of_dict (d : dict) : row_dict := {| fields := d; restkey := None |}.

Definition initialize_csv (f : file) : file :=
  match f with
  | None => Some [CSV_COLUMNS]
  | Some t => Some t
  end.

(** [dict(zip(fieldnames, row))], then the surplus cells or the missing
    columns ([restval] is [None]). *)
Definition DictReader_row (fieldnames : list string) (r : row) : row_dict :=
  let d := fold_left (fun d kv => dict_set (fst kv) (Some (snd kv)) d)
                     (combine fieldnames r) dict_empty in
  let lf := length fieldnames in
  let lr := length r in
  if Nat.ltb lf lr then {| fields := d; restkey := Some (skipn lf r) |}
  else if Nat.ltb lr lf then
    {| fields := fold_left (fun d k => dict_set k None d) (skipn lr fieldnames) d;
       restkey := None |}
  else of_dict d.

Definition is_blank (r : row) : bool :=
  match r with [] => true | _ => false end.

(** [list(csv.DictReader(file))]: the first row gives the field names,
    blank rows are passed over. *)
Definition DictReader (t : table) : list row_dict :=
  match t with
  | [] => []
  | fieldnames :: rows =>
      map (DictReader_row fieldnames) (filter (fun r => negb (is_blank r)) rows)
  end.

(** [DictWriter._dict_to_list] with [extrasaction='raise'] and
    [restval='']: a key outside the field names is a [ValueError] ([None]
    here); the writer renders [None] as the empty cell. *)
Definition wrong_fields (d : row_dict) : bool :=
  match restkey d with
  | Some _ => true
  | None =>
      negb (forallb (fun k => mem k CSV_COLUMNS) (dict_keys (fields d)))
  end.

Definition cell (d : dict) (k : string) : string :=
  match dict_get k d with
  | Some (Some s) => s
  | Some None => ""
  | None => ""
  end.

Definition dict_to_list (d : row_dict) : option row :=
  if wrong_fields d then None
  else Some (map (cell (fields d)) CSV_COLUMNS).

(** [writer.writerows(data)]: the rows go out one at a time, so the rows
    before an offending dictionary are in the file when it raises. *)
Fixpoint writerows (data : list row_dict) : list row * bool :=
  match data with
  | [] => ([], true)
  | d :: r =>
      match dict_to_list d with
      | None => ([], false)
      | Some x => let (xs, ok) := writerows r in (x :: xs, ok)
      end
  end.

(** ** Telegram messages and replies *)

(** A shared location; the coordinates are floats, kept here in the form
    an f-string renders them. *)
Record Location := mkLocation { latitude : string; longitude : string }.

Record Message := mkMessage { text : option string; location : option Location }.

Definition text_message (s : string) : Message :=
  {| text := Some s; location := None |}.
Definition location_message (l : Location) : Message :=
  {| text := None; location := Some l |}.

Inductive button :=
| Btn (label : string)
| KeyboardButton (label : string) (request_location : bool).

Inductive markup :=
| ReplyKeyboardMarkup (keyboard : list (list button))
| ReplyKeyboardRemove
| NoMarkup.

Inductive reply :=
| SendText (body : string) (reply_markup : markup)
| SendDocument (document : table) (filename : string) (caption : string).

Definition labels (l : list string) : list button := map Btn l.

Definition get_rate_keyboard : markup :=
  ReplyKeyboardMarkup
    [ labels ["0"; "1"; "2"; "3"; "4"];
      labels ["5"; "6"; "7"; "8"; "9"; "10"];
      labels ["Back"; "Skip"] ].

Definition get_battery_keyboard : markup :=
  ReplyKeyboardMarkup
    [ labels ["0"; "1"; "2"; "3"; "4"]; labels ["Back"; "Skip"] ].

Definition get_boolean_keyboard : markup :=
  ReplyKeyboardMarkup [ labels ["True"; "False"]; labels ["Back"; "Skip"] ].

Definition get_seat_height_keyboard : markup :=
  ReplyKeyboardMarkup
    [ labels ["1"; "2"; "3"; "4"; "5"];
      labels ["6"; "7"; "8"; "9"; "10"];
      labels ["Back"; "Skip"] ].

Definition get_location_keyboard : markup :=
  ReplyKeyboardMarkup
    [ [KeyboardButton "Share Location" true]; labels ["Back"; "Skip"] ].

Definition get_serial_id_keyboard : markup :=
  ReplyKeyboardMarkup [ labels ["Cancel"] ].

Definition get_text_input_keyboard : markup :=
  ReplyKeyboardMarkup [ labels ["Back"; "Skip"] ].

Definition get_note_keyboard : markup :=
  ReplyKeyboardMarkup [ labels ["Back"; "Skip"] ].

Definition newline : string := String (ascii_of_N 10) "".

(** [format_summary]: one line per entry, in the dictionary's own order. *)
Definition format_summary (data : dict) : string :=
  fold_left
    (fun summary kv =>
       summary ++ fst kv ++ ": " ++ str_of_value (snd kv) ++ newline)
    data ("Summary:" ++ newline ++ newline).

(** ** The clock

    [datetime.now().strftime("%Y-%m-%d %H:%M:%S")]. *)
Record datetime := mkDatetime
  { year : nat; month : nat; day : nat; hour : nat; minute : nat; second : nat }.

Definition digit (n : nat) : ascii := ascii_of_nat (48 + n mod 10).
Definition two_digits (n : nat) : string :=
  String (digit (n / 10)) (String (digit n) "").
Definition four_digits (n : nat) : string :=
  String (digit (n / 1000)) (String (digit (n / 100)) (two_digits n)).

Definition strftime (t : datetime) : string :=
  four_digits (year t) ++ "-" ++ two_digits (month t) ++ "-" ++ two_digits (day t)
  ++ " " ++ two_digits (hour t) ++ ":" ++ two_digits (minute t) ++ ":"
  ++ two_digits (second t).

(** ** Handlers: session state, exceptions, replies

    A handler runs against the per-user [user_data], the CSV file and the
    chat; it ends by returning a conversation state, [END] or nothing, or by
    raising.  What it changed before raising stays changed.

    The exceptions are those the code of the handlers raises itself.  A
    reply is taken to be delivered: a failure of the network is an
    exception of the library, and is outside this model. *)

Inductive exn := KeyError (key : string) | ValueError | AttributeError.

Inductive result (A : Type) :=
| Ok (a : A)
| Raise (e : exn).
Arguments Ok {A} a.
Arguments Raise {A} e.

(** [context.user_data]: the four keys the module uses. *)
Record UserData := mkUserData
  { ud_research_data : option dict;
    ud_update_serial_id : option string;
    ud_update_record : option row_dict;
    ud_update_field : option string }.

Definition user_data_empty : UserData :=
  {| ud_research_data := None; ud_update_serial_id := None;
     ud_update_record := None; ud_update_field := None |}.

Record world := mkWorld
  { user_data : UserData; csv_file : file; sent : list reply }.

Definition M (A : Type) : Type := world -> world * result A.

Definition mret {A} (a : A) : M A := fun w => (w, Ok a).

Definition bind {A B} (m : M A) (k : A -> M B) : M B :=
  fun w =>
    match m w with
    | (w', Ok a) => k a w'
    | (w', Raise e) => (w', Raise e)
    end.

Definition raise {A} (e : exn) : M A := fun w => (w, Raise e).

Declare Scope handler_scope.
Delimit Scope handler_scope with handler.
Notation "x <- c1 ;; c2" := (bind c1 (fun x => c2))
  (at level 61, c1 at next level, right associativity) : handler_scope.
Notation "c1 ;; c2" := (bind c1 (fun _ => c2))
  (at level 61, right associativity) : handler_scope.
Local Open Scope handler_scope.

Definition set_user_data (u : UserData) : M unit :=
  fun w => ({| user_data := u; csv_file := csv_file w; sent := sent w |}, Ok tt).

Definition get_user_data : M UserData := fun w => (w, Ok (user_data w)).

(** [context.user_data.clear()]. *)
Definition user_data_clear : M unit := set_user_data user_data_empty.

Definition lookup {A} (key : string) (o : option A) : M A :=
  match o with
  | Some a => mret a
  | None => raise (KeyError key)
  end.

(** [context.user_data['research_data']]. *)
Definition research_data : M dict :=
  u <- get_user_data ;; lookup "research_data" (ud_research_data u).

Definition set_research_data (d : dict) : M unit :=
  u <- get_user_data ;;
  set_user_data {| ud_research_data := Some d;
                   ud_update_serial_id := ud_update_serial_id u;
                   ud_update_record := ud_update_record u;
                   ud_update_field := ud_update_field u |}.

(** [context.user_data['research_data'][k] = v]. *)
Definition research_data_set (k : string) (v : value) : M unit :=
  d <- research_data ;; set_research_data (dict_set k v d).

(** [k not in context.user_data['research_data']]. *)
Definition research_data_lacks (k : string) : M bool :=
  d <- research_data ;; mret (negb (dict_contains k d)).

Definition send (r : reply) : M unit :=
  fun w => ({| user_data := user_data w; csv_file := csv_file w;
               sent := sent w ++ [r] |}, Ok tt).

Definition reply_text (body : string) (m : markup) : M unit :=
  send (SendText body m).

Definition read_csv : M (list row_dict) :=
  fun w =>
    let f := initialize_csv (csv_file w) in
    ({| user_data := user_data w; csv_file := f; sent := sent w |},
     Ok (match f with Some t => DictReader t | None => [] end)).

Definition write_csv (data : list row_dict) : M unit :=
  fun w =>
    let (rows, ok) := writerows data in
    ({| user_data := user_data w; csv_file := Some (CSV_COLUMNS :: rows);
        sent := sent w |},
     if ok then Ok tt else Raise ValueError).

(** [update.message.text == s]. *)
Definition text_is (update : Message) (s : string) : bool :=
  match text update with
  | Some t => String.eqb t s
  | None => false
  end.

(** The receiver of a [str] method: [None] has no such attribute. *)
Definition str_method (o : option string) : M string :=
  match o with
  | Some t => mret t
  | None => raise AttributeError
  end.

Definition py_int (t : string) : M Z :=
  match Py.int t with
  | Some n => mret n
  | None => raise ValueError
  end.

(** [not t.isdigit() or int(t) < lo or int(t) > hi], left to right. *)
Definition not_in_range (o : option string) (lo hi : Z) : M bool :=
  t <- str_method o ;;
  if negb (Py.isdigit t) then mret true
  else
    n <- py_int t ;;
    if (n <? lo)%Z then mret true
    else n' <- py_int t ;; mret (n' >? hi)%Z.

(** [f"{latitude}, {longitude}"]. *)
Definition location_text (l : Location) : string :=
  latitude l ++ ", " ++ longitude l.

(** The conversation states, [range(15)] in this order. *)
Inductive state :=
| SERIAL_ID | INVENTORY_TAG | LOCATION | PARKING_ANGEL | TIRES_RATE
| SEAT_HEIGHT | APPEARENCE_RATE | BATTERY_LEVEL | LEFT_BRAKE_RATE
| RIGHT_BRAKE_RATE | PEDALING_RATE | SPEED_RATE | NOTE
| UPDATE_FIELD | UPDATE_VALUE.

(** What a handler returns: a state, [ConversationHandler.END] or [None]. *)
Inductive ret := Goto (s : state) | END | ReturnNone.

Definition start (update : Message) : M ret :=
  reply_text
    ("Bike Research Bot" ++ newline ++ newline ++
     "Commands:" ++ newline ++
     "/add - Add new record" ++ newline ++
     "/delete <Serial ID> - Delete record" ++ newline ++
     "/update <Serial ID> - Update record" ++ newline ++
     "/see - Download CSV file" ++ newline ++
     "/cancel - Cancel operation") NoMarkup ;;
  mret ReturnNone.

(** ** The add flow *)

Definition add_start (update : Message) : M ret :=
  u <- get_user_data ;;
  set_user_data {| ud_research_data := Some dict_empty;
                   ud_update_serial_id := ud_update_serial_id u;
                   ud_update_record := ud_update_record u;
                   ud_update_field := ud_update_field u |} ;;
  reply_text "Enter Serial ID:" get_serial_id_keyboard ;;
  mret (Goto SERIAL_ID).

Definition add_serial_id (update : Message) : M ret :=
  if text_is update "Cancel" then
    user_data_clear ;;
    reply_text "Cancelled" ReplyKeyboardRemove ;;
    mret END
  else
    research_data_set "Serial ID" (text update) ;;
    reply_text "Enter Inventory Tag:" get_text_input_keyboard ;;
    mret (Goto INVENTORY_TAG).

(** The [Skip] branch of every step: ["N/A"] only if the key is not set. *)
Definition skip_field (k : string) : M unit :=
  lacks <- research_data_lacks k ;;
  if lacks then research_data_set k (Some "N/A") else mret tt.

Definition add_inventory_tag (update : Message) : M ret :=
  let next :=
    reply_text "Location:" get_location_keyboard ;; mret (Goto LOCATION) in
  if text_is update "Skip" then skip_field "Inventory Tag" ;; next
  else if text_is update "Back" then
    reply_text "Enter Serial ID:" get_serial_id_keyboard ;;
    mret (Goto SERIAL_ID)
  else research_data_set "Inventory Tag" (text update) ;; next.

Definition add_location (update : Message) : M ret :=
  let next :=
    reply_text "Is Straight Parking Angel? " get_boolean_keyboard ;;
    mret (Goto PARKING_ANGEL) in
  if text_is update "Skip" then skip_field "Location" ;; next
  else if text_is update "Back" then
    reply_text "Enter Inventory Tag:" get_text_input_keyboard ;;
    mret (Goto INVENTORY_TAG)
  else
    match location update with
    | Some l => research_data_set "Location" (Some (location_text l)) ;; next
    | None =>
        reply_text "Please share location or skip:" NoMarkup ;;
        mret (Goto LOCATION)
    end.

Definition add_parking_angel (update : Message) : M ret :=
  let next :=
    reply_text "Tires Rate (0-10):" get_rate_keyboard ;;
    mret (Goto TIRES_RATE) in
  if text_is update "Skip" then skip_field "Is Straight Parking Angel" ;; next
  else if text_is update "Back" then
    reply_text "Location:" get_location_keyboard ;;
    mret (Goto LOCATION)
  else
    t <- str_method (text update) ;;
    let t := Py.lower t in
    if negb (mem t ["true"; "false"]) then
      reply_text "Select 'True' or 'False':" NoMarkup ;;
      mret (Goto PARKING_ANGEL)
    else research_data_set "Is Straight Parking Angel" (Some t) ;; next.

Definition add_tires_rate (update : Message) : M ret :=
  let next :=
    reply_text "Seat Hight (1-10):" get_seat_height_keyboard ;;
    mret (Goto SEAT_HEIGHT) in
  if text_is update "Skip" then skip_field "Tires Rate" ;; next
  else if text_is update "Back" then
    reply_text "Is Straight Parking Angel?" get_boolean_keyboard ;;
    mret (Goto PARKING_ANGEL)
  else
    bad <- not_in_range (text update) 0 10 ;;
    if bad then
      reply_text "Select a valid rate (0-10):" NoMarkup ;;
      mret (Goto TIRES_RATE)
    else research_data_set "Tires Rate" (text update) ;; next.

Definition add_seat_height (update : Message) : M ret :=
  let next :=
    reply_text "Appearence Rate (0-10):" get_rate_keyboard ;;
    mret (Goto APPEARENCE_RATE) in
  if text_is update "Skip" then skip_field "Seat Hight" ;; next
  else if text_is update "Back" then
    reply_text "Tires Rate (0-10):" get_rate_keyboard ;;
    mret (Goto TIRES_RATE)
  else
    bad <- not_in_range (text update) 1 10 ;;
    if bad then
      reply_text "Select a valid height (1-10):" NoMarkup ;;
      mret (Goto SEAT_HEIGHT)
    else research_data_set "Seat Hight" (text update) ;; next.

Definition add_appearence_rate (update : Message) : M ret :=
  let next :=
    reply_text "Battery Level (0-4):" get_battery_keyboard ;;
    mret (Goto BATTERY_LEVEL) in
  if text_is update "Skip" then skip_field "Appearence Rate" ;; next
  else if text_is update "Back" then
    reply_text "Seat Hight (1-10):" get_seat_height_keyboard ;;
    mret (Goto SEAT_HEIGHT)
  else
    bad <- not_in_range (text update) 0 10 ;;
    if bad then
      reply_text "Select a valid rate (0-10):" NoMarkup ;;
      mret (Goto APPEARENCE_RATE)
    else research_data_set "Appearence Rate" (text update) ;; next.

Definition add_battery_level (update : Message) : M ret :=
  let next :=
    reply_text "Left Brake Rate (0-10):" get_rate_keyboard ;;
    mret (Goto LEFT_BRAKE_RATE) in
  if text_is update "Skip" then skip_field "Battery Level" ;; next
  else if text_is update "Back" then
    reply_text "Appearence Rate (0-10):" get_rate_keyboard ;;
    mret (Goto APPEARENCE_RATE)
  else
    bad <- not_in_range (text update) 0 4 ;;
    if bad then
      reply_text "Select a valid battery level (0-4):" NoMarkup ;;
      mret (Goto BATTERY_LEVEL)
    else research_data_set "Battery Level" (text update) ;; next.

Definition add_left_brake_rate (update : Message) : M ret :=
  let next :=
    reply_text "Right Brake Rate (0-10):" get_rate_keyboard ;;
    mret (Goto RIGHT_BRAKE_RATE) in
  if text_is update "Skip" then skip_field "Left Brake Rate" ;; next
  else if text_is update "Back" then
    reply_text "Battery Level (0-4):" get_battery_keyboard ;;
    mret (Goto BATTERY_LEVEL)
  else
    bad <- not_in_range (text update) 0 10 ;;
    if bad then
      reply_text "Select a valid rate (0-10):" NoMarkup ;;
      mret (Goto LEFT_BRAKE_RATE)
    else research_data_set "Left Brake Rate" (text update) ;; next.

Definition add_right_brake_rate (update : Message) : M ret :=
  let next :=
    reply_text "Pedaling Rate (0-10):" get_rate_keyboard ;;
    mret (Goto PEDALING_RATE) in
  if text_is update "Skip" then skip_field "Right Brake Rate" ;; next
  else if text_is update "Back" then
    reply_text "Left Brake Rate (0-10):" get_rate_keyboard ;;
    mret (Goto LEFT_BRAKE_RATE)
  else
    bad <- not_in_range (text update) 0 10 ;;
    if bad then
      reply_text "Select a valid rate (0-10):" NoMarkup ;;
      mret (Goto RIGHT_BRAKE_RATE)
    else research_data_set "Right Brake Rate" (text update) ;; next.

Definition add_pedaling_rate (update : Message) : M ret :=
  let next :=
    reply_text "Speed Rate (0-10):" get_rate_keyboard ;;
    mret (Goto SPEED_RATE) in
  if text_is update "Skip" then skip_field "Pedaling Rate" ;; next
  else if text_is update "Back" then
    reply_text "Right Brake Rate (0-10):" get_rate_keyboard ;;
    mret (Goto RIGHT_BRAKE_RATE)
  else
    bad <- not_in_range (text update) 0 10 ;;
    if bad then
      reply_text "Select a valid rate (0-10):" NoMarkup ;;
      mret (Goto PEDALING_RATE)
    else research_data_set "Pedaling Rate" (text update) ;; next.

Definition add_speed_rate (update : Message) : M ret :=
  let next :=
    reply_text "Any notes?" get_note_keyboard ;; mret (Goto NOTE) in
  if text_is update "Skip" then skip_field "Speed Rate" ;; next
  else if text_is update "Back" then
    reply_text "Pedaling Rate (0-10):" get_rate_keyboard ;;
    mret (Goto PEDALING_RATE)
  else
    bad <- not_in_range (text update) 0 10 ;;
    if bad then
      reply_text "Select a valid rate (0-10):" NoMarkup ;;
      mret (Goto SPEED_RATE)
    else research_data_set "Speed Rate" (text update) ;; next.

(** [now] is the reading of the clock when the handler runs. *)
Definition add_note (now : datetime) (update : Message) : M ret :=
  let finish :=
    let current_datetime := strftime now in
    research_data_set "Date" (Some current_datetime) ;;
    d <- research_data ;;
    reply_text (format_summary d) ReplyKeyboardRemove ;;
    data <- read_csv ;;
    d <- research_data ;;
    write_csv (data ++ [of_dict d]) ;;
    reply_text "Saved" NoMarkup ;;
    user_data_clear ;;
    mret END in
  if text_is update "Skip" then skip_field "Note" ;; finish
  else if text_is update "Back" then
    reply_text "Speed Rate (0-10):" get_rate_keyboard ;;
    mret (Goto SPEED_RATE)
  else research_data_set "Note" (text update) ;; finish.

(** ** The delete command *)

(** [row['Serial ID']]. *)
Definition serial_id_of (r : row_dict) : M value :=
  lookup "Serial ID" (dict_get "Serial ID" (fields r)).

(** [v == s] for a cell [v] and a string [s]. *)
Definition value_is (v : value) (s : string) : bool :=
  match v with
  | Some t => String.eqb t s
  | None => false
  end.

(** [[row for row in data if row['Serial ID'] != serial_id]]. *)
Fixpoint rows_without (serial_id : string) (data : list row_dict)
  : M (list row_dict) :=
  match data with
  | [] => mret []
  | r :: rest =>
      v <- serial_id_of r ;;
      kept <- rows_without serial_id rest ;;
      mret (if value_is v serial_id then kept else r :: kept)
  end.

Definition delete_command (args : list string) (update : Message) : M ret :=
  match args with
  | [] => reply_text "Usage: /delete <Serial ID>" NoMarkup ;; mret ReturnNone
  | _ =>
      let serial_id := Py.join " " args in
      data <- read_csv ;;
      let original_length := length data in
      data <- rows_without serial_id data ;;
      if Nat.ltb (length data) original_length then
        write_csv data ;;
        reply_text ("Deleted '" ++ serial_id ++ "'") NoMarkup ;;
        mret ReturnNone
      else
        reply_text ("Not found '" ++ serial_id ++ "'") NoMarkup ;;
        mret ReturnNone
  end.

(** ** The update flow *)

(** The loop of [update_start]: the first row with the identifier. *)
Fixpoint find_record (serial_id : string) (data : list row_dict)
  : M (option row_dict) :=
  match data with
  | [] => mret None
  | r :: rest =>
      v <- serial_id_of r ;;
      if value_is v serial_id then mret (Some r) else find_record serial_id rest
  end.

(** [not record]: [None] and the empty dictionary are false. *)
Definition falsy (record : option row_dict) : bool :=
  match record with
  | None => true
  | Some r =>
      match fields r, restkey r with
      | [], None => true
      | _, _ => false
      end
  end.

(** [[col for col in CSV_COLUMNS if col not in ['Serial ID', 'Date']]],
    one button per row, and [Cancel]. *)
Definition field_keyboard : markup :=
  let columns :=
    filter (fun col => negb (mem col ["Serial ID"; "Date"])) CSV_COLUMNS in
  ReplyKeyboardMarkup (map (fun col => labels [col]) columns ++ [labels ["Cancel"]]).

Definition update_start (args : list string) (update : Message) : M ret :=
  match args with
  | [] => reply_text "Usage: /update <Serial ID>" NoMarkup ;; mret END
  | _ =>
      let serial_id := Py.join " " args in
      data <- read_csv ;;
      record <- find_record serial_id data ;;
      if falsy record then
        reply_text ("Not found '" ++ serial_id ++ "'") NoMarkup ;; mret END
      else
        u <- get_user_data ;;
        set_user_data {| ud_research_data := ud_research_data u;
                         ud_update_serial_id := Some serial_id;
                         ud_update_record := record;
                         ud_update_field := ud_update_field u |} ;;
        reply_text ("Update field for '" ++ serial_id ++ "':") field_keyboard ;;
        mret (Goto UPDATE_FIELD)
  end.

Definition rate_fields : list string :=
  [ "Pedaling Rate"; "Left Brake Rate"; "Right Brake Rate";
    "Tires Rate"; "Appearence Rate"; "Speed Rate" ].

Definition update_field (update : Message) : M ret :=
  if text_is update "Cancel" then
    user_data_clear ;;
    reply_text "Cancelled" ReplyKeyboardRemove ;;
    mret END
  else
    match text update with
    | None => reply_text "Invalid field" NoMarkup ;; mret (Goto UPDATE_FIELD)
    | Some field =>
        if negb (mem field CSV_COLUMNS) || mem field ["Serial ID"; "Date"] then
          reply_text "Invalid field" NoMarkup ;; mret (Goto UPDATE_FIELD)
        else
          u <- get_user_data ;;
          set_user_data {| ud_research_data := ud_research_data u;
                           ud_update_serial_id := ud_update_serial_id u;
                           ud_update_record := ud_update_record u;
                           ud_update_field := Some field |} ;;
          (if mem field rate_fields then
             reply_text ("New " ++ field ++ " (0-10):") get_rate_keyboard
           else if String.eqb field "Battery Level" then
             reply_text ("New " ++ field ++ " (0-4):") get_battery_keyboard
           else if String.eqb field "Is Straight Parking Angel" then
             reply_text ("New " ++ field ++ ":") get_boolean_keyboard
           else if String.eqb field "Seat Hight" then
             reply_text ("New " ++ field ++ " (1-10):") get_seat_height_keyboard
           else if String.eqb field "Location" then
             reply_text "New Location:" get_location_keyboard
           else
             reply_text ("New " ++ field ++ ":") get_text_input_keyboard) ;;
          mret (Goto UPDATE_VALUE)
    end.

Definition row_set (k : string) (v : value) (r : row_dict) : row_dict :=
  {| fields := dict_set k v (fields r); restkey := restkey r |}.

(** The loop of [update_value]: assign in the first row with the
    identifier, then stop. *)
Fixpoint set_first (serial_id field : string) (v : value) (data : list row_dict)
  : M (list row_dict) :=
  match data with
  | [] => mret []
  | r :: rest =>
      s <- serial_id_of r ;;
      if value_is s serial_id then mret (row_set field v r :: rest)
      else rest' <- set_first serial_id field v rest ;; mret (r :: rest')
  end.

Definition update_value (update : Message) : M ret :=
  let commit (v : value) : M ret :=
    u <- get_user_data ;;
    field <- lookup "update_field" (ud_update_field u) ;;
    serial_id <- lookup "update_serial_id" (ud_update_serial_id u) ;;
    data <- read_csv ;;
    data <- set_first serial_id field v data ;;
    write_csv data ;;
    reply_text "Updated" ReplyKeyboardRemove ;;
    user_data_clear ;;
    mret END in
  let again (body : string) : M ret :=
    reply_text body NoMarkup ;; mret (Goto UPDATE_VALUE) in
  if text_is update "Skip" then commit (Some "N/A")
  else if text_is update "Back" then
    u <- get_user_data ;;
    serial_id <- lookup "update_serial_id" (ud_update_serial_id u) ;;
    reply_text ("Update field for '" ++ serial_id ++ "':") field_keyboard ;;
    mret (Goto UPDATE_FIELD)
  else
    u <- get_user_data ;;
    field <- lookup "update_field" (ud_update_field u) ;;
    if String.eqb field "Location" then
      match location update with
      | Some l => commit (Some (location_text l))
      | None => again "Share location or skip:"
      end
    else if mem field ["Note"; "Inventory Tag"] then commit (text update)
    else
      let v := text update in
      if mem field rate_fields then
        bad <- not_in_range v 0 10 ;;
        if bad then again "Select a valid rate (0-10):" else commit v
      else if String.eqb field "Battery Level" then
        bad <- not_in_range v 0 4 ;;
        if bad then again "Select a valid battery level (0-4):" else commit v
      else if String.eqb field "Is Straight Parking Angel" then
        t <- str_method v ;;
        if negb (mem (Py.lower t) ["true"; "false"]) then
          again "Select 'True' or 'False':"
        else commit (Some (Py.lower t))
      else if String.eqb field "Seat Hight" then
        bad <- not_in_range v 1 10 ;;
        if bad then again "Select a valid height (1-10):" else commit v
      else commit v.

(** ** The remaining commands *)

Definition CSV_FILE : string := "research_data.csv".

Definition str_of_nat (n : nat) : string :=
  DecimalString.NilZero.string_of_uint (Nat.to_uint n).

Definition see_command (update : Message) : M ret :=
  data <- read_csv ;;
  match data with
  | [] => reply_text "No records" NoMarkup ;; mret ReturnNone
  | _ =>
      fun w =>
        (send (SendDocument (match csv_file w with Some t => t | None => [] end)
                            CSV_FILE
                            (str_of_nat (length data) ++ " records")) ;;
         mret ReturnNone) w
  end.

Definition cancel (update : Message) : M ret :=
  user_data_clear ;;
  reply_text "Cancelled" ReplyKeyboardRemove ;;
  mret END.

(** [error_handler] for an exception raised by a handler (none of them is
    a network error): the user is told, nothing else changes. *)
Definition error_handler : M unit :=
  reply_text "An error occurred. Please try again." NoMarkup.

(** ** The application: the handlers registered in [main()]

    One user in one chat.  An incoming message is a new message: a command
    line (a text that starts with a bot command), any other text, or a
    shared location.  Edited messages are outside this model. *)

Inductive event :=
| Command (line : string)
| Text (t : string)
| Shared (l : Location).

(** The command of a command line, and [context.args]: the library sets it
    to [message.text.split()[1:]].  Command lines are taken in their plain
    form; the form that names the bot after the command is outside this
    model. *)
Definition command_of (line : string) : string :=
  match Py.split line with
  | String "/" name :: _ => Py.lower name
  | _ => ""
  end.

Definition context_args (line : string) : list string := tl (Py.split line).

Definition handler := event -> option (M ret).

Definition CommandHandler (command : string)
    (callback : list string -> Message -> M ret) : handler :=
  fun ev =>
    match ev with
    | Command line =>
        if String.eqb (command_of line) command
        then Some (callback (context_args line) (text_message line))
        else None
    | _ => None
    end.

(** [MessageHandler(filters.TEXT & ~filters.COMMAND, callback)]. *)
Definition on_text (callback : Message -> M ret) : handler :=
  fun ev =>
    match ev with
    | Text t => Some (callback (text_message t))
    | _ => None
    end.

(** [MessageHandler(filters.LOCATION, callback)]. *)
Definition on_location (callback : Message -> M ret) : handler :=
  fun ev =>
    match ev with
    | Shared l => Some (callback (location_message l))
    | _ => None
    end.

Fixpoint first_match (hs : list handler) (ev : event) : option (M ret) :=
  match hs with
  | [] => None
  | h :: rest =>
      match h ev with
      | Some c => Some c
      | None => first_match rest ev
      end
  end.

Record ConversationHandler := mkConversation
  { entry_points : list handler;
    states : state -> list handler;
    fallbacks : list handler }.

Definition add_handler (now : datetime) : ConversationHandler :=
  {| entry_points := [CommandHandler "add" (fun _ => add_start)];
     states := fun s =>
       match s with
       | SERIAL_ID => [on_text add_serial_id]
       | INVENTORY_TAG => [on_text add_inventory_tag]
       | LOCATION => [on_location add_location; on_text add_location]
       | PARKING_ANGEL => [on_text add_parking_angel]
       | TIRES_RATE => [on_text add_tires_rate]
       | SEAT_HEIGHT => [on_text add_seat_height]
       | APPEARENCE_RATE => [on_text add_appearence_rate]
       | BATTERY_LEVEL => [on_text add_battery_level]
       | LEFT_BRAKE_RATE => [on_text add_left_brake_rate]
       | RIGHT_BRAKE_RATE => [on_text add_right_brake_rate]
       | PEDALING_RATE => [on_text add_pedaling_rate]
       | SPEED_RATE => [on_text add_speed_rate]
       | NOTE => [on_text (add_note now)]
       | _ => []
       end;
     fallbacks := [CommandHandler "cancel" (fun _ => cancel)] |}.

Definition update_handler : ConversationHandler :=
  {| entry_points := [CommandHandler "update" update_start];
     states := fun s =>
       match s with
       | UPDATE_FIELD => [on_text update_field]
       | UPDATE_VALUE => [on_location update_value; on_text update_value]
       | _ => []
       end;
     fallbacks := [CommandHandler "cancel" (fun _ => cancel)] |}.

(** The handler a conversation picks for an event: an entry point when it
    is not running, else a handler of its state, else a fallback. *)
Definition check_update (c : ConversationHandler) (cur : option state)
    (ev : event) : option (M ret) :=
  match cur with
  | None => first_match (entry_points c) ev
  | Some s =>
      match first_match (states c s) ev with
      | Some h => Some h
      | None => first_match (fallbacks c) ev
      end
  end.

(** A callback is run; if it raises, [error_handler] runs and there is no
    return value. *)
Definition run (c : M ret) (w : world) : world * option ret :=
  match c w with
  | (w', Ok r) => (w', Some r)
  | (w', Raise _) => (fst (error_handler w'), None)
  end.

(** The state of a conversation after a callback: a returned state is
    entered, [END] leaves the conversation, anything else keeps it. *)
Definition next_state (cur : option state) (r : option ret) : option state :=
  match r with
  | Some (Goto s) => Some s
  | Some END => None
  | Some ReturnNone => cur
  | None => cur
  end.

Record system := mkSystem
  { add_conversation : option state;
    update_conversation : option state;
    the_world : world }.

(** One update goes to the first registered handler that takes it:
    [start], the add conversation, [delete], the update conversation,
    [see]. *)
Definition process_update (now : datetime) (ev : event) (s : system) : system :=
  let plain (c : M ret) :=
    {| add_conversation := add_conversation s;
       update_conversation := update_conversation s;
       the_world := fst (run c (the_world s)) |} in
  match CommandHandler "start" (fun _ => start) ev with
  | Some c => plain c
  | None =>
  match check_update (add_handler now) (add_conversation s) ev with
  | Some c =>
      let (w, r) := run c (the_world s) in
      {| add_conversation := next_state (add_conversation s) r;
         update_conversation := update_conversation s;
         the_world := w |}
  | None =>
  match CommandHandler "delete" delete_command ev with
  | Some c => plain c
  | None =>
  match check_update update_handler (update_conversation s) ev with
  | Some c =>
      let (w, r) := run c (the_world s) in
      {| add_conversation := add_conversation s;
         update_conversation := next_state (update_conversation s) r;
         the_world := w |}
  | None =>
  match CommandHandler "see" (fun _ => see_command) ev with
  | Some c => plain c
  | None => s
  end end end end end.

Fixpoint process (evs : list (datetime * event)) (s : system) : system :=
  match evs with
  | [] => s
  | (now, ev) :: rest => process rest (process_update now ev s)
  end.

(** The bot after [main()] has run [initialize_csv]. *)
Definition boot (f : file) : system :=
  {| add_conversation := None;
     update_conversation := None;
     the_world := {| user_data := user_data_empty;
                     csv_file := initialize_csv f;
                     sent := [] |} |}.

(** * Auxiliary definitions for the properties *)

(** ** Integer literals and the range check *)

(** A base-10 literal of a non-negative integer: one or more of the digits
    0..9, nothing else (no sign, no point, no space). *)
Definition is_literal (t : string) : bool :=
  match t with
  | EmptyString => false
  | String _ _ => Py.all_chars Py.isdecimal_char t
  end.

Fixpoint literal_value_from (acc : Z) (t : string) : Z :=
  match t with
  | EmptyString => acc
  | String c r => literal_value_from (10 * acc + Py.decimal_value c) r
  end.

Definition literal_value (t : string) : Z := literal_value_from 0 t.

(** What the condition of the rate steps lets through: it is the negation
    of [not t.isdigit() or int(t) < lo or int(t) > hi] where [int]
    succeeds. *)
Definition accepts_int (lo hi : Z) (t : string) : bool :=
  Py.isdigit t &&
  match Py.int t with
  | Some n => (lo <=? n)%Z && (n <=? hi)%Z
  | None => false
  end.

(** ** The steps of the add flow follow one scheme

    Each handler after [add_serial_id] has the same shape: [Skip], [Back],
    else a check of the input that either asks again or stores a value.
    [wizard_step] is that shape; the handlers are shown to be instances of
    it, so that what holds of the scheme holds of each of them. *)

Inductive verdict := Reject (prompt : string) | Accept (v : value).

Definition wizard_step (F : string) (back : M ret)
    (check : Message -> M verdict) (self : state) (next : M ret)
    (update : Message) : M ret :=
  if text_is update "Skip" then skip_field F ;; next
  else if text_is update "Back" then back
  else
    r <- check update ;;
    match r with
    | Reject p => reply_text p NoMarkup ;; mret (Goto self)
    | Accept v => research_data_set F v ;; next
    end.

Definition free_text (update : Message) : M verdict :=
  mret (Accept (text update)).

Definition shared_location (update : Message) : M verdict :=
  match location update with
  | Some l => mret (Accept (Some (location_text l)))
  | None => mret (Reject "Please share location or skip:")
  end.

Definition boolean (update : Message) : M verdict :=
  t <- str_method (text update) ;;
  if negb (mem (Py.lower t) ["true"; "false"])
  then mret (Reject "Select 'True' or 'False':")
  else mret (Accept (Some (Py.lower t))).

Definition int_range (lo hi : Z) (prompt : string) (update : Message)
  : M verdict :=
  bad <- not_in_range (text update) lo hi ;;
  mret (if bad then Reject prompt else Accept (text update)).

(** The prompt that opens a step, as the handler before it sends it. *)
Definition prompt (s : state) : reply :=
  match s with
  | SERIAL_ID => SendText "Enter Serial ID:" get_serial_id_keyboard
  | INVENTORY_TAG => SendText "Enter Inventory Tag:" get_text_input_keyboard
  | LOCATION => SendText "Location:" get_location_keyboard
  | PARKING_ANGEL => SendText "Is Straight Parking Angel? " get_boolean_keyboard
  | TIRES_RATE => SendText "Tires Rate (0-10):" get_rate_keyboard
  | SEAT_HEIGHT => SendText "Seat Hight (1-10):" get_seat_height_keyboard
  | APPEARENCE_RATE => SendText "Appearence Rate (0-10):" get_rate_keyboard
  | BATTERY_LEVEL => SendText "Battery Level (0-4):" get_battery_keyboard
  | LEFT_BRAKE_RATE => SendText "Left Brake Rate (0-10):" get_rate_keyboard
  | RIGHT_BRAKE_RATE => SendText "Right Brake Rate (0-10):" get_rate_keyboard
  | PEDALING_RATE => SendText "Pedaling Rate (0-10):" get_rate_keyboard
  | SPEED_RATE => SendText "Speed Rate (0-10):" get_rate_keyboard
  | NOTE => SendText "Any notes?" get_note_keyboard
  | UPDATE_FIELD | UPDATE_VALUE => SendText "" NoMarkup
  end.

(** The reply of the [Back] branch of each handler, as the handler has
    it. *)
Definition back_prompt (s : state) : reply :=
  match s with
  | INVENTORY_TAG => prompt SERIAL_ID
  | LOCATION => prompt INVENTORY_TAG
  | PARKING_ANGEL => prompt LOCATION
  | TIRES_RATE => SendText "Is Straight Parking Angel?" get_boolean_keyboard
  | SEAT_HEIGHT => prompt TIRES_RATE
  | APPEARENCE_RATE => prompt SEAT_HEIGHT
  | BATTERY_LEVEL => prompt APPEARENCE_RATE
  | LEFT_BRAKE_RATE => prompt BATTERY_LEVEL
  | RIGHT_BRAKE_RATE => prompt LEFT_BRAKE_RATE
  | PEDALING_RATE => prompt RIGHT_BRAKE_RATE
  | SPEED_RATE => prompt PEDALING_RATE
  | NOTE => prompt SPEED_RATE
  | s => prompt s
  end.

(** The order of the steps. *)
Definition previous (s : state) : state :=
  match s with
  | SERIAL_ID => SERIAL_ID
  | INVENTORY_TAG => SERIAL_ID
  | LOCATION => INVENTORY_TAG
  | PARKING_ANGEL => LOCATION
  | TIRES_RATE => PARKING_ANGEL
  | SEAT_HEIGHT => TIRES_RATE
  | APPEARENCE_RATE => SEAT_HEIGHT
  | BATTERY_LEVEL => APPEARENCE_RATE
  | LEFT_BRAKE_RATE => BATTERY_LEVEL
  | RIGHT_BRAKE_RATE => LEFT_BRAKE_RATE
  | PEDALING_RATE => RIGHT_BRAKE_RATE
  | SPEED_RATE => PEDALING_RATE
  | NOTE => SPEED_RATE
  | UPDATE_FIELD => UPDATE_FIELD
  | UPDATE_VALUE => UPDATE_VALUE
  end.

Definition following (s : state) : state :=
  match s with
  | SERIAL_ID => INVENTORY_TAG
  | INVENTORY_TAG => LOCATION
  | LOCATION => PARKING_ANGEL
  | PARKING_ANGEL => TIRES_RATE
  | TIRES_RATE => SEAT_HEIGHT
  | SEAT_HEIGHT => APPEARENCE_RATE
  | APPEARENCE_RATE => BATTERY_LEVEL
  | BATTERY_LEVEL => LEFT_BRAKE_RATE
  | LEFT_BRAKE_RATE => RIGHT_BRAKE_RATE
  | RIGHT_BRAKE_RATE => PEDALING_RATE
  | PEDALING_RATE => SPEED_RATE
  | SPEED_RATE => NOTE
  | s => s
  end.

(** The field a step fills, in the order of the steps. *)
Definition WIZARD_FIELDS : list string :=
  [ "Serial ID"; "Inventory Tag"; "Location"; "Is Straight Parking Angel";
    "Tires Rate"; "Seat Hight"; "Appearence Rate"; "Battery Level";
    "Left Brake Rate"; "Right Brake Rate"; "Pedaling Rate"; "Speed Rate";
    "Note" ].

Definition position (s : state) : nat :=
  match s with
  | SERIAL_ID => 0 | INVENTORY_TAG => 1 | LOCATION => 2 | PARKING_ANGEL => 3
  | TIRES_RATE => 4 | SEAT_HEIGHT => 5 | APPEARENCE_RATE => 6
  | BATTERY_LEVEL => 7 | LEFT_BRAKE_RATE => 8 | RIGHT_BRAKE_RATE => 9
  | PEDALING_RATE => 10 | SPEED_RATE => 11 | NOTE => 12
  | UPDATE_FIELD => 13 | UPDATE_VALUE => 14
  end.

Definition field_of (s : state) : string := nth (position s) WIZARD_FIELDS "".

(** The steps after the Serial ID. *)
Definition later_steps : list state :=
  [ INVENTORY_TAG; LOCATION; PARKING_ANGEL; TIRES_RATE; SEAT_HEIGHT;
    APPEARENCE_RATE; BATTERY_LEVEL; LEFT_BRAKE_RATE; RIGHT_BRAKE_RATE;
    PEDALING_RATE; SPEED_RATE; NOTE ].

(** The check a step applies to an input that is neither [Skip] nor
    [Back]. *)
Definition check_of (s : state) : Message -> M verdict :=
  match s with
  | LOCATION => shared_location
  | PARKING_ANGEL => boolean
  | TIRES_RATE | APPEARENCE_RATE | LEFT_BRAKE_RATE | RIGHT_BRAKE_RATE
  | PEDALING_RATE | SPEED_RATE => int_range 0 10 "Select a valid rate (0-10):"
  | SEAT_HEIGHT => int_range 1 10 "Select a valid height (1-10):"
  | BATTERY_LEVEL => int_range 0 4 "Select a valid battery level (0-4):"
  | _ => free_text
  end.

(** The handler registered for a state of the add conversation. *)
Definition callback (now : datetime) (s : state) : Message -> M ret :=
  match s with
  | SERIAL_ID => add_serial_id
  | INVENTORY_TAG => add_inventory_tag
  | LOCATION => add_location
  | PARKING_ANGEL => add_parking_angel
  | TIRES_RATE => add_tires_rate
  | SEAT_HEIGHT => add_seat_height
  | APPEARENCE_RATE => add_appearence_rate
  | BATTERY_LEVEL => add_battery_level
  | LEFT_BRAKE_RATE => add_left_brake_rate
  | RIGHT_BRAKE_RATE => add_right_brake_rate
  | PEDALING_RATE => add_pedaling_rate
  | SPEED_RATE => add_speed_rate
  | NOTE => add_note now
  | UPDATE_FIELD => update_field
  | UPDATE_VALUE => update_value
  end.

(** What follows the step once its field is settled: the next prompt, or
    at the last step the stamping, the summary and the saving. *)
Definition finish (now : datetime) : M ret :=
  research_data_set "Date" (Some (strftime now)) ;;
  d <- research_data ;;
  reply_text (format_summary d) ReplyKeyboardRemove ;;
  data <- read_csv ;;
  d <- research_data ;;
  write_csv (data ++ [of_dict d]) ;;
  reply_text "Saved" NoMarkup ;;
  user_data_clear ;;
  mret END.

Definition onward (now : datetime) (s : state) : M ret :=
  match s with
  | NOTE => finish now
  | _ => send (prompt (following s)) ;; mret (Goto (following s))
  end.

Definition go_back (s : state) : M ret :=
  send (back_prompt s) ;; mret (Goto (previous s)).

(** ** The store as a table of records *)

(** A world with another in-progress record, and with one more reply. *)
Definition with_research (d : dict) (w : world) : world :=
  {| user_data := {| ud_research_data := Some d;
                     ud_update_serial_id := ud_update_serial_id (user_data w);
                     ud_update_record := ud_update_record (user_data w);
                     ud_update_field := ud_update_field (user_data w) |};
     csv_file := csv_file w;
     sent := sent w |}.

Definition with_sent (r : reply) (w : world) : world :=
  {| user_data := user_data w; csv_file := csv_file w; sent := sent w ++ [r] |}.

Definition with_file (f : file) (w : world) : world :=
  {| user_data := user_data w; csv_file := f; sent := sent w |}.

Definition cleared (w : world) : world :=
  {| user_data := user_data_empty; csv_file := csv_file w; sent := sent w |}.

(** The file holds the header of the schema and rows of as many cells. *)
Definition width_ok (r : row) : Prop := length r = length CSV_COLUMNS.

Definition store_ok (f : file) : Prop :=
  exists rows, f = Some (CSV_COLUMNS :: rows) /\ Forall width_ok rows.

(** The place of a column in the header, and the cell of a row there. *)
Fixpoint index_of (k : string) (l : list string) : nat :=
  match l with
  | [] => 0
  | x :: r => if String.eqb x k then 0 else S (index_of k r)
  end.

Definition column (k : string) : nat := index_of k CSV_COLUMNS.

Definition get_cell (k : string) (r : row) : string := nth (column k) r "".

Fixpoint put_nth (n : nat) (v : string) (r : row) : row :=
  match r, n with
  | [], _ => []
  | _ :: rest, O => v :: rest
  | x :: rest, S n' => x :: put_nth n' v rest
  end.

Definition put_cell (k : string) (v : string) (r : row) : row :=
  put_nth (column k) v r.

Definition has_serial (serial_id : string) (r : row) : bool :=
  String.eqb (get_cell "Serial ID" r) serial_id.

(** The first row with the identifier gets the cell; the others stay. *)
Fixpoint put_first (serial_id k v : string) (rows : list row) : list row :=
  match rows with
  | [] => []
  | r :: rest =>
      if has_serial serial_id r then put_cell k v r :: rest
      else r :: put_first serial_id k v rest
  end.

(** The cell the writer produces for a value. *)
Definition cell_of_value (v : value) : string :=
  match v with Some s => s | None => "" end.

(** The columns the update flow offers. *)
Definition updatable (k : string) : bool :=
  mem k CSV_COLUMNS && negb (mem k ["Serial ID"; "Date"]).

(** A store with three records, two of them under one identifier. *)
Definition sample_rows : list row :=
  [ ["BK-001"; "T-7"; "8"; "9"; "N/A"; "7"; "10"; "4"; "true"; "5";
     "41.38, 2.17"; "6"; "front light missing"; "2026-11-03 09:05:07"];
    ["BK-002"; "N/A"; "N/A"; "N/A"; "N/A"; "N/A"; "N/A"; "N/A"; "N/A"; "N/A";
     "N/A"; "N/A"; "N/A"; "2026-11-03 09:12:40"];
    ["BK-001"; "T-9"; "3"; "3"; "3"; "3"; "3"; "3"; "false"; "3";
     "N/A"; "3"; "duplicate of the first"; "2026-11-03 10:00:00"] ].

Definition sample_world : world :=
  {| user_data := user_data_empty;
     csv_file := Some (CSV_COLUMNS :: sample_rows);
     sent := [] |}.

(** The tail of [update_value] that writes the value [v]. *)
Definition commit_value (v : value) : M ret :=
  u <- get_user_data ;;
  field <- lookup "update_field" (ud_update_field u) ;;
  serial_id <- lookup "update_serial_id" (ud_update_serial_id u) ;;
  data <- read_csv ;;
  data <- set_first serial_id field v data ;;
  write_csv data ;;
  reply_text "Updated" ReplyKeyboardRemove ;;
  user_data_clear ;;
  mret END.

(** What the check of a field lets through, for an input that is neither
    [Skip] nor [Back]: the value that is then stored. *)
Inductive checked : string -> value -> Prop :=
| checked_text k o :
    mem k ["Note"; "Inventory Tag"] = true ->
    o <> Some "Skip" -> o <> Some "Back" -> checked k o
| checked_rate k t :
    mem k rate_fields = true -> accepts_int 0 10 t = true ->
    checked k (Some t)
| checked_battery t :
    accepts_int 0 4 t = true -> checked "Battery Level" (Some t)
| checked_seat t :
    accepts_int 1 10 t = true -> checked "Seat Hight" (Some t)
| checked_boolean t :
    mem (Py.lower t) ["true"; "false"] = true ->
    checked "Is Straight Parking Angel" (Some (Py.lower t))
| checked_location l : checked "Location" (Some (location_text l)).

(** What the checks of the steps accept for a field, as strings. *)
Definition accepted (k : string) (v : string) : Prop :=
  if mem k rate_fields then accepts_int 0 10 v = true
  else if String.eqb k "Battery Level" then accepts_int 0 4 v = true
  else if String.eqb k "Seat Hight" then accepts_int 1 10 v = true
  else if String.eqb k "Is Straight Parking Angel" then
    mem (Py.lower v) ["true"; "false"] = true
  else if String.eqb k "Location" then exists l, v = location_text l
  else if String.eqb k "Date" then exists t, v = strftime t
  else True.

Definition valid_cell (k : string) (v : string) : Prop :=
  v = "N/A" \/ accepted k v.

(** ** Invariants of the store and the session

    They are stated once for a property [good k v] of a cell [v] in the
    column [k], and used for two such properties below. *)

Definition entry_good (good : string -> string -> Prop) (kv : string * value)
  : Prop :=
  good (fst kv) (cell_of_value (snd kv)).

(** A row has one good cell per column of the header, in its order. *)
Definition row_good (good : string -> string -> Prop) (r : row) : Prop :=
  Forall2 good CSV_COLUMNS r.

Definition store_good (good : string -> string -> Prop) (f : file) : Prop :=
  exists rows, f = Some (CSV_COLUMNS :: rows) /\ Forall (row_good good) rows.

(** The in-progress record at a step: its keys are the fields of the
    steps up to some step that is not before the current one, in the
    order of the steps, and its values are good. *)
Definition record_good (good : string -> string -> Prop) (st : state)
    (d : dict) : Prop :=
  exists n, position st <= n <= 13
            /\ dict_keys d = firstn n WIZARD_FIELDS
            /\ Forall (entry_good good) d.

Definition world_good (good : string -> string -> Prop) (w : world) : Prop :=
  store_good good (csv_file w)
  /\ forall k, ud_update_field (user_data w) = Some k -> updatable k = true.

Definition session_good (good : string -> string -> Prop) (s : system) : Prop :=
  world_good good (the_world s)
  /\ forall st, add_conversation s = Some st ->
                position st <= 12
                /\ forall d, ud_research_data (user_data (the_world s)) = Some d ->
                             record_good good st d.

(** The invariant of the store: every cell is ["N/A"] or a string the
    check of its column accepts. *)
Definition store_valid (f : file) : Prop := store_good valid_cell f.

(** No cell outside the Serial ID column is one of the two tokens. *)
Definition no_token (k v : string) : Prop :=
  k = "Serial ID" \/ (v <> "Back" /\ v <> "Skip").

(** The in-progress record is as it was, or gone. *)
Definition research_kept (w w' : world) : Prop :=
  ud_research_data (user_data w') = ud_research_data (user_data w)
  \/ ud_research_data (user_data w') = None.

(** What has to hold after a handler of the add conversation ran in the
    state [st], ending in the world [w'] with the return value [ro]. *)
Definition step_post (good : string -> string -> Prop) (st : state)
    (w' : world) (ro : option ret) : Prop :=
  world_good good w'
  /\ forall s', next_state (Some st) ro = Some s' ->
                position s' <= 12
                /\ forall d, ud_research_data (user_data w') = Some d ->
                             record_good good s' d.

Definition error_reply : reply :=
  SendText "An error occurred. Please try again." NoMarkup.

(** The handlers outside the steps of the add flow. *)
Inductive other_callback : M ret -> Prop :=
| oc_start m : other_callback (start m)
| oc_delete args m : other_callback (delete_command args m)
| oc_update_start args m : other_callback (update_start args m)
| oc_update_field m : other_callback (update_field m)
| oc_update_value m : other_callback (update_value m)
| oc_see m : other_callback (see_command m)
| oc_cancel m : other_callback (cancel m).

(** A session for the examples: an update of the tires rate of BK-001 is
    under way when the add flow is entered; there the identifier and a tag
    are given, and [Back] is pressed at the location step. *)
Definition t0 : datetime :=
  {| year := 2026; month := 11; day := 3; hour := 9; minute := 5; second := 7 |}.

Definition at_t0 (evs : list event) : list (datetime * event) :=
  map (fun ev => (t0, ev)) evs.

Definition demo_events : list (datetime * event) :=
  at_t0 [ Command "/update BK-001"; Text "Tires Rate"; Command "/add";
          Text "BK-001"; Text "T-7"; Text "Back" ].

Definition demo_record : dict :=
  [ ("Serial ID", Some "BK-001"); ("Inventory Tag", Some "T-7") ].

(** The state the bot is in after these events. *)
Definition demo_world : world :=
  {| user_data :=
       {| ud_research_data := Some demo_record;
          ud_update_serial_id := Some "BK-001";
          ud_update_record :=
            Some (of_dict (combine CSV_COLUMNS (map Some (hd [] sample_rows))));
          ud_update_field := Some "Tires Rate" |};
     csv_file := Some (CSV_COLUMNS :: sample_rows);
     sent :=
       [ SendText "Update field for 'BK-001':" field_keyboard;
         SendText "New Tires Rate (0-10):" get_rate_keyboard;
         SendText "Enter Serial ID:" get_serial_id_keyboard;
         SendText "Enter Inventory Tag:" get_text_input_keyboard;
         SendText "Location:" get_location_keyboard;
         SendText "Enter Inventory Tag:" get_text_input_keyboard ] |}.

Definition demo_session : system :=
  {| add_conversation := Some INVENTORY_TAG;
     update_conversation := Some UPDATE_VALUE;
     the_world := demo_world |}.

(** The steps whose input is checked against a range of integers. *)
Definition int_steps : list state :=
  [ TIRES_RATE; SEAT_HEIGHT; APPEARENCE_RATE; BATTERY_LEVEL;
    LEFT_BRAKE_RATE; RIGHT_BRAKE_RATE; PEDALING_RATE; SPEED_RATE ].

Definition range_of (s : state) : Z * Z :=
  match s with
  | SEAT_HEIGHT => (1, 10)%Z
  | BATTERY_LEVEL => (0, 4)%Z
  | _ => (0, 10)%Z
  end.

Definition range_prompt (s : state) : string :=
  match s with
  | SEAT_HEIGHT => "Select a valid height (1-10):"
  | BATTERY_LEVEL => "Select a valid battery level (0-4):"
  | _ => "Select a valid rate (0-10):"
  end.

(** A store with one record whose identifier has two spaces in it. *)
Definition spaced_rows : list row :=
  [ ["BK  001"; "N/A"; "N/A"; "N/A"; "N/A"; "N/A"; "N/A"; "N/A"; "N/A"; "N/A";
     "N/A"; "N/A"; "N/A"; "2026-11-03 09:05:07"] ].

(** The events of an add flow in which only the identifier is given: the
    command, the identifier, then [Skip] twelve times; event [i] arrives at
    [clock i]. *)
Definition all_skipped (clock : nat -> datetime) : list (datetime * event) :=
  (clock 0, Command "/add") :: (clock 1, Text "BK-001")
  :: map (fun i => (clock i, Text "Skip")) (seq 2 12).

(** The row of a record with the identifier alone, stamped [stamp]. *)
Definition skipped_row (stamp : string) : row :=
  [ "BK-001"; "N/A"; "N/A"; "N/A"; "N/A"; "N/A"; "N/A"; "N/A"; "N/A"; "N/A";
    "N/A"; "N/A"; "N/A"; stamp ].

(** The record in the order in which the steps fill it. *)
Definition skipped_record (stamp : string) : dict :=
  [ ("Serial ID", Some "BK-001"); ("Inventory Tag", Some "N/A");
    ("Location", Some "N/A"); ("Is Straight Parking Angel", Some "N/A");
    ("Tires Rate", Some "N/A"); ("Seat Hight", Some "N/A");
    ("Appearence Rate", Some "N/A"); ("Battery Level", Some "N/A");
    ("Left Brake Rate", Some "N/A"); ("Right Brake Rate", Some "N/A");
    ("Pedaling Rate", Some "N/A"); ("Speed Rate", Some "N/A");
    ("Note", Some "N/A"); ("Date", Some stamp) ].

(** A summary that lists the fields in the order of the header. *)
Definition summary_in_column_order (d : dict) : string :=
  fold_left
    (fun summary k =>
       summary ++ k ++ ": " ++
       str_of_value (match dict_get k d with Some v => v | None => None end)
       ++ newline)
    CSV_COLUMNS ("Summary:" ++ newline ++ newline).

(** The lines of a summary, one per entry, and their concatenation. *)
Definition summary_line (kv : string * value) : string :=
  fst kv ++ ": " ++ str_of_value (snd kv) ++ newline.

Fixpoint join_lines (l : list string) : string :=
  match l with
  | [] => ""
  | x :: r => x ++ join_lines r
  end.

(** The property of cells that holds of every cell. *)
Definition any_cell (k v : string) : Prop := True.

(** The state at the last step of an add flow in which everything after
    the identifier was skipped. *)
Definition note_world : world :=
  {| user_data :=
       {| ud_research_data := Some (firstn 12 (skipped_record ""));
          ud_update_serial_id := None;
          ud_update_record := None;
          ud_update_field := None |};
     csv_file := Some (CSV_COLUMNS :: sample_rows);
     sent := prompt SERIAL_ID :: map prompt later_steps |}.

Definition note_session : system :=
  {| add_conversation := Some NOTE;
     update_conversation := None;
     the_world := note_world |}.

(** ** Further definitions: rows of other widths *)

(** A row filled up with empty cells to the width of the header. *)
Definition pad (r : row) : row :=
  (r ++ repeat "" (length CSV_COLUMNS - length r))%list.

Definition not_blank_row (r : row) : bool := negb (is_blank r).

(** A store with a blank row, a row of three cells and a full row. *)
Definition ragged_rows : list row :=
  [ []; ["BK-007"; "T-1"; "9"]; hd [] sample_rows ].

(** A store whose second row has one cell more than the header. *)
Definition long_rows : list row :=
  [ hd [] sample_rows;
    (skipped_row "2026-11-03 09:05:07" ++ ["stray"])%list;
    skipped_row "2026-11-03 09:05:08" ].

Definition store_only (rows : list row) : world :=
  {| user_data := user_data_empty;
     csv_file := Some (CSV_COLUMNS :: rows);
     sent := [] |}.

(** ** Further definitions: the update flow and the commands *)

Definition markup_of (r : reply) : markup :=
  match r with
  | SendText _ m => m
  | SendDocument _ _ _ => NoMarkup
  end.

(** The world after [update_field] has taken the field [k]. *)
Definition with_update_field (k : string) (w : world) : world :=
  {| user_data :=
       {| ud_research_data := ud_research_data (user_data w);
          ud_update_serial_id := ud_update_serial_id (user_data w);
          ud_update_record := ud_update_record (user_data w);
          ud_update_field := Some k |};
     csv_file := csv_file w;
     sent := sent w |}.

(** The columns that can be chosen in the update flow. *)
Definition UPDATABLE : list string :=
  [ "Inventory Tag"; "Pedaling Rate"; "Left Brake Rate"; "Right Brake Rate";
    "Tires Rate"; "Appearence Rate"; "Battery Level";
    "Is Straight Parking Angel"; "Seat Hight"; "Location"; "Speed Rate";
    "Note" ].

(** An update of BK-002 has been started, the record was deleted, and
    then the tires rate was chosen. *)
Definition orphan_events : list (datetime * event) :=
  at_t0 [ Command "/update BK-002"; Command "/delete BK-002";
          Text "Tires Rate" ].

Definition orphan_world : world :=
  {| user_data :=
       {| ud_research_data := None;
          ud_update_serial_id := Some "BK-002";
          ud_update_record :=
            Some (of_dict (combine CSV_COLUMNS (map Some (nth 1 sample_rows []))));
          ud_update_field := Some "Tires Rate" |};
     csv_file :=
       Some (CSV_COLUMNS :: [nth 0 sample_rows []; nth 2 sample_rows []]);
     sent :=
       [ SendText "Update field for 'BK-002':" field_keyboard;
         SendText "Deleted 'BK-002'" NoMarkup;
         SendText "New Tires Rate (0-10):" get_rate_keyboard ] |}.

(** The world after [update_value] has written the cell [v] into the
    column [k] of the first row with the identifier. *)
Definition updated (serial_id k v : string) (rows : list row) (w : world)
  : world :=
  cleared
    (with_sent (SendText "Updated" ReplyKeyboardRemove)
       (with_file (Some (CSV_COLUMNS :: put_first serial_id k v rows)) w)).

(** ** Further definitions: the two conversations side by side *)

(** The session of the examples after [/cancel]: the add flow has ended,
    the update flow still waits for a value. *)
Definition stranded_session : system :=
  {| add_conversation := None;
     update_conversation := Some UPDATE_VALUE;
     the_world :=
       with_sent (SendText "Cancelled" ReplyKeyboardRemove) (cleared demo_world) |}.

(** An update of the note of BK-002 is under way when the add flow is
    entered and the identifier is given. *)
Definition crossed_events : list (datetime * event) :=
  at_t0 [ Command "/update BK-002"; Text "Note"; Command "/add";
          Text "BK-009" ].

Definition crossed_session : system :=
  {| add_conversation := Some INVENTORY_TAG;
     update_conversation := Some UPDATE_VALUE;
     the_world :=
       {| user_data :=
            {| ud_research_data := Some [("Serial ID", Some "BK-009")];
               ud_update_serial_id := Some "BK-002";
               ud_update_record :=
                 Some (of_dict
                         (combine CSV_COLUMNS (map Some (nth 1 sample_rows []))));
               ud_update_field := Some "Note" |};
          csv_file := Some (CSV_COLUMNS :: sample_rows);
          sent :=
            [ SendText "Update field for 'BK-002':" field_keyboard;
              SendText "New Note:" get_text_input_keyboard;
              SendText "Enter Serial ID:" get_serial_id_keyboard;
              SendText "Enter Inventory Tag:" get_text_input_keyboard ] |} |}.

(** A word of [split]: not empty, and without white space. *)
Definition word (x : string) : Prop :=
  x <> "" /\ Py.all_chars (fun c => negb (Py.isspace_char c)) x = true.

(** ** Further definitions: a file with another header *)

(** A file left by another program: its first row lacks the Serial ID. *)
Definition foreign_table : table :=
  [ ["Bike"; "Remark"]; ["BK-001"; "left at the depot"] ].

(** ** Further definitions: the handler that takes an update *)

(** The callback [process_update] runs for an event, if any handler takes
    it: the first of the registered handlers, in their order. *)
Definition chosen (now : datetime) (ev : event) (s : system) : option (M ret) :=
  match CommandHandler "start" (fun _ => start) ev with
  | Some c => Some c
  | None =>
  match check_update (add_handler now) (add_conversation s) ev with
  | Some c => Some c
  | None =>
  match CommandHandler "delete" delete_command ev with
  | Some c => Some c
  | None =>
  match check_update update_handler (update_conversation s) ev with
  | Some c => Some c
  | None => CommandHandler "see" (fun _ => see_command) ev
  end end end end.

(** * Properties *)

(** ** Integer literals and the range check *)

Lemma decimal_char_facts (c : ascii) :
  Py.isdecimal_char c = true ->
  Py.isspace_char c = false /\ Ascii.eqb c "-" = false /\
  Ascii.eqb c "+" = false /\ Ascii.eqb c "_" = false /\
  Py.isdigit_char c = true /\ (0 <= Py.decimal_value c <= 9)%Z.
Proof.
  destruct c as [[] [] [] [] [] [] [] []]; vm_compute; intros H;
    try discriminate H; repeat split; discriminate.
Qed.

Lemma digit_char_facts (c : ascii) :
  Py.isdigit_char c = true ->
  Py.isspace_char c = false /\ Ascii.eqb c "-" = false /\
  Ascii.eqb c "+" = false /\ Ascii.eqb c "_" = false.
Proof.
  destruct c as [[] [] [] [] [] [] [] []]; vm_compute; intros H;
    try discriminate H; repeat split.
Qed.

Lemma rstrip_digits (t : string) :
  Py.all_chars Py.isdigit_char t = true -> Py.rstrip t = t.
Proof.
  induction t as [|c r IH]; simpl; [reflexivity|].
  intros H. apply andb_prop in H. destruct H as [Hc Hr].
  rewrite (IH Hr). destruct r as [|d r'].
  - destruct (digit_char_facts c Hc) as [-> _]. reflexivity.
  - reflexivity.
Qed.

Lemma lstrip_digits (t : string) :
  Py.all_chars Py.isdigit_char t = true -> Py.lstrip t = t.
Proof.
  destruct t as [|c r]; simpl; [reflexivity|].
  intros H. apply andb_prop in H. destruct H as [Hc _].
  destruct (digit_char_facts c Hc) as [-> _]. reflexivity.
Qed.

Lemma all_decimal_digit (t : string) :
  Py.all_chars Py.isdecimal_char t = true ->
  Py.all_chars Py.isdigit_char t = true.
Proof.
  induction t as [|c r IH]; simpl; [reflexivity|].
  intros H. apply andb_prop in H. destruct H as [Hc Hr].
  destruct (decimal_char_facts c Hc) as (_ & _ & _ & _ & -> & _).
  simpl. auto.
Qed.

Lemma int_digits_literal (t : string) (acc : Z) :
  Py.all_chars Py.isdecimal_char t = true ->
  Py.int_digits t acc = Some (literal_value_from acc t).
Proof.
  revert acc. induction t as [|c r IH]; intros acc; simpl; [reflexivity|].
  intros H. apply andb_prop in H. destruct H as [Hc Hr].
  destruct (decimal_char_facts c Hc) as (_ & _ & _ & -> & _).
  rewrite Hc. apply IH, Hr.
Qed.

(** [int] reads a literal as its value. *)
Lemma int_of_literal (t : string) :
  is_literal t = true -> Py.int t = Some (literal_value t).
Proof.
  intros H. unfold Py.int.
  assert (Hall : Py.all_chars Py.isdecimal_char t = true)
    by (destruct t; [discriminate|exact H]).
  rewrite lstrip_digits, rstrip_digits by (apply all_decimal_digit, Hall).
  destruct t as [|c r]; [discriminate|].
  pose proof Hall as Hall'. simpl in Hall'. apply andb_prop in Hall'.
  destruct Hall' as [Hc _].
  destruct (decimal_char_facts c Hc) as (_ & -> & -> & _).
  unfold Py.int_unsigned. rewrite Hc.
  apply int_digits_literal, Hall.
Qed.

Lemma int_digits_not_literal (t : string) (acc : Z) :
  Py.all_chars Py.isdigit_char t = true ->
  Py.all_chars Py.isdecimal_char t = false ->
  Py.int_digits t acc = None.
Proof.
  revert acc. induction t as [|c r IH]; intros acc; simpl; [discriminate|].
  intros H Hn. apply andb_prop in H. destruct H as [Hc Hr].
  destruct (digit_char_facts c Hc) as (_ & _ & _ & ->).
  destruct (Py.isdecimal_char c) eqn:Hd; [|reflexivity].
  simpl in Hn. apply IH; assumption.
Qed.

(** A string of digits for [isdigit] that is not a literal makes [int]
    raise. *)
Lemma int_of_other_digits (t : string) :
  Py.isdigit t = true -> is_literal t = false -> Py.int t = None.
Proof.
  intros H Hn. unfold Py.int.
  assert (Hall : Py.all_chars Py.isdigit_char t = true)
    by (destruct t; [discriminate|exact H]).
  rewrite lstrip_digits, rstrip_digits by exact Hall.
  destruct t as [|c r]; [discriminate|].
  pose proof Hall as Hall'. simpl in Hall'. apply andb_prop in Hall'.
  destruct Hall' as [Hc _].
  destruct (digit_char_facts c Hc) as (_ & -> & -> & _).
  unfold Py.int_unsigned.
  destruct (Py.isdecimal_char c) eqn:Hd; [|reflexivity].
  apply int_digits_not_literal; assumption.
Qed.

Lemma literal_isdigit (t : string) : is_literal t = true -> Py.isdigit t = true.
Proof.
  destruct t as [|c r]; [discriminate|].
  intros H. apply (all_decimal_digit (String c r)), H.
Qed.

(** The strings the range check lets through are the literals whose value
    lies in the range. *)
Lemma accepts_int_iff (lo hi : Z) (t : string) :
  accepts_int lo hi t = true <->
  is_literal t = true /\ (lo <= literal_value t <= hi)%Z.
Proof.
  unfold accepts_int. split.
  - intros H. apply andb_prop in H. destruct H as [Hd Hr].
    destruct (is_literal t) eqn:Hl.
    + rewrite (int_of_literal t Hl) in Hr. split; [reflexivity|]. lia.
    + rewrite (int_of_other_digits t Hd Hl) in Hr. discriminate.
  - intros [Hl Hr]. rewrite (literal_isdigit t Hl), (int_of_literal t Hl).
    simpl. apply andb_true_intro. split; lia.
Qed.

(** ** Running handlers *)

Lemma bind_ok {A B} (m : M A) (k : A -> M B) (w w' : world) (a : A) :
  m w = (w', Ok a) -> bind m k w = k a w'.
Proof. intros H. unfold bind. rewrite H. reflexivity. Qed.

Lemma bind_raise {A B} (m : M A) (k : A -> M B) (w w' : world) (e : exn) :
  m w = (w', Raise e) -> bind m k w = (w', Raise e).
Proof. intros H. unfold bind. rewrite H. reflexivity. Qed.

Lemma bind_bind {A B C} (m : M A) (f : A -> M B) (g : B -> M C) (w : world) :
  bind (bind m f) g w = bind m (fun a => bind (f a) g) w.
Proof. unfold bind. destruct (m w) as [w' [a|e]]; reflexivity. Qed.

Lemma bind_ext {A B} (m : M A) (f g : A -> M B) (w : world) :
  (forall a w', f a w' = g a w') -> bind m f w = bind m g w.
Proof.
  intros H. unfold bind. destruct (m w) as [w' [a|e]]; [apply H|reflexivity].
Qed.

Lemma bind_get {B} (k : UserData -> M B) (w : world) :
  bind get_user_data k w = k (user_data w) w.
Proof. reflexivity. Qed.

Lemma bind_mret {A B} (a : A) (k : A -> M B) (w : world) :
  bind (mret a) k w = k a w.
Proof. reflexivity. Qed.

Lemma world_eta (w : world) :
  {| user_data := user_data w; csv_file := csv_file w; sent := sent w |} = w.
Proof. destruct w; reflexivity. Qed.

Lemma research_data_ok (w : world) (d : dict) :
  ud_research_data (user_data w) = Some d -> research_data w = (w, Ok d).
Proof.
  intros H. unfold research_data, bind, get_user_data. rewrite H. reflexivity.
Qed.

Lemma research_data_missing (w : world) :
  ud_research_data (user_data w) = None ->
  research_data w = (w, Raise (KeyError "research_data")).
Proof.
  intros H. unfold research_data, bind, get_user_data. rewrite H. reflexivity.
Qed.

Lemma research_data_set_ok (k : string) (v : value) (w : world) (d : dict) :
  ud_research_data (user_data w) = Some d ->
  research_data_set k v w = (with_research (dict_set k v d) w, Ok tt).
Proof.
  intros H. unfold research_data_set.
  rewrite (bind_ok _ _ _ _ _ (research_data_ok w d H)). reflexivity.
Qed.

Lemma research_data_set_missing (k : string) (v : value) (w : world) :
  ud_research_data (user_data w) = None ->
  research_data_set k v w = (w, Raise (KeyError "research_data")).
Proof.
  intros H. unfold research_data_set.
  apply bind_raise, research_data_missing, H.
Qed.

(** The record after [Skip] at the step of field [F]. *)
Lemma skip_field_ok (F : string) (w : world) (d : dict) :
  ud_research_data (user_data w) = Some d ->
  skip_field F w =
  ((if dict_contains F d then w
    else with_research (dict_set F (Some "N/A") d) w), Ok tt).
Proof.
  intros H. unfold skip_field, research_data_lacks.
  unfold bind at 1. unfold bind at 1. rewrite (research_data_ok w d H).
  unfold mret. destruct (dict_contains F d); simpl.
  - reflexivity.
  - apply research_data_set_ok, H.
Qed.

Lemma skip_field_missing (F : string) (w : world) :
  ud_research_data (user_data w) = None ->
  skip_field F w = (w, Raise (KeyError "research_data")).
Proof.
  intros H. unfold skip_field, research_data_lacks.
  unfold bind at 1. unfold bind at 1. rewrite (research_data_missing w H).
  reflexivity.
Qed.

(** Each handler after the Serial ID is the scheme at its own field,
    check and prompts. *)
Lemma handler_is_step (now : datetime) (s : state) (update : Message) (w : world) :
  In s later_steps ->
  callback now s update w =
  wizard_step (field_of s) (go_back s) (check_of s) s (onward now s) update w.
Proof.
  intros Hs. simpl in Hs.
  repeat (destruct Hs as [<- | Hs]); try contradiction;
    unfold callback, wizard_step, field_of, go_back, check_of, onward;
    cbn [position nth WIZARD_FIELDS following previous prompt back_prompt];
    unfold add_inventory_tag, add_location, add_parking_angel, add_tires_rate,
      add_seat_height, add_appearence_rate, add_battery_level,
      add_left_brake_rate, add_right_brake_rate, add_pedaling_rate,
      add_speed_rate, add_note, finish, reply_text;
    destruct (text_is update "Skip"); try reflexivity;
    destruct (text_is update "Back"); try reflexivity;
    unfold free_text, shared_location, boolean, int_range.
  - destruct (location update); reflexivity.
  - rewrite bind_bind. apply bind_ext. intros t w'.
    destruct (negb (mem (Py.lower t) ["true"; "false"])); reflexivity.
  - rewrite bind_bind. apply bind_ext. intros [] w'; reflexivity.
  - rewrite bind_bind. apply bind_ext. intros [] w'; reflexivity.
  - rewrite bind_bind. apply bind_ext. intros [] w'; reflexivity.
  - rewrite bind_bind. apply bind_ext. intros [] w'; reflexivity.
  - rewrite bind_bind. apply bind_ext. intros [] w'; reflexivity.
  - rewrite bind_bind. apply bind_ext. intros [] w'; reflexivity.
  - rewrite bind_bind. apply bind_ext. intros [] w'; reflexivity.
  - rewrite bind_bind. apply bind_ext. intros [] w'; reflexivity.
Qed.

(** ** Reading and writing the store *)

Ltac explode_row r H :=
  unfold width_ok in H; simpl in H;
  do 14 (destruct r as [|? r]; [discriminate H|]);
  destruct r; [clear H|discriminate H].

(** A row of the right width is read as the dictionary of its cells under
    the header's names, in the header's order. *)
Lemma decode_row (r : row) :
  width_ok r ->
  DictReader_row CSV_COLUMNS r = of_dict (combine CSV_COLUMNS (map Some r)).
Proof. intros H. explode_row r H. reflexivity. Qed.

Lemma dict_to_list_decode (r : row) :
  width_ok r -> dict_to_list (DictReader_row CSV_COLUMNS r) = Some r.
Proof. intros H. explode_row r H. reflexivity. Qed.

Lemma not_blank (rows : list row) :
  Forall width_ok rows -> filter (fun r => negb (is_blank r)) rows = rows.
Proof.
  induction 1 as [|r rows Hr _ IH]; simpl; [reflexivity|].
  destruct r; [discriminate Hr|]. simpl. now rewrite IH.
Qed.

Lemma DictReader_ok (rows : list row) :
  Forall width_ok rows ->
  DictReader (CSV_COLUMNS :: rows) = map (DictReader_row CSV_COLUMNS) rows.
Proof. intros H. unfold DictReader. now rewrite not_blank. Qed.

Lemma writerows_app (a b : list row_dict) (xs ys : list row) :
  writerows a = (xs, true) -> writerows b = (ys, true) ->
  writerows (a ++ b) = ((xs ++ ys)%list, true).
Proof.
  revert xs. induction a as [|d a IH]; intros xs Ha Hb; simpl in *.
  - inversion Ha. exact Hb.
  - destruct (dict_to_list d) as [x|]; [|discriminate].
    destruct (writerows a) as [xs' ok] eqn:E. inversion Ha; subst.
    rewrite (IH xs' eq_refl Hb). reflexivity.
Qed.

Lemma writerows_decode (rows : list row) :
  Forall width_ok rows ->
  writerows (map (DictReader_row CSV_COLUMNS) rows) = (rows, true).
Proof.
  induction 1 as [|r rows Hr _ IH]; simpl; [reflexivity|].
  rewrite (dict_to_list_decode r Hr), IH. reflexivity.
Qed.

Lemma read_csv_ok (w : world) (rows : list row) :
  csv_file w = Some (CSV_COLUMNS :: rows) -> Forall width_ok rows ->
  read_csv w = (w, Ok (map (DictReader_row CSV_COLUMNS) rows)).
Proof.
  intros Hf Hr. unfold read_csv. rewrite Hf. cbn [initialize_csv].
  rewrite (DictReader_ok rows Hr). f_equal.
  destruct w as [u f s]. simpl in Hf. subst f. reflexivity.
Qed.

Lemma write_csv_ok (w : world) (data : list row_dict) (rows : list row) :
  writerows data = (rows, true) ->
  write_csv data w = (with_file (Some (CSV_COLUMNS :: rows)) w, Ok tt).
Proof. intros H. unfold write_csv. rewrite H. reflexivity. Qed.

(** Whatever [write_csv] is given, a write that returns leaves the header
    of the schema and rows of its width. *)
Lemma writerows_width (data : list row_dict) (rows : list row) (ok : bool) :
  writerows data = (rows, ok) -> Forall width_ok rows.
Proof.
  revert rows ok. induction data as [|d data IH]; intros rows ok H; simpl in H.
  - inversion H. constructor.
  - unfold dict_to_list in H. destruct (wrong_fields d).
    + inversion H. constructor.
    + destruct (writerows data) as [xs ok'] eqn:E. inversion H; subst.
      constructor; [reflexivity|]. eapply IH. reflexivity.
Qed.

Lemma write_csv_store_ok (data : list row_dict) (w w' : world) (r : result unit) :
  write_csv data w = (w', r) -> store_ok (csv_file w').
Proof.
  unfold write_csv. destruct (writerows data) as [rows ok] eqn:E.
  intros H. inversion H; subst. simpl. exists rows. split; [reflexivity|].
  eapply writerows_width, E.
Qed.

Lemma initialize_csv_store_ok (f : file) :
  f = None \/ store_ok f -> store_ok (initialize_csv f).
Proof.
  intros [-> | (rows & -> & H)]; simpl.
  - exists []. split; [reflexivity|constructor].
  - exists rows. split; [reflexivity|exact H].
Qed.

(** C6.  Reading all records and writing them straight back leaves the
    backing table as it was: for every content of the store (the header
    of the schema and rows of its width, which is what every write of the
    program leaves), [write_csv(read_csv())] returns without raising, and
    the file, the session and the chat are unchanged. *)
Theorem save_load_roundtrip (w : world) :
  store_ok (csv_file w) ->
  (data <- read_csv ;; write_csv data) w = (w, Ok tt).
Proof.
  intros (rows & Hf & Hr).
  rewrite (bind_ok _ _ _ _ _ (read_csv_ok w rows Hf Hr)).
  rewrite (write_csv_ok w _ rows (writerows_decode rows Hr)).
  destruct w as [u f s]. simpl in Hf. subst f. reflexivity.
Qed.

Lemma sample_store_ok : store_ok (csv_file sample_world).
Proof.
  exists sample_rows. split; [reflexivity|]. repeat constructor.
Qed.

Lemma save_load_roundtrip_witness :
  store_ok (csv_file sample_world) /\
  (data <- read_csv ;; write_csv data) sample_world = (sample_world, Ok tt).
Proof.
  split; [exact sample_store_ok|].
  apply (save_load_roundtrip sample_world). exact sample_store_ok.
Defined.

(** ** Rows by identifier *)

Lemma mem_In (k : string) (l : list string) : mem k l = true -> In k l.
Proof.
  unfold mem. intros H. apply existsb_exists in H.
  destruct H as (x & Hin & Heq). apply String.eqb_eq in Heq. now subst.
Qed.

Ltac column_cases H :=
  apply mem_In in H; simpl in H;
  repeat (destruct H as [<- | H]); try contradiction.

Lemma serial_of_decode (r : row) (w : world) :
  width_ok r ->
  serial_id_of (DictReader_row CSV_COLUMNS r) w
  = (w, Ok (Some (get_cell "Serial ID" r))).
Proof. intros H. explode_row r H. reflexivity. Qed.

Lemma row_set_decode (k : string) (v : value) (r : row) :
  width_ok r -> mem k CSV_COLUMNS = true ->
  dict_to_list (row_set k v (DictReader_row CSV_COLUMNS r))
  = Some (put_cell k (cell_of_value v) r).
Proof.
  intros H Hk. explode_row r H. column_cases Hk; destruct v; reflexivity.
Qed.

Lemma rows_without_decode (serial_id : string) (rows : list row) (w : world) :
  Forall width_ok rows ->
  rows_without serial_id (map (DictReader_row CSV_COLUMNS) rows) w
  = (w, Ok (map (DictReader_row CSV_COLUMNS)
                (filter (fun r => negb (has_serial serial_id r)) rows))).
Proof.
  induction 1 as [|r rows Hr _ IH]; simpl; [reflexivity|].
  rewrite (bind_ok _ _ _ _ _ (serial_of_decode r w Hr)).
  rewrite (bind_ok _ _ _ _ _ IH). unfold mret, value_is, has_serial.
  destruct (String.eqb (get_cell "Serial ID" r) serial_id); reflexivity.
Qed.

Lemma find_record_decode (serial_id : string) (rows : list row) (w : world) :
  Forall width_ok rows ->
  find_record serial_id (map (DictReader_row CSV_COLUMNS) rows) w
  = (w, Ok (option_map (DictReader_row CSV_COLUMNS)
                       (find (has_serial serial_id) rows))).
Proof.
  induction 1 as [|r rows Hr _ IH]; simpl; [reflexivity|].
  rewrite (bind_ok _ _ _ _ _ (serial_of_decode r w Hr)).
  unfold value_is, has_serial.
  destruct (String.eqb (get_cell "Serial ID" r) serial_id); [reflexivity|].
  exact IH.
Qed.

Lemma set_first_decode (serial_id k : string) (v : value) (rows : list row)
    (w : world) :
  Forall width_ok rows -> mem k CSV_COLUMNS = true ->
  exists data,
    set_first serial_id k v (map (DictReader_row CSV_COLUMNS) rows) w
    = (w, Ok data) /\
    writerows data = (put_first serial_id k (cell_of_value v) rows, true).
Proof.
  intros H Hk. induction H as [|r rows Hr Hrows IH]; simpl.
  - exists []. split; reflexivity.
  - rewrite (bind_ok _ _ _ _ _ (serial_of_decode r w Hr)).
    unfold value_is, has_serial.
    destruct (String.eqb (get_cell "Serial ID" r) serial_id).
    + eexists. split; [reflexivity|]. simpl.
      rewrite (row_set_decode k v r Hr Hk), (writerows_decode rows Hrows).
      reflexivity.
    + destruct IH as (data & Hd & Hw).
      rewrite (bind_ok _ _ _ _ _ Hd). eexists. split; [reflexivity|].
      simpl. rewrite (dict_to_list_decode r Hr), Hw. reflexivity.
Qed.

(** The first match splits the rows; what comes after it is not looked
    at. *)
Lemma find_first (serial_id : string) (pre post : list row) (r : row) :
  existsb (has_serial serial_id) pre = false ->
  has_serial serial_id r = true ->
  find (has_serial serial_id) (pre ++ r :: post) = Some r.
Proof.
  induction pre as [|x pre IH]; simpl; intros Hpre Hr.
  - now rewrite Hr.
  - apply orb_false_iff in Hpre. destruct Hpre as [-> Hpre]. now apply IH.
Qed.

Lemma put_first_first (serial_id k v : string) (pre post : list row) (r : row) :
  existsb (has_serial serial_id) pre = false ->
  has_serial serial_id r = true ->
  put_first serial_id k v (pre ++ r :: post) = (pre ++ put_cell k v r :: post)%list.
Proof.
  induction pre as [|x pre IH]; simpl; intros Hpre Hr.
  - now rewrite Hr.
  - apply orb_false_iff in Hpre. destruct Hpre as [-> Hpre].
    now rewrite IH.
Qed.

Lemma put_first_none (serial_id k v : string) (rows : list row) :
  existsb (has_serial serial_id) rows = false ->
  put_first serial_id k v rows = rows.
Proof.
  induction rows as [|x rows IH]; simpl; intros H; [reflexivity|].
  apply orb_false_iff in H. destruct H as [-> H]. now rewrite IH.
Qed.

Lemma filter_shorter {A} (p : A -> bool) (l : list A) :
  Nat.ltb (length (filter p l)) (length l) = existsb (fun x => negb (p x)) l.
Proof.
  induction l as [|x l IH]; simpl; [reflexivity|].
  pose proof (filter_length_le p l) as Hle.
  destruct (p x); simpl.
  - exact IH.
  - apply Nat.ltb_lt. lia.
Qed.

(** What [commit_value] does on a well-formed store. *)
Lemma commit_value_ok (v : value) (w : world) (k serial_id : string)
    (rows : list row) :
  ud_update_field (user_data w) = Some k ->
  ud_update_serial_id (user_data w) = Some serial_id ->
  mem k CSV_COLUMNS = true ->
  csv_file w = Some (CSV_COLUMNS :: rows) -> Forall width_ok rows ->
  commit_value v w =
  (cleared (with_sent (SendText "Updated" ReplyKeyboardRemove)
     (with_file
        (Some (CSV_COLUMNS :: put_first serial_id k (cell_of_value v) rows)) w)),
   Ok END).
Proof.
  intros Hk Hs Hmem Hf Hr. unfold commit_value.
  unfold bind at 1. unfold get_user_data. rewrite Hk, Hs. simpl lookup.
  unfold bind at 1. unfold mret at 1. unfold bind at 1. unfold mret at 1.
  rewrite (bind_ok _ _ _ _ _ (read_csv_ok w rows Hf Hr)).
  destruct (set_first_decode serial_id k v rows w Hr Hmem) as (data & Hd & Hw).
  rewrite (bind_ok _ _ _ _ _ Hd).
  rewrite (bind_ok _ _ _ _ _ (write_csv_ok w data _ Hw)).
  reflexivity.
Qed.

(** ** The range check inside a handler *)

(** The check raises on [None] and on a string of digits that is not a
    literal; otherwise it answers, and changes nothing. *)
Lemma not_in_range_spec (o : option string) (lo hi : Z) (w : world) :
  (exists e, not_in_range o lo hi w = (w, Raise e)) \/
  (exists t, o = Some t /\
     not_in_range o lo hi w = (w, Ok (negb (accepts_int lo hi t)))).
Proof.
  destruct o as [t|]; [|left; eexists; reflexivity].
  unfold not_in_range, accepts_int, py_int, str_method, bind, mret, raise.
  destruct (Py.isdigit t) eqn:Hd; simpl.
  - destruct (Py.int t) as [n|] eqn:Hn; simpl.
    + right. exists t. split; [reflexivity|]. rewrite Hd, Hn. simpl.
      destruct (Z.ltb_spec n lo); simpl.
      * destruct (Z.leb_spec lo n); [lia|reflexivity].
      * rewrite Z.gtb_ltb.
        destruct (Z.ltb_spec hi n), (Z.leb_spec lo n), (Z.leb_spec n hi);
          try lia; reflexivity.
    + left. eexists. reflexivity.
  - right. exists t. split; [reflexivity|]. rewrite Hd. reflexivity.
Qed.

Lemma not_in_range_raises (t : string) (lo hi : Z) (w : world) :
  Py.isdigit t = true -> is_literal t = false ->
  not_in_range (Some t) lo hi w = (w, Raise ValueError).
Proof.
  intros Hd Hl.
  unfold not_in_range, py_int, str_method, bind, mret, raise.
  rewrite Hd, (int_of_other_digits t Hd Hl). reflexivity.
Qed.

(** ** The update flow on a well-formed store *)

Lemma text_is_false (update : Message) (s : string) :
  text_is update s = false -> text update <> Some s.
Proof.
  unfold text_is. intros H He. rewrite He, String.eqb_refl in H. discriminate.
Qed.

Lemma updatable_column (k : string) : updatable k = true -> mem k CSV_COLUMNS = true.
Proof. unfold updatable. intros H. apply andb_prop in H. tauto. Qed.

Ltac updatable_cases H :=
  let Hm := fresh in
  let Hn := fresh in
  unfold updatable in H; apply andb_prop in H; destruct H as [Hm Hn];
  column_cases Hm; try discriminate Hn; clear Hn.

Ltac range_branch lo hi w :=
  match goal with
  | |- context [not_in_range ?o lo hi] =>
      let e := fresh "e" in
      let t := fresh "t" in
      let Ht := fresh "Ht" in
      let H := fresh "H" in
      let Hacc := fresh "Hacc" in
      destruct (not_in_range_spec o lo hi w) as [(e & H) | (t & Ht & H)];
      [ right; right; right; exists e;
        rewrite (bind_raise _ _ _ _ _ H); reflexivity
      | destruct (accepts_int lo hi t) eqn:Hacc;
        [ left; exists o; split;
          [ rewrite (bind_ok _ _ _ _ _ H); reflexivity
          | rewrite Ht; right;
            first [ apply checked_rate; [reflexivity | exact Hacc]
                  | apply checked_battery; exact Hacc
                  | apply checked_seat; exact Hacc ] ]
        | right; left; eexists;
          rewrite (bind_ok _ _ _ _ _ H); reflexivity ] ]
  end.

(** Every way [update_value] can go: it writes ["N/A"] or a value that
    passed the check of the chosen field, or it asks again, or it goes
    back to the choice of the field, or it raises; only the first touches
    the file. *)
Lemma update_value_cases (update : Message) (w : world) (k : string) :
  ud_update_field (user_data w) = Some k -> updatable k = true ->
  (exists v, update_value update w = commit_value v w
             /\ (v = Some "N/A" \/ checked k v)) \/
  (exists r, update_value update w = (with_sent r w, Ok (Goto UPDATE_VALUE))) \/
  (exists r, update_value update w = (with_sent r w, Ok (Goto UPDATE_FIELD))) \/
  (exists e, update_value update w = (w, Raise e)).
Proof.
  intros Hk Hu. unfold update_value.
  destruct (text_is update "Skip") eqn:Hskip.
  { left. exists (Some "N/A"). split; [reflexivity|]. left. reflexivity. }
  destruct (text_is update "Back") eqn:Hback.
  { rewrite bind_get.
    destruct (ud_update_serial_id (user_data w)) as [sid|]; simpl lookup.
    - rewrite bind_mret. right. right. left. eexists. reflexivity.
    - right. right. right. eexists. reflexivity. }
  rewrite bind_get, Hk. simpl lookup. rewrite bind_mret.
  pose proof (text_is_false update "Skip" Hskip) as Hs.
  pose proof (text_is_false update "Back" Hback) as Hb'.
  updatable_cases Hu; cbn [String.eqb Ascii.eqb Bool.eqb mem existsb orb rate_fields];
    try range_branch 0%Z 10%Z w; try range_branch 0%Z 4%Z w;
    try range_branch 1%Z 10%Z w;
    try (left; exists (text update); split;
         [reflexivity | right; apply checked_text; [reflexivity|exact Hs|exact Hb']]).
  - destruct (text update) as [t|]; simpl str_method.
    + rewrite bind_mret.
      change ((Py.lower t =? "true") || ((Py.lower t =? "false") || false))
        with (mem (Py.lower t) ["true"; "false"]).
      destruct (mem (Py.lower t) ["true"; "false"]) eqn:Hb; simpl negb; cbv iota.
      * left. exists (Some (Py.lower t)). split; [reflexivity|]. right.
        apply checked_boolean, Hb.
      * right. left. eexists. reflexivity.
    + right. right. right. eexists. reflexivity.
  - destruct (location update) as [l|].
    + left. eexists. split; [reflexivity|]. right. apply checked_location.
    + right. left. eexists. reflexivity.
Qed.

(** ** Delete and the lookup for update *)

Lemma without_shorter (serial_id : string) (rows : list row) :
  Nat.ltb (length (filter (fun r => negb (has_serial serial_id r)) rows))
          (length rows)
  = existsb (has_serial serial_id) rows.
Proof.
  induction rows as [|x rows IH]; simpl; [reflexivity|].
  pose proof (filter_length_le (fun r => negb (has_serial serial_id r)) rows).
  destruct (has_serial serial_id x); simpl.
  - apply Nat.ltb_lt. lia.
  - exact IH.
Qed.

Lemma without_none (serial_id : string) (rows : list row) :
  existsb (has_serial serial_id) rows = false ->
  filter (fun r => negb (has_serial serial_id r)) rows = rows.
Proof.
  induction rows as [|x rows IH]; simpl; intros H; [reflexivity|].
  apply orb_false_iff in H. destruct H as [-> H]. simpl. now rewrite IH.
Qed.

Lemma without_width (serial_id : string) (rows : list row) :
  Forall width_ok rows ->
  Forall width_ok (filter (fun r => negb (has_serial serial_id r)) rows).
Proof.
  intros H. apply Forall_forall. intros r Hr. apply filter_In in Hr.
  rewrite Forall_forall in H. apply H. tauto.
Qed.

(** [delete_command] on a well-formed store: every row with the
    identifier goes, the others stay in their order, and the reply says
    whether any row went. *)
Lemma delete_command_ok (args : list string) (update : Message) (w : world)
    (rows : list row) :
  args <> [] ->
  csv_file w = Some (CSV_COLUMNS :: rows) -> Forall width_ok rows ->
  let serial_id := Py.join " " args in
  let kept := filter (fun r => negb (has_serial serial_id r)) rows in
  delete_command args update w =
  (with_sent
     (SendText ((if existsb (has_serial serial_id) rows
                 then "Deleted '" else "Not found '") ++ serial_id ++ "'")
               NoMarkup)
     (with_file (Some (CSV_COLUMNS :: kept)) w),
   Ok ReturnNone).
Proof.
  intros Ha Hf Hr serial_id kept.
  destruct args as [|a args]; [contradiction|].
  unfold delete_command. fold serial_id.
  rewrite (bind_ok _ _ _ _ _ (read_csv_ok w rows Hf Hr)).
  rewrite (bind_ok _ _ _ _ _ (rows_without_decode serial_id rows w Hr)).
  fold kept. rewrite !length_map. unfold kept at 1.
  rewrite without_shorter.
  destruct (existsb (has_serial serial_id) rows) eqn:He.
  - rewrite (bind_ok _ _ _ _ _
               (write_csv_ok w _ kept (writerows_decode kept
                                         (without_width serial_id rows Hr)))).
    reflexivity.
  - unfold kept. rewrite (without_none serial_id rows He).
    unfold with_file. rewrite <- Hf, world_eta. reflexivity.
Qed.

Lemma falsy_decode (r : row) :
  width_ok r -> falsy (Some (DictReader_row CSV_COLUMNS r)) = false.
Proof. intros H. explode_row r H. reflexivity. Qed.

(** [update_start] on a well-formed store: the snapshot is the first row
    with the identifier. *)
Lemma update_start_found (args : list string) (update : Message) (w : world)
    (rows : list row) (r : row) :
  args <> [] ->
  csv_file w = Some (CSV_COLUMNS :: rows) -> Forall width_ok rows ->
  let serial_id := Py.join " " args in
  find (has_serial serial_id) rows = Some r ->
  update_start args update w =
  (with_sent
     (SendText ("Update field for '" ++ serial_id ++ "':") field_keyboard)
     {| user_data :=
          {| ud_research_data := ud_research_data (user_data w);
             ud_update_serial_id := Some serial_id;
             ud_update_record := Some (DictReader_row CSV_COLUMNS r);
             ud_update_field := ud_update_field (user_data w) |};
        csv_file := csv_file w;
        sent := sent w |},
   Ok (Goto UPDATE_FIELD)).
Proof.
  intros Ha Hf Hr serial_id Hfind.
  destruct args as [|a args]; [contradiction|].
  unfold update_start. fold serial_id.
  rewrite (bind_ok _ _ _ _ _ (read_csv_ok w rows Hf Hr)).
  rewrite (bind_ok _ _ _ _ _ (find_record_decode serial_id rows w Hr)).
  rewrite Hfind.
  assert (Hw : width_ok r).
  { rewrite Forall_forall in Hr. apply Hr.
    apply find_some in Hfind. tauto. }
  cbv beta. cbn [option_map]. rewrite (falsy_decode r Hw). reflexivity.
Qed.

Lemma update_start_not_found (args : list string) (update : Message) (w : world)
    (rows : list row) :
  args <> [] ->
  csv_file w = Some (CSV_COLUMNS :: rows) -> Forall width_ok rows ->
  let serial_id := Py.join " " args in
  find (has_serial serial_id) rows = None ->
  update_start args update w =
  (with_sent (SendText ("Not found '" ++ serial_id ++ "'") NoMarkup) w, Ok END).
Proof.
  intros Ha Hf Hr serial_id Hfind.
  destruct args as [|a args]; [contradiction|].
  unfold update_start. fold serial_id.
  rewrite (bind_ok _ _ _ _ _ (read_csv_ok w rows Hf Hr)).
  rewrite (bind_ok _ _ _ _ _ (find_record_decode serial_id rows w Hr)).
  rewrite Hfind. reflexivity.
Qed.

(** ** Dictionaries *)

Lemma dict_get_set_same (k : string) (v : value) (d : dict) :
  dict_get k (dict_set k v d) = Some v.
Proof.
  induction d as [|[k' v'] d IH]; simpl.
  - now rewrite String.eqb_refl.
  - destruct (String.eqb k' k) eqn:E; simpl.
    + now rewrite String.eqb_refl.
    + now rewrite E.
Qed.

Lemma dict_get_set_other (k k0 : string) (v : value) (d : dict) :
  k0 <> k -> dict_get k0 (dict_set k v d) = dict_get k0 d.
Proof.
  intros Hne. induction d as [|[k' v'] d IH]; simpl.
  - destruct (String.eqb_spec k k0); [congruence|reflexivity].
  - destruct (String.eqb_spec k' k) as [->|Hk]; simpl.
    + destruct (String.eqb_spec k k0); [congruence|reflexivity].
    + now rewrite IH.
Qed.

Lemma dict_contains_keys (k : string) (d : dict) :
  dict_contains k d = true <-> In k (dict_keys d).
Proof.
  unfold dict_contains. induction d as [|[k' v'] d IH]; simpl.
  - split; [discriminate|contradiction].
  - destruct (String.eqb_spec k' k) as [->|Hk].
    + split; auto.
    + rewrite IH. split; [auto|]. intros [H|H]; [congruence|exact H].
Qed.

Lemma dict_keys_set (k : string) (v : value) (d : dict) :
  dict_keys (dict_set k v d)
  = if dict_contains k d then dict_keys d else (dict_keys d ++ [k])%list.
Proof.
  unfold dict_contains. induction d as [|[k' v'] d IH]; simpl; [reflexivity|].
  destruct (String.eqb_spec k' k) as [->|Hk]; simpl; [reflexivity|].
  rewrite IH. destruct (dict_get k d); reflexivity.
Qed.

Lemma get_cell_put_cell (k v : string) (r : row) :
  width_ok r -> mem k CSV_COLUMNS = true -> get_cell k (put_cell k v r) = v.
Proof. intros H Hk. explode_row r H. column_cases Hk; reflexivity. Qed.

Lemma get_cell_put_other (k k0 v : string) (r : row) :
  width_ok r -> mem k CSV_COLUMNS = true -> mem k0 CSV_COLUMNS = true ->
  k0 <> k -> get_cell k0 (put_cell k v r) = get_cell k0 r.
Proof.
  intros H Hk Hk0 Hne. explode_row r H.
  column_cases Hk; column_cases Hk0; try reflexivity; congruence.
Qed.

Lemma put_cell_width (k v : string) (r : row) :
  width_ok r -> width_ok (put_cell k v r).
Proof.
  unfold width_ok, put_cell. generalize (column k). revert r.
  generalize (length CSV_COLUMNS).
  intros n r. revert n. induction r as [|x r IH]; intros n c H; simpl.
  - destruct c; exact H.
  - destruct c; simpl; [exact H|].
    destruct n; [discriminate|]. simpl in H. f_equal. apply IH. lia.
Qed.

Lemma onward_next (now : datetime) (s : state) (w : world) :
  s <> NOTE ->
  onward now s w = (with_sent (prompt (following s)) w, Ok (Goto (following s))).
Proof. intros H. destruct s; try contradiction; reflexivity. Qed.

(** ** Skip in the two flows *)

(** C1.  [Skip] differs between the two flows.  In the add flow, at any
    step after the Serial ID, the handler goes on from a record in which
    the field of the step holds what it held before if it was set, and
    ["N/A"] only if it was not; no other field changes.  In the update
    flow, [Skip] in the state that takes the value writes ["N/A"] into the
    chosen column of the first row with the identifier, whatever that cell
    held. *)
Theorem skip_semantics (now : datetime) (s : state) (w : world) (d : dict) :
  In s later_steps ->
  ud_research_data (user_data w) = Some d ->
  let F := field_of s in
  let d1 := if dict_contains F d then d else dict_set F (Some "N/A") d in
  let w1 := if dict_contains F d then w else with_research d1 w in
  (callback now s (text_message "Skip") w = onward now s w1
   /\ ud_research_data (user_data w1) = Some d1
   /\ dict_get F d1 = Some (match dict_get F d with
                            | Some v => v
                            | None => Some "N/A"
                            end)
   /\ (forall k, k <> F -> dict_get k d1 = dict_get k d)
   /\ (s <> NOTE ->
       onward now s w1
       = (with_sent (prompt (following s)) w1, Ok (Goto (following s)))))
  /\
  (forall (k serial_id : string) (rows : list row),
      csv_file w = Some (CSV_COLUMNS :: rows) -> Forall width_ok rows ->
      ud_update_field (user_data w) = Some k -> updatable k = true ->
      ud_update_serial_id (user_data w) = Some serial_id ->
      update_value (text_message "Skip") w
      = (cleared (with_sent (SendText "Updated" ReplyKeyboardRemove)
           (with_file
              (Some (CSV_COLUMNS :: put_first serial_id k "N/A" rows)) w)),
         Ok END)
      /\ (forall pre r post,
             rows = (pre ++ r :: post)%list ->
             existsb (has_serial serial_id) pre = false ->
             has_serial serial_id r = true ->
             put_first serial_id k "N/A" rows
             = (pre ++ put_cell k "N/A" r :: post)%list
             /\ get_cell k (put_cell k "N/A" r) = "N/A")).
Proof.
  intros Hs Hd F d1 w1. split.
  - split.
    + rewrite (handler_is_step now s _ w Hs). unfold wizard_step.
      change (text_is (text_message "Skip") "Skip") with true. cbv iota.
      rewrite (bind_ok _ _ _ _ _ (skip_field_ok (field_of s) w d Hd)).
      unfold w1, d1, F. destruct (dict_contains (field_of s) d); reflexivity.
    + unfold w1, d1, F. unfold dict_contains.
      destruct (dict_get (field_of s) d) as [v|] eqn:Hg.
      * repeat split; auto. intros Hn. apply onward_next, Hn.
      * repeat split.
        -- apply dict_get_set_same.
        -- intros k Hk. apply dict_get_set_other, Hk.
        -- intros Hn. apply onward_next, Hn.
  - intros k serial_id rows Hf Hr Hk Hu Hsid. split.
    + change (update_value (text_message "Skip") w)
        with (commit_value (Some "N/A") w).
      apply (commit_value_ok (Some "N/A") w k serial_id rows Hk Hsid
               (updatable_column k Hu) Hf Hr).
    + intros pre r post -> Hpre Hmatch. split.
      * apply put_first_first; assumption.
      * apply get_cell_put_cell; [|apply updatable_column, Hu].
        rewrite Forall_forall in Hr. apply Hr, in_elt.
Qed.

Lemma demo_session_reached :
  process demo_events (boot (Some (CSV_COLUMNS :: sample_rows))) = demo_session.
Proof. vm_compute. reflexivity. Qed.

Lemma sample_rows_width : Forall width_ok sample_rows.
Proof. repeat constructor. Qed.

Lemma skip_semantics_witness :
  In INVENTORY_TAG later_steps /\
  ud_research_data (user_data demo_world) = Some demo_record /\
  callback t0 INVENTORY_TAG (text_message "Skip") demo_world
  = onward t0 INVENTORY_TAG demo_world /\
  dict_get "Inventory Tag" demo_record = Some (Some "T-7") /\
  update_value (text_message "Skip") demo_world
  = (cleared (with_sent (SendText "Updated" ReplyKeyboardRemove)
       (with_file
          (Some (CSV_COLUMNS
                   :: put_first "BK-001" "Tires Rate" "N/A" sample_rows))
          demo_world)),
     Ok END).
Proof.
  assert (Hs : In INVENTORY_TAG later_steps) by (simpl; auto).
  assert (Hd : ud_research_data (user_data demo_world) = Some demo_record)
    by reflexivity.
  destruct (skip_semantics t0 INVENTORY_TAG demo_world demo_record Hs Hd)
    as [(Hadd & _ & Hget & _) Hupd].
  split; [exact Hs|]. split; [exact Hd|]. split; [exact Hadd|].
  split; [exact Hget|].
  apply (Hupd "Tires Rate" "BK-001" sample_rows); try reflexivity.
  exact sample_rows_width.
Defined.

(** ** Rows under one identifier *)

(** C5.  Rows that share an identifier are treated differently by the
    three operations.  [delete_command] removes every row whose Serial ID
    is the identifier and keeps the others in order, and it reports
    [Deleted] exactly when the number of rows went down (otherwise
    [Not found]).  [update_start] takes the first row with the identifier
    as its snapshot, and the write of [update_value] changes one cell of
    that first row only: the rows before it and all rows after it, later
    rows with the same identifier included, are written back as they
    were. *)
Theorem multiplicity_by_identifier
    (args : list string) (update : Message) (w : world) (rows : list row) :
  let serial_id := Py.join " " args in
  let kept := filter (fun x => negb (has_serial serial_id x)) rows in
  args <> [] ->
  csv_file w = Some (CSV_COLUMNS :: rows) -> Forall width_ok rows ->
  (exists w',
      delete_command args update w = (w', Ok ReturnNone) /\
      csv_file w' = Some (CSV_COLUMNS :: kept) /\
      sent w' = (sent w ++
        [SendText ((if Nat.ltb (length kept) (length rows)
                    then "Deleted '" else "Not found '") ++ serial_id ++ "'")
                  NoMarkup])%list)
  /\
  (forall pre r post,
      rows = (pre ++ r :: post)%list ->
      existsb (has_serial serial_id) pre = false ->
      has_serial serial_id r = true ->
      kept = (pre ++ filter (fun x => negb (has_serial serial_id x)) post)%list
      /\
      (exists w',
          update_start args update w = (w', Ok (Goto UPDATE_FIELD)) /\
          ud_update_record (user_data w')
          = Some (DictReader_row CSV_COLUMNS r) /\
          csv_file w' = csv_file w)
      /\
      (forall k,
          updatable k = true ->
          ud_update_field (user_data w) = Some k ->
          ud_update_serial_id (user_data w) = Some serial_id ->
          (exists w',
              update_value (text_message "Skip") w = (w', Ok END) /\
              csv_file w'
              = Some (CSV_COLUMNS :: (pre ++ put_cell k "N/A" r :: post)%list))
          /\
          (forall upd w',
              update_value upd w = (w', Ok END) ->
              exists v,
                csv_file w'
                = Some (CSV_COLUMNS :: (pre ++ put_cell k v r :: post)%list)))).
Proof.
  intros serial_id kept Ha Hf Hr. split.
  - eexists. split; [apply (delete_command_ok args update w rows Ha Hf Hr)|].
    split; [reflexivity|]. simpl. unfold kept.
    rewrite without_shorter. reflexivity.
  - intros pre r post Hrows Hpre Hmatch. split; [|split].
    + unfold kept. rewrite Hrows, filter_app. simpl. rewrite Hmatch. simpl.
      now rewrite (without_none serial_id pre Hpre).
    + eexists. split.
      * apply (update_start_found args update w rows r Ha Hf Hr).
        fold serial_id. rewrite Hrows. apply find_first; assumption.
      * split; reflexivity.
    + intros k Hu Hk Hsid.
      pose proof (updatable_column k Hu) as Hcol.
      assert (Hput : forall v, put_first serial_id k v rows
                               = (pre ++ put_cell k v r :: post)%list).
      { intros v. rewrite Hrows. apply put_first_first; assumption. }
      split.
      * eexists. split.
        -- change (update_value (text_message "Skip") w)
             with (commit_value (Some "N/A") w).
           apply (commit_value_ok (Some "N/A") w k serial_id rows
                    Hk Hsid Hcol Hf Hr).
        -- simpl. now rewrite Hput.
      * intros upd w' Hrun.
        destruct (update_value_cases upd w k Hk Hu)
          as [(v & Hc & _) | [(x & Hc) | [(x & Hc) | (e & Hc)]]];
          rewrite Hc in Hrun; try discriminate Hrun.
        rewrite (commit_value_ok v w k serial_id rows Hk Hsid Hcol Hf Hr)
          in Hrun.
        inversion Hrun; subst w'. exists (cell_of_value v). simpl.
        now rewrite Hput.
Qed.

Lemma multiplicity_by_identifier_witness :
  ["BK-001"] <> [] /\
  csv_file demo_world = Some (CSV_COLUMNS :: sample_rows) /\
  Forall width_ok sample_rows /\
  exists w',
    delete_command ["BK-001"] (text_message "/delete BK-001") demo_world
    = (w', Ok ReturnNone) /\
    csv_file w'
    = Some (CSV_COLUMNS
              :: filter (fun x => negb (has_serial "BK-001" x)) sample_rows).
Proof.
  assert (Ha : ["BK-001"] <> []) by discriminate.
  assert (Hf : csv_file demo_world = Some (CSV_COLUMNS :: sample_rows))
    by reflexivity.
  split; [exact Ha|]. split; [exact Hf|]. split; [exact sample_rows_width|].
  destruct (multiplicity_by_identifier ["BK-001"]
              (text_message "/delete BK-001") demo_world sample_rows
              Ha Hf sample_rows_width) as [(w' & H1 & H2 & _) _].
  exists w'. split; assumption.
Defined.

(** ** Back in the add flow *)

Lemma back_is_go_back (now : datetime) (s : state) (w : world) :
  In s later_steps ->
  callback now s (text_message "Back") w = go_back s w.
Proof.
  intros Hs. rewrite (handler_is_step now s _ w Hs). reflexivity.
Qed.

(** C2, as the code has it.  At every step after the Serial ID, [Back]
    leaves the session data, and so the in-progress record, exactly as it
    was: the field of the step keeps the value it holds and is absent
    afterwards only if it was absent before.  The file is not touched, one
    reply is sent and the conversation moves to the step before.  The
    reply carries the keyboard of that step; at the steps other than the
    one of the tires it is the prompt of that step.  Of the text sent at
    the step of the tires nothing is said. *)
Theorem back_keeps_record (now : datetime) (s : state) (w : world) :
  In s later_steps ->
  exists r,
    callback now s (text_message "Back") w
    = (with_sent r w, Ok (Goto (previous s)))
    /\ user_data (with_sent r w) = user_data w
    /\ csv_file (with_sent r w) = csv_file w
    /\ markup_of r = markup_of (prompt (previous s))
    /\ (s <> TIRES_RATE -> r = prompt (previous s)).
Proof.
  intros Hs. exists (back_prompt s).
  split; [|split; [reflexivity|split; [reflexivity|split]]].
  - rewrite (back_is_go_back now s w Hs). reflexivity.
  - simpl in Hs.
    repeat (destruct Hs as [<- | Hs]); try contradiction; reflexivity.
  - intros Hn. simpl in Hs.
    repeat (destruct Hs as [<- | Hs]); try contradiction; reflexivity.
Qed.

Lemma back_keeps_record_witness :
  In INVENTORY_TAG later_steps /\
  callback t0 INVENTORY_TAG (text_message "Back") demo_world
  = (with_sent (prompt SERIAL_ID) demo_world, Ok (Goto SERIAL_ID)).
Proof.
  assert (Hs : In INVENTORY_TAG later_steps) by (simpl; auto).
  assert (Hn : INVENTORY_TAG <> TIRES_RATE) by discriminate.
  split; [exact Hs|].
  destruct (back_keeps_record t0 INVENTORY_TAG demo_world Hs)
    as (r & Hrun & _ & _ & _ & Hr).
  rewrite Hrun, (Hr Hn). reflexivity.
Defined.

(** C2 as stated fails: with the tag ["T-7"] in the record, [Back] at the
    step of the inventory tag returns to the Serial ID step and the tag is
    still in the record. *)
Lemma back_does_not_discard :
  exists w',
    callback t0 INVENTORY_TAG (text_message "Back") demo_world
    = (w', Ok (Goto SERIAL_ID)) /\
    field_of INVENTORY_TAG = "Inventory Tag" /\
    option_map (dict_get "Inventory Tag") (ud_research_data (user_data w'))
    = Some (Some (Some "T-7")) /\
    option_map (dict_contains "Inventory Tag") (ud_research_data (user_data w'))
    = Some true.
Proof. eexists. split; [reflexivity|]. vm_compute. repeat split. Qed.

(** ** The range check of the rate steps *)

(** What the check of a rate step answers for a text. *)
Lemma int_range_verdict (lo hi : Z) (p t : string) (w : world) :
  int_range lo hi p (text_message t) w =
  if accepts_int lo hi t then (w, Ok (Accept (Some t)))
  else if Py.isdigit t && negb (is_literal t) then (w, Raise ValueError)
  else (w, Ok (Reject p)).
Proof.
  unfold int_range. simpl text.
  destruct (Py.isdigit t) eqn:Hd; simpl andb.
  - destruct (is_literal t) eqn:Hl; simpl negb; cbv iota.
    + destruct (not_in_range_spec (Some t) lo hi w)
        as [(e & H) | (t' & Ht & H)].
      * exfalso. revert H.
        unfold not_in_range, py_int, str_method, bind, mret, raise.
        rewrite Hd, (int_of_literal t Hl). simpl.
        destruct (literal_value t <? lo)%Z; discriminate.
      * inversion Ht; subst t'. rewrite (bind_ok _ _ _ _ _ H).
        destruct (accepts_int lo hi t); reflexivity.
    + assert (Ha : accepts_int lo hi t = false).
      { destruct (accepts_int lo hi t) eqn:E; [|reflexivity].
        apply accepts_int_iff in E. destruct E as [E _]. congruence. }
      rewrite Ha. apply bind_raise, not_in_range_raises; assumption.
  - assert (Ha : accepts_int lo hi t = false)
      by (unfold accepts_int; now rewrite Hd).
    rewrite Ha.
    unfold not_in_range, py_int, str_method, bind, mret, raise.
    rewrite Hd. reflexivity.
Qed.

Lemma check_of_int_step (s : state) :
  In s int_steps ->
  check_of s = int_range (fst (range_of s)) (snd (range_of s)) (range_prompt s)
  /\ In s later_steps /\ s <> NOTE.
Proof.
  intros Hs. simpl in Hs.
  repeat (destruct Hs as [<- | Hs]); try contradiction;
    (split; [reflexivity|split; [simpl; tauto|discriminate]]).
Qed.

Lemma int_step_verdict (now : datetime) (s : state) (t : string)
    (w : world) (d : dict) :
  In s int_steps -> t <> "Skip" -> t <> "Back" ->
  ud_research_data (user_data w) = Some d ->
  let lo := fst (range_of s) in
  let hi := snd (range_of s) in
  callback now s (text_message t) w =
  if is_literal t && (lo <=? literal_value t)%Z && (literal_value t <=? hi)%Z
  then (with_sent (prompt (following s))
          (with_research (dict_set (field_of s) (Some t) d) w),
        Ok (Goto (following s)))
  else if Py.isdigit t && negb (is_literal t) then (w, Raise ValueError)
  else (with_sent (SendText (range_prompt s) NoMarkup) w, Ok (Goto s)).
Proof.
  intros Hs Hskip Hback Hd. cbv zeta.
  destruct (check_of_int_step s Hs) as (Hc & Hl & Hn).
  rewrite (handler_is_step now s _ w Hl). unfold wizard_step, text_is.
  cbn [text text_message].
  destruct (String.eqb_spec t "Skip"); [contradiction|].
  destruct (String.eqb_spec t "Back"); [contradiction|].
  rewrite Hc.
  destruct (range_of s) as [lo hi]. cbn [fst snd].
  assert (Hiff : accepts_int lo hi t
                 = is_literal t && (lo <=? literal_value t)%Z
                   && (literal_value t <=? hi)%Z).
  { apply eq_true_iff_eq. rewrite accepts_int_iff, !andb_true_iff.
    rewrite !Z.leb_le. tauto. }
  rewrite <- Hiff.
  pose proof (int_range_verdict lo hi (range_prompt s) t w) as Hv.
  destruct (accepts_int lo hi t).
  - rewrite (bind_ok _ _ _ _ _ Hv).
    rewrite (bind_ok _ _ _ _ _
               (research_data_set_ok (field_of s) (Some t) w d Hd)).
    apply onward_next, Hn.
  - destruct (Py.isdigit t && negb (is_literal t)).
    + rewrite (bind_raise _ _ _ _ _ Hv). reflexivity.
    + rewrite (bind_ok _ _ _ _ _ Hv). reflexivity.
Qed.

(** C3, evaluated where the code departs from it.  The superscript two is
    a digit for [isdigit] and no literal; at every rate step the handler
    neither stores it nor answers with the prompt of the range: [int]
    raises [ValueError] and the handler ends there, with nothing
    changed.  The literal after the top of the range is answered with the
    prompt. *)
Theorem superscript_digit_raises (now : datetime) (w : world) :
  Py.isdigit superscript_two = true /\
  is_literal superscript_two = false /\
  Py.int superscript_two = None /\
  Forall (fun s => callback now s (text_message superscript_two) w
                   = (w, Raise ValueError)) int_steps /\
  callback now TIRES_RATE (text_message "11") w
  = (with_sent (SendText "Select a valid rate (0-10):" NoMarkup) w,
     Ok (Goto TIRES_RATE)).
Proof.
  split; [reflexivity|]. split; [reflexivity|]. split; [reflexivity|].
  split; [|reflexivity].
  repeat constructor.
Qed.

(** ** Dispatch *)

Lemma send_ok (r : reply) (w : world) : send r w = (with_sent r w, Ok tt).
Proof. reflexivity. Qed.

Lemma process_app (a b : list (datetime * event)) (s : system) :
  process (a ++ b) s = process b (process a s).
Proof.
  revert s. induction a as [|[now ev] a IH]; intros s; simpl; [reflexivity|].
  apply IH.
Qed.

(** A text that is not a command goes to the handler of the state of the
    add conversation when that conversation is running. *)
Lemma process_add_text (now : datetime) (t : string) (s : system) (st : state) :
  add_conversation s = Some st -> position st <= 12 ->
  process_update now (Text t) s =
  {| add_conversation :=
       next_state (Some st)
         (snd (run (callback now st (text_message t)) (the_world s)));
     update_conversation := update_conversation s;
     the_world := fst (run (callback now st (text_message t)) (the_world s)) |}.
Proof.
  intros Hst Hpos. unfold process_update. rewrite Hst.
  destruct st; simpl in Hpos; try lia;
    cbn [CommandHandler check_update add_handler states first_match on_text
         on_location callback];
    destruct (run _ (the_world s)); reflexivity.
Qed.

(** A [delete] command goes to [delete_command], whatever the
    conversations are doing. *)
Lemma process_delete (now : datetime) (line : string) (s : system) :
  command_of line = "delete" ->
  process_update now (Command line) s =
  {| add_conversation := add_conversation s;
     update_conversation := update_conversation s;
     the_world :=
       fst (run (delete_command (context_args line) (text_message line))
                (the_world s)) |}.
Proof.
  intros Hc. unfold process_update, CommandHandler. rewrite Hc.
  cbn [String.eqb Ascii.eqb Bool.eqb].
  destruct (add_conversation s) as [st|].
  - destruct st;
      cbn [check_update add_handler states fallbacks entry_points first_match
           on_text on_location CommandHandler];
      rewrite Hc; reflexivity.
  - cbn [check_update add_handler states fallbacks entry_points first_match
         CommandHandler].
    rewrite Hc. reflexivity.
Qed.

(** ** The identifier of the delete command *)

(** C9, as the code has it.  The identifier [delete] matches is made of
    the words of the command line after the command, joined by single
    spaces: the line is split at white space, so runs of spaces collapse
    and surrounding white space is dropped.  The command answers
    [Deleted] and removes rows exactly when some stored row has that
    joined string as its Serial ID; otherwise it answers [Not found] and
    the rows stay. *)
Theorem delete_matches_joined_words
    (now : datetime) (line : string) (s : system) (rows : list row) :
  command_of line = "delete" ->
  context_args line <> [] ->
  csv_file (the_world s) = Some (CSV_COLUMNS :: rows) ->
  Forall width_ok rows ->
  let serial_id := Py.join " " (tl (Py.split line)) in
  let found := existsb (has_serial serial_id) rows in
  the_world (process_update now (Command line) s)
  = with_sent
      (SendText ((if found then "Deleted '" else "Not found '")
                 ++ serial_id ++ "'") NoMarkup)
      (with_file
         (Some (CSV_COLUMNS
                  :: filter (fun r => negb (has_serial serial_id r)) rows))
         (the_world s))
  /\ (found = true <->
      exists r, In r rows /\ get_cell "Serial ID" r = serial_id)
  /\ (found = false ->
      filter (fun r => negb (has_serial serial_id r)) rows = rows).
Proof.
  intros Hc Ha Hf Hr serial_id found. split; [|split].
  - rewrite (process_delete now line s Hc). cbn [the_world]. unfold run.
    rewrite (delete_command_ok (context_args line) (text_message line)
               (the_world s) rows Ha Hf Hr).
    reflexivity.
  - unfold found. rewrite existsb_exists. unfold has_serial.
    split; intros (r & Hin & He); exists r; split; auto;
      now apply String.eqb_eq.
  - apply without_none.
Qed.

Lemma delete_matches_joined_words_witness :
  command_of "/delete BK-001" = "delete" /\
  context_args "/delete BK-001" <> [] /\
  csv_file (the_world demo_session) = Some (CSV_COLUMNS :: sample_rows) /\
  Forall width_ok sample_rows /\
  the_world (process_update t0 (Command "/delete BK-001") demo_session)
  = with_sent (SendText "Deleted 'BK-001'" NoMarkup)
      (with_file
         (Some (CSV_COLUMNS
                  :: filter (fun r => negb (has_serial "BK-001" r)) sample_rows))
         (the_world demo_session)).
Proof.
  assert (Hc : command_of "/delete BK-001" = "delete") by reflexivity.
  assert (Ha : context_args "/delete BK-001" <> []) by discriminate.
  assert (Hf : csv_file (the_world demo_session)
               = Some (CSV_COLUMNS :: sample_rows)) by reflexivity.
  split; [exact Hc|]. split; [exact Ha|]. split; [exact Hf|].
  split; [exact sample_rows_width|].
  exact (proj1 (delete_matches_joined_words t0 "/delete BK-001" demo_session
                  sample_rows Hc Ha Hf sample_rows_width)).
Defined.

(** C9 as stated fails: the record was stored under ["BK  001"], with two
    spaces; the command line ["/delete BK  001"] carries that very string
    after the command, yet the identifier that is matched is ["BK 001"],
    nothing is found and the store is left as it was. *)
Lemma delete_collapses_spaces :
  let line := "/delete BK  001" in
  let s := boot (Some (CSV_COLUMNS :: spaced_rows)) in
  line = "/delete " ++ "BK  001" /\
  (exists r, In r spaced_rows /\ get_cell "Serial ID" r = "BK  001") /\
  Py.join " " (context_args line) = "BK 001" /\
  sent (the_world (process_update t0 (Command line) s))
  = [SendText "Not found 'BK 001'" NoMarkup] /\
  csv_file (the_world (process_update t0 (Command line) s))
  = Some (CSV_COLUMNS :: spaced_rows).
Proof.
  cbv zeta. split; [reflexivity|]. split.
  - eexists. split; [left; reflexivity|reflexivity].
  - vm_compute. repeat split.
Qed.

(** ** The last step of the add flow *)

(** The tail of [add_note] on a well-formed store, for a record that the
    writer takes: the date is stamped, the summary of the stamped record is
    sent, the row goes after the stored rows, [Saved] is sent and the
    session is cleared. *)
Lemma finish_ok (now : datetime) (w : world) (d : dict) (rows : list row)
    (r : row) :
  ud_research_data (user_data w) = Some d ->
  csv_file w = Some (CSV_COLUMNS :: rows) -> Forall width_ok rows ->
  dict_to_list (of_dict (dict_set "Date" (Some (strftime now)) d)) = Some r ->
  finish now w =
  (cleared
     (with_sent (SendText "Saved" NoMarkup)
        (with_file (Some (CSV_COLUMNS :: (rows ++ [r])%list))
           (with_sent
              (SendText
                 (format_summary (dict_set "Date" (Some (strftime now)) d))
                 ReplyKeyboardRemove)
              (with_research (dict_set "Date" (Some (strftime now)) d) w)))),
   Ok END).
Proof.
  intros Hd Hf Hr Hrow. unfold finish.
  rewrite (bind_ok _ _ _ _ _ (research_data_set_ok "Date" _ w d Hd)).
  set (d' := dict_set "Date" (Some (strftime now)) d) in *.
  set (w1 := with_research d' w).
  rewrite (bind_ok _ _ _ _ _ (research_data_ok w1 d' eq_refl)).
  unfold reply_text at 1.
  rewrite (bind_ok _ _ _ _ _ (send_ok _ w1)).
  set (w2 := with_sent _ w1).
  assert (Hf2 : csv_file w2 = Some (CSV_COLUMNS :: rows)) by exact Hf.
  rewrite (bind_ok _ _ _ _ _ (read_csv_ok w2 rows Hf2 Hr)).
  rewrite (bind_ok _ _ _ _ _ (research_data_ok w2 d' eq_refl)).
  assert (Hw : writerows (map (DictReader_row CSV_COLUMNS) rows ++ [of_dict d'])
               = ((rows ++ [r])%list, true)).
  { apply writerows_app; [apply writerows_decode, Hr|].
    simpl. rewrite Hrow. reflexivity. }
  rewrite (bind_ok _ _ _ _ _ (write_csv_ok w2 _ _ Hw)).
  reflexivity.
Qed.

(** ** An add flow with everything skipped *)



(** ** Prefixes of the list of fields *)

Lemma firstn_In_nth (L : list string) (i n : nat) :
  NoDup L -> i < length L -> In (nth i L "") (firstn n L) -> i < n.
Proof.
  revert i n. induction L as [|a L IH]; intros i n Hnd Hi Hin.
  - simpl in Hi. lia.
  - destruct n as [|n]; [simpl in Hin; contradiction|].
    destruct i as [|i]; [lia|].
    simpl in Hin, Hi. inversion Hnd as [|? ? Hna Hnd']; subst.
    destruct Hin as [Heq | Hin].
    + exfalso. apply Hna. rewrite Heq. apply nth_In. lia.
    + apply IH in Hin; [lia|assumption|lia].
Qed.

Lemma nth_In_firstn (L : list string) (i n : nat) :
  i < n -> i < length L -> In (nth i L "") (firstn n L).
Proof.
  revert i n. induction L as [|a L IH]; intros i n Hn Hi.
  - simpl in Hi. lia.
  - destruct n as [|n]; [lia|]. destruct i as [|i]; simpl.
    + now left.
    + right. apply IH; simpl in Hi; lia.
Qed.

Lemma firstn_snoc (L : list string) (i : nat) :
  i < length L -> firstn (S i) L = (firstn i L ++ [nth i L ""])%list.
Proof.
  revert i. induction L as [|a L IH]; intros i Hi.
  - simpl in Hi. lia.
  - destruct i as [|i]; [reflexivity|].
    simpl in Hi. change (firstn (S (S i)) (a :: L)) with (a :: firstn (S i) L).
    rewrite IH by lia. reflexivity.
Qed.

Lemma wizard_fields_nodup : NoDup WIZARD_FIELDS.
Proof.
  unfold WIZARD_FIELDS.
  repeat (constructor; [simpl; intuition discriminate|]). constructor.
Qed.

(** Setting the field of a step extends the prefix by that field when the
    record ends just before it, and keeps the keys otherwise. *)
Lemma keys_after_set (s : state) (n : nat) (v : value) (d : dict) :
  position s <= 12 -> position s <= n <= 13 ->
  dict_keys d = firstn n WIZARD_FIELDS ->
  dict_keys (dict_set (field_of s) v d)
  = firstn (Nat.max n (S (position s))) WIZARD_FIELDS
  /\ dict_contains (field_of s) d = Nat.ltb (position s) n.
Proof.
  intros H12 Hn Hk.
  assert (Hlen : position s < length WIZARD_FIELDS) by (simpl; lia).
  rewrite dict_keys_set.
  destruct (dict_contains (field_of s) d) eqn:E.
  - apply dict_contains_keys in E. rewrite Hk in E.
    apply (firstn_In_nth _ _ _ wizard_fields_nodup Hlen) in E.
    rewrite Nat.max_l by lia. split; [exact Hk|].
    symmetry. apply Nat.ltb_lt, E.
  - assert (Hnot : ~ position s < n).
    { intros Hlt.
      assert (Hin : In (field_of s) (dict_keys d)).
      { rewrite Hk. apply nth_In_firstn; assumption. }
      apply dict_contains_keys in Hin. congruence. }
    assert (n = position s) by lia. subst n.
    rewrite Nat.max_r by lia. rewrite Hk, firstn_snoc by exact Hlen.
    split; [reflexivity|]. symmetry. apply Nat.ltb_ge. lia.
Qed.

Lemma position_following (s : state) :
  position s < 12 -> position (following s) = S (position s).
Proof. destruct s; simpl; intros H; try lia; reflexivity. Qed.

Lemma position_previous (s : state) :
  position s <= 12 -> position (previous s) <= position s.
Proof. destruct s; simpl; lia. Qed.

Lemma later_steps_position (s : state) :
  In s later_steps <-> 1 <= position s <= 12.
Proof.
  split.
  - intros H. simpl in H.
    repeat (destruct H as [<- | H]); try contradiction; simpl; lia.
  - intros H. destruct s; simpl in H; try lia; simpl; tauto.
Qed.

(** ** The invariant, for any property of cells that the flows respect *)

Ltac explode_good H :=
  unfold row_good, CSV_COLUMNS in H;
  repeat match goal with
         | H : Forall2 _ (_ :: _) _ |- _ => inversion H; subst; clear H
         end;
  match goal with
  | H : Forall2 _ [] _ |- _ => inversion H; subst; clear H
  end.

Section Invariant.

Variable good : string -> string -> Prop.
Hypothesis good_na : forall k, good k "N/A".
Hypothesis good_serial : forall v, good "Serial ID" v.
Hypothesis good_date : forall now, good "Date" (strftime now).
Hypothesis good_checked : forall k v, checked k v -> good k (cell_of_value v).

Lemma row_good_width (r : row) : row_good good r -> width_ok r.
Proof.
  intros H. unfold width_ok. symmetry. eapply Forall2_length, H.
Qed.

Lemma rows_good_width (rows : list row) :
  Forall (row_good good) rows -> Forall width_ok rows.
Proof.
  intros H. eapply Forall_impl; [|exact H]. apply row_good_width.
Qed.

Lemma put_cell_good (k v : string) (r : row) :
  row_good good r -> mem k CSV_COLUMNS = true -> good k v ->
  row_good good (put_cell k v r).
Proof.
  intros H Hk Hv. explode_good H.
  column_cases Hk; unfold row_good, CSV_COLUMNS, put_cell; simpl;
    repeat constructor; assumption.
Qed.

Lemma put_first_good (serial_id k v : string) (rows : list row) :
  Forall (row_good good) rows -> mem k CSV_COLUMNS = true -> good k v ->
  Forall (row_good good) (put_first serial_id k v rows).
Proof.
  intros H Hk Hv. induction H as [|r rows Hr Hrows IH]; simpl; [constructor|].
  destruct (has_serial serial_id r); constructor; auto using put_cell_good.
Qed.

Lemma without_good (serial_id : string) (rows : list row) :
  Forall (row_good good) rows ->
  Forall (row_good good)
         (filter (fun r => negb (has_serial serial_id r)) rows).
Proof.
  intros H. apply Forall_forall. intros r Hr. apply filter_In in Hr.
  rewrite Forall_forall in H. apply H. tauto.
Qed.

Lemma set_good (k : string) (v : value) (d : dict) :
  Forall (entry_good good) d -> good k (cell_of_value v) ->
  Forall (entry_good good) (dict_set k v d).
Proof.
  intros H Hv. induction H as [|[k' v'] d Hx Hd IH]; simpl.
  - repeat constructor. exact Hv.
  - destruct (String.eqb k' k); constructor; auto.
Qed.

(** A record with every field of the steps and the date, all good, is
    written as a good row. *)
Lemma record_row (d : dict) :
  dict_keys d = (WIZARD_FIELDS ++ ["Date"])%list ->
  Forall (entry_good good) d ->
  exists r, dict_to_list (of_dict d) = Some r /\ row_good good r.
Proof.
  intros Hk Hg. unfold dict_keys in Hk.
  do 14 (destruct d as [|[? ?] d]; [discriminate Hk|];
         simpl in Hk; injection Hk as -> Hk).
  destruct d; [|discriminate Hk]. clear Hk.
  repeat match goal with
         | H : Forall _ (_ :: _) |- _ => inversion H; subst; clear H
         end.
  eexists. split; [reflexivity|].
  unfold row_good, CSV_COLUMNS. simpl.
  repeat constructor; assumption.
Qed.

Lemma world_good_sent (r : reply) (w : world) :
  world_good good w -> world_good good (with_sent r w).
Proof. intros H. exact H. Qed.

Lemma world_good_cleared (w : world) :
  world_good good w -> world_good good (cleared w).
Proof. intros [H _]. split; [exact H|]. intros k Hk. discriminate Hk. Qed.

Lemma world_good_research (d : dict) (w : world) :
  world_good good w -> world_good good (with_research d w).
Proof. intros H. exact H. Qed.

Lemma world_good_rows (w : world) :
  world_good good w ->
  exists rows, csv_file w = Some (CSV_COLUMNS :: rows)
               /\ Forall (row_good good) rows /\ Forall width_ok rows.
Proof.
  intros [(rows & Hf & Hr) _]. exists rows.
  auto using rows_good_width.
Qed.

Lemma see_command_ok (m : Message) (w : world) :
  world_good good w ->
  exists r, see_command m w = (with_sent r w, Ok ReturnNone).
Proof.
  intros Hw. destruct (world_good_rows w Hw) as (rows & Hf & _ & Hr).
  unfold see_command. rewrite (bind_ok _ _ _ _ _ (read_csv_ok w rows Hf Hr)).
  destruct (map (DictReader_row CSV_COLUMNS) rows); eexists; reflexivity.
Qed.

Lemma update_field_cases (m : Message) (w : world) :
  (exists r, update_field m w = (with_sent r (cleared w), Ok END)) \/
  (exists r, update_field m w = (with_sent r w, Ok (Goto UPDATE_FIELD))) \/
  (exists r k,
      updatable k = true /\
      update_field m w =
      (with_sent r
         {| user_data :=
              {| ud_research_data := ud_research_data (user_data w);
                 ud_update_serial_id := ud_update_serial_id (user_data w);
                 ud_update_record := ud_update_record (user_data w);
                 ud_update_field := Some k |};
            csv_file := csv_file w; sent := sent w |},
       Ok (Goto UPDATE_VALUE))).
Proof.
  unfold update_field. destruct (text_is m "Cancel").
  { left. eexists. reflexivity. }
  destruct (text m) as [k|]; [|right; left; eexists; reflexivity].
  destruct (negb (mem k CSV_COLUMNS) || mem k ["Serial ID"; "Date"]) eqn:E.
  { right. left. eexists. reflexivity. }
  right. right.
  assert (Hu : updatable k = true).
  { unfold updatable. apply orb_false_iff in E. destruct E as [E1 E2].
    apply negb_false_iff in E1. now rewrite E1, E2. }
  rewrite bind_get.
  destruct (mem k rate_fields);
    [|destruct (String.eqb k "Battery Level");
      [|destruct (String.eqb k "Is Straight Parking Angel");
        [|destruct (String.eqb k "Seat Hight");
          [|destruct (String.eqb k "Location")]]]];
    eexists; exists k; (split; [exact Hu|reflexivity]).
Qed.

Lemma update_value_no_field (m : Message) (w : world) :
  ud_update_field (user_data w) = None ->
  (exists e, update_value m w = (w, Raise e)) \/
  (exists r, update_value m w = (with_sent r w, Ok (Goto UPDATE_FIELD))).
Proof.
  intros Hk. unfold update_value. destruct (text_is m "Skip").
  { left. rewrite bind_get, Hk. eexists. reflexivity. }
  destruct (text_is m "Back").
  { rewrite bind_get.
    destruct (ud_update_serial_id (user_data w)); simpl lookup.
    - right. eexists. reflexivity.
    - left. eexists. reflexivity. }
  left. rewrite bind_get, Hk. eexists. reflexivity.
Qed.

Lemma commit_value_good (v : value) (w w' : world) (r : result ret) (k : string) :
  world_good good w ->
  ud_update_field (user_data w) = Some k ->
  good k (cell_of_value v) ->
  commit_value v w = (w', r) ->
  world_good good w' /\ research_kept w w'.
Proof.
  intros Hw Hk Hv Hrun.
  destruct (world_good_rows w Hw) as (rows & Hf & Hg & Hr).
  pose proof (proj2 Hw k Hk) as Hu.
  destruct (ud_update_serial_id (user_data w)) as [sid|] eqn:Hs.
  - rewrite (commit_value_ok v w k sid rows Hk Hs (updatable_column k Hu) Hf Hr)
      in Hrun.
    inversion Hrun; subst. split; [|right; reflexivity].
    apply world_good_cleared. split; [|exact (proj2 Hw)].
    eexists. split; [reflexivity|].
    apply put_first_good; auto using updatable_column.
  - unfold commit_value in Hrun. rewrite bind_get, Hk, Hs in Hrun.
    inversion Hrun; subst. split; [exact Hw|left; reflexivity].
Qed.

(** The handlers outside the steps keep the store and the session
    good, and leave the in-progress record alone or remove it. *)
Lemma other_ok (c : M ret) (w w' : world) (r : result ret) :
  other_callback c -> world_good good w -> c w = (w', r) ->
  world_good good w' /\ research_kept w w'.
Proof.
  intros Hc Hw Hrun. destruct Hc.
  - inversion Hrun; subst. split; [exact Hw|left; reflexivity].
  - destruct (world_good_rows w Hw) as (rows & Hf & Hg & Hr).
    destruct args as [|a args].
    + inversion Hrun; subst. split; [exact Hw|left; reflexivity].
    + rewrite (delete_command_ok (a :: args) m w rows
                 ltac:(discriminate) Hf Hr) in Hrun.
      inversion Hrun; subst. split; [|left; reflexivity].
      split; [|exact (proj2 Hw)].
      eexists. split; [reflexivity|]. apply without_good, Hg.
  - destruct (world_good_rows w Hw) as (rows & Hf & Hg & Hr).
    destruct args as [|a args].
    + inversion Hrun; subst. split; [exact Hw|left; reflexivity].
    + destruct (find (has_serial (Py.join " " (a :: args))) rows) as [x|] eqn:E.
      * rewrite (update_start_found (a :: args) m w rows x
                   ltac:(discriminate) Hf Hr E) in Hrun.
        inversion Hrun; subst. split; [exact Hw|left; reflexivity].
      * rewrite (update_start_not_found (a :: args) m w rows
                   ltac:(discriminate) Hf Hr E) in Hrun.
        inversion Hrun; subst. split; [exact Hw|left; reflexivity].
  - destruct (update_field_cases m w) as [(x & H) | [(x & H) | (x & k & Hu & H)]];
      rewrite H in Hrun; inversion Hrun; subst.
    + split; [apply world_good_cleared, Hw|right; reflexivity].
    + split; [exact Hw|left; reflexivity].
    + split; [|left; reflexivity].
      split; [exact (proj1 Hw)|]. simpl. intros k' Hk'.
      inversion Hk'; subst. exact Hu.
  - destruct (ud_update_field (user_data w)) as [k|] eqn:Hk.
    + destruct (update_value_cases m w k Hk (proj2 Hw k Hk))
        as [(v & H & Hv) | [(x & H) | [(x & H) | (e & H)]]];
        rewrite H in Hrun.
      * apply (commit_value_good v w w' r k Hw Hk); [|exact Hrun].
        destruct Hv as [-> | Hv]; [apply good_na|apply good_checked, Hv].
      * inversion Hrun; subst. split; [exact Hw|left; reflexivity].
      * inversion Hrun; subst. split; [exact Hw|left; reflexivity].
      * inversion Hrun; subst. split; [exact Hw|left; reflexivity].
    + destruct (update_value_no_field m w Hk) as [(e & H) | (x & H)];
        rewrite H in Hrun; inversion Hrun; subst;
        (split; [exact Hw|left; reflexivity]).
  - destruct (see_command_ok m w Hw) as (x & H). rewrite H in Hrun.
    inversion Hrun; subst. split; [exact Hw|left; reflexivity].
  - inversion Hrun; subst. split; [|right; reflexivity].
    apply (world_good_cleared w Hw).
Qed.

End Invariant.

(** ** Every way a step of the add flow can go *)

Lemma run_ok (c : M ret) (w w' : world) (r : ret) :
  c w = (w', Ok r) -> run c w = (w', Some r).
Proof. intros H. unfold run. rewrite H. reflexivity. Qed.

Lemma run_raise (c : M ret) (w w' : world) (e : exn) :
  c w = (w', Raise e) -> run c w = (with_sent error_reply w', None).
Proof. intros H. unfold run. rewrite H. reflexivity. Qed.

Lemma int_range_ok (lo hi : Z) (p : string) (m : Message) (w w' : world)
    (r : result verdict) :
  int_range lo hi p m w = (w', r) ->
  w' = w /\ forall v, r = Ok (Accept v) ->
                      exists t, v = Some t /\ accepts_int lo hi t = true.
Proof.
  unfold int_range. intros H.
  destruct (not_in_range_spec (text m) lo hi w) as [(e & H1) | (t & Ht & H1)].
  - rewrite (bind_raise _ _ _ _ _ H1) in H. inversion H; subst.
    split; [reflexivity|]. intros v Hv. discriminate Hv.
  - rewrite (bind_ok _ _ _ _ _ H1) in H. unfold mret in H.
    inversion H; subst. split; [reflexivity|]. intros v Hv.
    destruct (accepts_int lo hi t) eqn:Ha; simpl in Hv; [|discriminate Hv].
    exists t. split; [congruence|exact Ha].
Qed.

(** A check changes nothing, and what it accepts is a checked value. *)
Lemma check_ok (s : state) (m : Message) (w w' : world) (r : result verdict) :
  In s later_steps -> check_of s m w = (w', r) ->
  w' = w /\
  forall v, r = Ok (Accept v) ->
            text_is m "Skip" = false -> text_is m "Back" = false ->
            checked (field_of s) v.
Proof.
  intros Hs H. simpl in Hs.
  repeat (destruct Hs as [<- | Hs]); try contradiction;
    unfold check_of in H; cbn [field_of position nth WIZARD_FIELDS];
    try (destruct (int_range_ok _ _ _ _ _ _ _ H) as [-> Hacc];
         split; [reflexivity|]; intros v Hv _ _;
         destruct (Hacc v Hv) as (t & -> & Ht);
         first [ apply checked_rate; [reflexivity|exact Ht]
               | apply checked_battery; exact Ht
               | apply checked_seat; exact Ht ]).
  - inversion H; subst. split; [reflexivity|]. intros v Hv Hskip Hback.
    inversion Hv; subst.
    apply checked_text; [reflexivity| |]; apply text_is_false; assumption.
  - unfold shared_location in H. destruct (location m) as [l|];
      inversion H; subst; (split; [reflexivity|]); intros v Hv _ _;
      inversion Hv; subst. apply checked_location.
  - unfold boolean in H. destruct (text m) as [t|]; cbn [str_method] in H.
    + rewrite bind_mret in H.
      destruct (mem (Py.lower t) ["true"; "false"]) eqn:Hb;
        cbn [negb] in H; unfold mret in H;
        inversion H; subst; (split; [reflexivity|]); intros v Hv _ _;
        inversion Hv; subst. apply checked_boolean, Hb.
    + unfold bind, raise in H.
      inversion H; subst. split; [reflexivity|]. intros v Hv. discriminate Hv.
  - inversion H; subst. split; [reflexivity|]. intros v Hv Hskip Hback.
    inversion Hv; subst.
    apply checked_text; [reflexivity| |]; apply text_is_false; assumption.
Qed.

(** A step raises or asks again with nothing changed, goes back with
    nothing changed, or goes on: from the record as it is when [Skip]
    finds the field set, else from the record with the field set to
    ["N/A"] or to a checked value. *)
Lemma step_cases (now : datetime) (s : state) (m : Message) (w : world) :
  In s later_steps ->
  (exists e, callback now s m w = (w, Raise e)
             /\ (ud_research_data (user_data w) = None
                 \/ check_of s m w = (w, Raise e))) \/
  (exists p, callback now s m w = (with_sent (SendText p NoMarkup) w, Ok (Goto s))
             /\ check_of s m w = (w, Ok (Reject p))) \/
  (callback now s m w = (with_sent (back_prompt s) w, Ok (Goto (previous s)))
   /\ text_is m "Back" = true) \/
  (exists d, ud_research_data (user_data w) = Some d
             /\ dict_contains (field_of s) d = true
             /\ callback now s m w = onward now s w) \/
  (exists d v, ud_research_data (user_data w) = Some d
               /\ (v = Some "N/A" \/ checked (field_of s) v)
               /\ callback now s m w
                  = onward now s (with_research (dict_set (field_of s) v d) w)).
Proof.
  intros Hs. rewrite (handler_is_step now s m w Hs). unfold wizard_step.
  destruct (text_is m "Skip") eqn:Hskip.
  { destruct (ud_research_data (user_data w)) as [d|] eqn:Hd.
    - rewrite (bind_ok _ _ _ _ _ (skip_field_ok (field_of s) w d Hd)).
      destruct (dict_contains (field_of s) d) eqn:Hc.
      + right. right. right. left. exists d. auto.
      + right. right. right. right. exists d, (Some "N/A"). auto.
    - left. eexists. split; [|left; reflexivity].
      apply bind_raise, skip_field_missing, Hd. }
  destruct (text_is m "Back") eqn:Hback.
  { right. right. left. split; reflexivity. }
  destruct (check_of s m w) as [w' r] eqn:Hcheck.
  destruct (check_ok s m w w' r Hs Hcheck) as [-> Hacc].
  destruct r as [[p|v]|e].
  - right. left. rewrite (bind_ok _ _ _ _ _ Hcheck). exists p.
    split; reflexivity.
  - rewrite (bind_ok _ _ _ _ _ Hcheck).
    destruct (ud_research_data (user_data w)) as [d|] eqn:Hd.
    + right. right. right. right. exists d, v. split; [reflexivity|].
      split; [right; apply Hacc; auto|].
      rewrite (bind_ok _ _ _ _ _ (research_data_set_ok (field_of s) v w d Hd)).
      reflexivity.
    + left. eexists. split; [|left; reflexivity].
      apply bind_raise, research_data_set_missing, Hd.
  - left. exists e. split; [|right; reflexivity]. apply bind_raise, Hcheck.
Qed.

Lemma serial_cases (m : Message) (w : world) :
  add_serial_id m w
  = (with_sent (SendText "Cancelled" ReplyKeyboardRemove) (cleared w), Ok END) \/
  (exists e, add_serial_id m w = (w, Raise e)) \/
  (exists d, ud_research_data (user_data w) = Some d /\
             text_is m "Cancel" = false /\
             add_serial_id m w
             = (with_sent (prompt INVENTORY_TAG)
                  (with_research (dict_set "Serial ID" (text m) d) w),
                Ok (Goto INVENTORY_TAG))).
Proof.
  unfold add_serial_id. destruct (text_is m "Cancel").
  { left. reflexivity. }
  destruct (ud_research_data (user_data w)) as [d|] eqn:Hd.
  - right. right. exists d. split; [reflexivity|]. split; [reflexivity|].
    rewrite (bind_ok _ _ _ _ _ (research_data_set_ok "Serial ID" _ w d Hd)).
    reflexivity.
  - right. left. eexists. apply bind_raise, research_data_set_missing, Hd.
Qed.

Section Steps.

Variable good : string -> string -> Prop.
Hypothesis good_na : forall k, good k "N/A".
Hypothesis good_serial : forall v, good "Serial ID" v.
Hypothesis good_date : forall now, good "Date" (strftime now).
Hypothesis good_checked : forall k v, checked k v -> good k (cell_of_value v).

(** Going on from a record that reaches past the step. *)
Lemma onward_good (now : datetime) (s : state) (w1 w' : world) (d1 : dict)
    (n : nat) (ro : option ret) :
  In s later_steps -> world_good good w1 ->
  ud_research_data (user_data w1) = Some d1 ->
  S (position s) <= n <= 13 ->
  dict_keys d1 = firstn n WIZARD_FIELDS ->
  Forall (entry_good good) d1 ->
  run (onward now s) w1 = (w', ro) ->
  step_post good s w' ro.
Proof.
  intros Hs Hw Hd Hn Hk Hg Hrun.
  apply later_steps_position in Hs.
  destruct (Nat.eq_dec (position s) 12) as [H12 | H12].
  - assert (s = NOTE) by (destruct s; simpl in H12; try lia; reflexivity).
    subst s. simpl in Hn. assert (n = 13) by lia. subst n.
    change (firstn 13 WIZARD_FIELDS) with WIZARD_FIELDS in Hk.
    destruct (world_good_rows good w1 Hw) as (rows & Hf & Hrows & Hwidth).
    set (d' := dict_set "Date" (Some (strftime now)) d1).
    assert (Hk' : dict_keys d' = (WIZARD_FIELDS ++ ["Date"])%list).
    { unfold d'. rewrite dict_keys_set.
      destruct (dict_contains "Date" d1) eqn:E.
      - apply dict_contains_keys in E. rewrite Hk in E. simpl in E.
        exfalso. intuition discriminate.
      - now rewrite Hk. }
    assert (Hg' : Forall (entry_good good) d').
    { apply set_good; [exact Hg|apply good_date]. }
    destruct (record_row good d' Hk' Hg') as (r & Hrow & Hr).
    cbn [onward] in Hrun.
    rewrite (run_ok _ _ _ _ (finish_ok now w1 d1 rows r Hd Hf Hwidth Hrow))
      in Hrun.
    inversion Hrun; subst. split.
    + apply world_good_cleared. split; [|exact (proj2 Hw)].
      eexists. split; [reflexivity|].
      apply Forall_app. split; [exact Hrows|]. constructor; [exact Hr|constructor].
    + intros s' Hs'. discriminate Hs'.
  - assert (Hne : s <> NOTE) by (intros ->; simpl in H12; lia).
    rewrite (run_ok _ _ _ _ (onward_next now s w1 Hne)) in Hrun.
    inversion Hrun; subst. split; [exact Hw|].
    intros s' Hs'. simpl in Hs'. inversion Hs'; subst s'.
    rewrite position_following by lia. split; [lia|].
    intros d Hd'. simpl in Hd'. rewrite Hd in Hd'. inversion Hd'; subst d.
    exists n. rewrite position_following by lia.
    split; [lia|split; assumption].
Qed.

Lemma stay_good (s : state) (w : world) (r : reply) (ro : option ret) :
  position s <= 12 -> world_good good w ->
  (forall d, ud_research_data (user_data w) = Some d -> record_good good s d) ->
  next_state (Some s) ro = Some s ->
  step_post good s (with_sent r w) ro.
Proof.
  intros Hp Hw Hrec Hnext. split; [exact Hw|].
  intros s' Hs'. rewrite Hnext in Hs'. inversion Hs'; subst s'.
  split; [exact Hp|exact Hrec].
Qed.

(** The steps after the Serial ID keep everything good. *)
Lemma step_good (now : datetime) (s : state) (m : Message) (w w' : world)
    (ro : option ret) :
  In s later_steps -> world_good good w ->
  (forall d, ud_research_data (user_data w) = Some d -> record_good good s d) ->
  run (callback now s m) w = (w', ro) ->
  step_post good s w' ro.
Proof.
  intros Hs Hw Hrec Hrun.
  pose proof (proj1 (later_steps_position s) Hs) as Hp.
  destruct (step_cases now s m w Hs)
    as [(e & H & _) | [(r & H & _) | [[H _] | [(d & Hd & Hc & H) | (d & v & Hd & Hv & H)]]]].
  - rewrite (run_raise _ _ _ _ H) in Hrun. inversion Hrun; subst.
    apply stay_good; auto; lia.
  - rewrite (run_ok _ _ _ _ H) in Hrun. inversion Hrun; subst.
    apply stay_good; auto; lia.
  - rewrite (run_ok _ _ _ _ H) in Hrun. inversion Hrun; subst.
    split; [exact Hw|]. intros s' Hs'. simpl in Hs'. inversion Hs'; subst s'.
    pose proof (position_previous s ltac:(lia)) as Hprev.
    split; [lia|]. intros d Hd. destruct (Hrec d Hd) as (n & Hn & Hk & Hg).
    exists n. split; [lia|auto].
  - destruct (Hrec d Hd) as (n & Hn & Hk & Hg).
    destruct (keys_after_set s n (Some "N/A") d ltac:(lia) Hn Hk) as [_ Hlt].
    rewrite Hc in Hlt. symmetry in Hlt. apply Nat.ltb_lt in Hlt.
    unfold run in Hrun. rewrite H in Hrun.
    apply (onward_good now s w w' d n ro Hs Hw Hd ltac:(lia) Hk Hg Hrun).
  - destruct (Hrec d Hd) as (n & Hn & Hk & Hg).
    destruct (keys_after_set s n v d ltac:(lia) Hn Hk) as [Hk' _].
    unfold run in Hrun. rewrite H in Hrun.
    apply (onward_good now s _ w' (dict_set (field_of s) v d)
             (Nat.max n (S (position s))) ro Hs
             (world_good_research good _ w Hw) eq_refl ltac:(lia) Hk').
    + apply set_good; [exact Hg|].
      destruct Hv as [-> | Hv]; [apply good_na|apply good_checked, Hv].
    + exact Hrun.
Qed.

Lemma serial_good (m : Message) (w w' : world) (ro : option ret) :
  world_good good w ->
  (forall d, ud_research_data (user_data w) = Some d ->
             record_good good SERIAL_ID d) ->
  run (add_serial_id m) w = (w', ro) ->
  step_post good SERIAL_ID w' ro.
Proof.
  intros Hw Hrec Hrun.
  destruct (serial_cases m w) as [H | [(e & H) | (d & Hd & _ & H)]].
  - rewrite (run_ok _ _ _ _ H) in Hrun. inversion Hrun; subst.
    split; [apply (world_good_cleared good w Hw)|].
    intros s' Hs'. discriminate Hs'.
  - rewrite (run_raise _ _ _ _ H) in Hrun. inversion Hrun; subst.
    apply stay_good; auto. simpl. lia.
  - rewrite (run_ok _ _ _ _ H) in Hrun. inversion Hrun; subst.
    split; [exact Hw|]. intros s' Hs'. simpl in Hs'. inversion Hs'; subst s'.
    split; [simpl; lia|]. intros d' Hd'. simpl in Hd'.
    inversion Hd'; subst d'.
    destruct (Hrec d Hd) as (n & Hn & Hk & Hg).
    destruct (keys_after_set SERIAL_ID n (text m) d ltac:(simpl; lia) Hn Hk)
      as [Hk' _].
    exists (Nat.max n 1). split; [simpl in *; lia|]. split; [exact Hk'|].
    apply set_good; [exact Hg|apply good_serial].
Qed.

(** Every handler of the add conversation keeps everything good. *)
Lemma callback_good (now : datetime) (s : state) (m : Message) (w w' : world)
    (ro : option ret) :
  position s <= 12 -> world_good good w ->
  (forall d, ud_research_data (user_data w) = Some d -> record_good good s d) ->
  run (callback now s m) w = (w', ro) ->
  step_post good s w' ro.
Proof.
  intros Hp Hw Hrec Hrun.
  destruct (Nat.eq_dec (position s) 0) as [H0 | H0].
  - assert (s = SERIAL_ID) by (destruct s; simpl in H0; try lia; reflexivity).
    subst s. apply (serial_good m w w' ro Hw Hrec Hrun).
  - apply (step_good now s m w w' ro); auto.
    apply later_steps_position. lia.
Qed.

Lemma add_start_good (m : Message) (w w' : world) (ro : option ret) :
  world_good good w ->
  run (add_start m) w = (w', ro) ->
  world_good good w'
  /\ ro = Some (Goto SERIAL_ID)
  /\ forall d, ud_research_data (user_data w') = Some d ->
               record_good good SERIAL_ID d.
Proof.
  intros Hw Hrun. unfold run in Hrun. simpl in Hrun.
  inversion Hrun; subst. split; [exact Hw|]. split; [reflexivity|].
  intros d Hd. simpl in Hd. inversion Hd; subst d.
  exists 0. split; [simpl; lia|]. split; [reflexivity|constructor].
Qed.

End Steps.

(** ** Which handler takes an update *)

Lemma command_handler_cases (name : string)
    (cb : list string -> Message -> M ret) (ev : event) :
  CommandHandler name cb ev = None \/
  exists args m, CommandHandler name cb ev = Some (cb args m).
Proof.
  unfold CommandHandler. destruct ev as [line| |]; auto.
  destruct (String.eqb (command_of line) name); eauto.
Qed.

Lemma add_dispatch (now : datetime) (st : option state) (ev : event) :
  check_update (add_handler now) st ev = None \/
  (st = None /\
   exists m, check_update (add_handler now) st ev = Some (add_start m)) \/
  (exists s m, st = Some s /\ position s <= 12 /\
               check_update (add_handler now) st ev = Some (callback now s m)) \/
  (exists m, check_update (add_handler now) st ev = Some (cancel m)).
Proof.
  destruct st as [s|].
  - destruct ev as [line|t|l].
    + assert (H : check_update (add_handler now) (Some s) (Command line)
                  = CommandHandler "cancel" (fun _ => cancel) (Command line)).
      { destruct s; simpl;
          destruct (String.eqb (command_of line) "cancel"); reflexivity. }
      rewrite H.
      destruct (command_handler_cases "cancel" (fun _ => cancel) (Command line))
        as [-> | (args & m & ->)]; eauto.
    + destruct s; simpl;
        try (right; right; left; eexists; eexists;
             split; [reflexivity|split; [simpl; lia|reflexivity]]);
        left; reflexivity.
    + destruct s; simpl;
        try (right; right; left; eexists; eexists;
             split; [reflexivity|split; [simpl; lia|reflexivity]]);
        left; reflexivity.
  - cbn [check_update add_handler entry_points first_match].
    destruct (command_handler_cases "add" (fun _ => add_start) ev)
      as [-> | (args & m & ->)]; eauto.
Qed.

Lemma update_dispatch (st : option state) (ev : event) :
  check_update update_handler st ev = None \/
  exists c, other_callback c /\ check_update update_handler st ev = Some c.
Proof.
  destruct st as [s|].
  - destruct ev as [line|t|l].
    + assert (H : check_update update_handler (Some s) (Command line)
                  = CommandHandler "cancel" (fun _ => cancel) (Command line)).
      { destruct s; simpl;
          destruct (String.eqb (command_of line) "cancel"); reflexivity. }
      rewrite H.
      destruct (command_handler_cases "cancel" (fun _ => cancel) (Command line))
        as [-> | (args & m & ->)]; [auto|].
      right. eexists. split; [apply oc_cancel|reflexivity].
    + destruct s; simpl; auto; right; eexists;
        (split; [|reflexivity]); constructor.
    + destruct s; simpl; auto; right; eexists;
        (split; [|reflexivity]); constructor.
  - cbn [check_update update_handler entry_points first_match].
    destruct (command_handler_cases "update" update_start ev)
      as [-> | (args & m & ->)]; [auto|].
    right. eexists. split; [apply oc_update_start|reflexivity].
Qed.

Section Process.

Variable good : string -> string -> Prop.
Hypothesis good_na : forall k, good k "N/A".
Hypothesis good_serial : forall v, good "Serial ID" v.
Hypothesis good_date : forall now, good "Date" (strftime now).
Hypothesis good_checked : forall k v, checked k v -> good k (cell_of_value v).

Lemma run_other_good (c : M ret) (w w' : world) (ro : option ret) :
  other_callback c -> world_good good w -> run c w = (w', ro) ->
  world_good good w' /\ research_kept w w'.
Proof.
  intros Hc Hw Hrun. unfold run in Hrun.
  destruct (c w) as [w1 [r|e]] eqn:E; inversion Hrun; subst;
    exact (other_ok good good_na good_checked c w _ _ Hc Hw E).
Qed.

Lemma plain_good (c : M ret) (s : system) (uc : option state)
    (w' : world) (ro : option ret) :
  other_callback c -> session_good good s ->
  run c (the_world s) = (w', ro) ->
  session_good good
    {| add_conversation := add_conversation s;
       update_conversation := uc;
       the_world := w' |}.
Proof.
  intros Hc [Hw Hadd] Hrun.
  destruct (run_other_good c _ _ _ Hc Hw Hrun) as [Hw' Hkept].
  split; [exact Hw'|]. simpl. intros st Hst.
  destruct (Hadd st Hst) as [Hp Hrec]. split; [exact Hp|].
  intros d Hd. destruct Hkept as [Hk | Hk]; rewrite Hk in Hd.
  - apply Hrec, Hd.
  - discriminate Hd.
Qed.

(** Handling one update keeps the store and the session good. *)
Lemma process_update_good (now : datetime) (ev : event) (s : system) :
  session_good good s -> session_good good (process_update now ev s).
Proof.
  intros Hs. unfold process_update.
  destruct (command_handler_cases "start" (fun _ => start) ev)
    as [-> | (args & m & ->)].
  2:{ destruct (run (start m) (the_world s)) as [w' ro] eqn:Hrun.
      simpl fst. apply (plain_good (start m) s _ w' ro); auto. constructor. }
  destruct (add_dispatch now (add_conversation s) ev)
    as [-> | [(Hn & m & ->) | [(st & m & Hst & Hp & ->) | (m & ->)]]].
  - destruct (command_handler_cases "delete" delete_command ev)
      as [-> | (args & m & ->)].
    2:{ destruct (run (delete_command args m) (the_world s)) as [w' ro] eqn:Hrun.
        simpl fst. apply (plain_good (delete_command args m) s _ w' ro); auto.
        constructor. }
    destruct (update_dispatch (update_conversation s) ev)
      as [-> | (c & Hc & ->)].
    2:{ destruct (run c (the_world s)) as [w' ro] eqn:Hrun.
        apply (plain_good c s _ w' ro); auto. }
    destruct (command_handler_cases "see" (fun _ => see_command) ev)
      as [-> | (args & m & ->)]; [exact Hs|].
    destruct (run (see_command m) (the_world s)) as [w' ro] eqn:Hrun.
    simpl fst. apply (plain_good (see_command m) s _ w' ro); auto.
    constructor.
  - destruct (run (add_start m) (the_world s)) as [w' ro] eqn:Hrun.
    destruct (add_start_good good m _ _ _ (proj1 Hs) Hrun) as (Hw' & -> & Hrec).
    rewrite Hn. split; [exact Hw'|]. simpl. intros st Hst.
    inversion Hst; subst st. split; [simpl; lia|exact Hrec].
  - destruct (run (callback now st m) (the_world s)) as [w' ro] eqn:Hrun.
    destruct Hs as [Hw Hadd]. destruct (Hadd st Hst) as [_ Hrec].
    destruct (callback_good good good_na good_serial good_date good_checked
                now st m _ _ _ Hp Hw Hrec Hrun) as [Hw' Hnext].
    rewrite Hst. split; [exact Hw'|]. simpl. exact Hnext.
  - destruct (run (cancel m) (the_world s)) as [w' ro] eqn:Hrun.
    assert (Hro : ro = Some END) by (unfold run in Hrun; simpl in Hrun; congruence).
    destruct (run_other_good (cancel m) _ _ _ (oc_cancel m) (proj1 Hs) Hrun)
      as [Hw' _].
    subst ro. split; [exact Hw'|]. simpl.
    destruct (add_conversation s); intros st Hst; discriminate Hst.
Qed.

Lemma process_good (evs : list (datetime * event)) (s : system) :
  session_good good s -> session_good good (process evs s).
Proof.
  revert s. induction evs as [|[now ev] evs IH]; intros s Hs; simpl.
  - exact Hs.
  - apply IH, process_update_good, Hs.
Qed.

Lemma boot_good (f : file) :
  f = None \/ store_good good f -> session_good good (boot f).
Proof.
  intros Hf. split; [split|].
  - simpl. destruct Hf as [-> | (rows & -> & Hr)]; simpl.
    + exists []. split; [reflexivity|constructor].
    + exists rows. auto.
  - simpl. intros k Hk. discriminate Hk.
  - simpl. intros st Hst. discriminate Hst.
Qed.

End Process.

(** ** The invariant of the store *)

Lemma valid_na (k : string) : valid_cell k "N/A".
Proof. left. reflexivity. Qed.

Lemma valid_serial (v : string) : valid_cell "Serial ID" v.
Proof. right. exact I. Qed.

Lemma valid_date (now : datetime) : valid_cell "Date" (strftime now).
Proof. right. exists now. reflexivity. Qed.

Lemma lower_of_boolean (t : string) :
  mem (Py.lower t) ["true"; "false"] = true ->
  Py.lower (Py.lower t) = Py.lower t.
Proof.
  unfold mem. simpl. intros H.
  apply orb_prop in H. destruct H as [H|H].
  - apply String.eqb_eq in H. rewrite H. reflexivity.
  - apply orb_prop in H. destruct H as [H|H]; [|discriminate].
    apply String.eqb_eq in H. rewrite H. reflexivity.
Qed.

(** A value that passed the check of a field is a string the check of the
    field accepts. *)
Lemma valid_checked (k : string) (v : value) :
  checked k v -> valid_cell k (cell_of_value v).
Proof.
  intros H. right. destruct H as [k o Hk _ _ | k t Hk Ht | t Ht | t Ht | t Ht | l].
  - column_cases Hk; exact I.
  - column_cases Hk; exact Ht.
  - exact Ht.
  - exact Ht.
  - unfold accepted. simpl. rewrite (lower_of_boolean t Ht). exact Ht.
  - exists l. reflexivity.
Qed.

(** C8.  Whatever update the bot handles (the last step of the add flow,
    the write of the update flow and the delete command among them), if
    the store satisfies the invariant and the session is one the flows
    build, then the store satisfies the invariant afterwards: the file has
    the header of the schema, every row has exactly one cell per column of
    the header, in its order, and every cell is ["N/A"] or a string the
    check of its column accepts.  The session stays one the flows build,
    so this holds along every run. *)
Theorem store_invariant_preserved (now : datetime) (ev : event) (s : system) :
  session_good valid_cell s ->
  store_valid (csv_file (the_world (process_update now ev s)))
  /\ session_good valid_cell (process_update now ev s).
Proof.
  intros Hs.
  pose proof (process_update_good valid_cell valid_na valid_serial valid_date
                valid_checked now ev s Hs) as H.
  split; [exact (proj1 (proj1 H))|exact H].
Qed.

(** From the start of the bot on a store that satisfies the invariant (or
    on no file), the store satisfies it after any sequence of updates. *)
Lemma store_valid_always (f : file) (evs : list (datetime * event)) :
  f = None \/ store_valid f ->
  store_valid (csv_file (the_world (process evs (boot f)))).
Proof.
  intros Hf.
  apply (process_good valid_cell valid_na valid_serial valid_date valid_checked
           evs (boot f) (boot_good valid_cell f Hf)).
Qed.

Ltac valid_cell_tac :=
  first [ left; reflexivity
        | right; exact I
        | right; reflexivity
        | right; exists (mkLocation "41.38" "2.17"); reflexivity
        | right; exists t0; reflexivity
        | right; exists (mkDatetime 2026 11 3 9 12 40); reflexivity
        | right; exists (mkDatetime 2026 11 3 10 0 0); reflexivity ].

Ltac good_rows tac :=
  unfold sample_rows, row_good, CSV_COLUMNS;
  repeat (apply Forall_cons;
          [repeat (apply Forall2_cons; [tac|]); apply Forall2_nil|]);
  apply Forall_nil.

Lemma sample_store_valid : store_valid (Some (CSV_COLUMNS :: sample_rows)).
Proof.
  exists sample_rows. split; [reflexivity|]. good_rows valid_cell_tac.
Qed.

Lemma demo_session_good : session_good valid_cell demo_session.
Proof.
  rewrite <- demo_session_reached.
  apply (process_good valid_cell valid_na valid_serial valid_date valid_checked).
  apply boot_good. right. exact sample_store_valid.
Qed.

Lemma store_invariant_preserved_witness :
  session_good valid_cell demo_session /\
  store_valid
    (csv_file (the_world (process_update t0 (Text "Skip") demo_session))).
Proof.
  split; [exact demo_session_good|].
  exact (proj1 (store_invariant_preserved t0 (Text "Skip") demo_session
                  demo_session_good)).
Defined.

(** ** The tokens never reach a field after the Serial ID *)

Lemma has_char_app (c : ascii) (a b : string) :
  Py.has_char c (a ++ b) = Py.has_char c a || Py.has_char c b.
Proof.
  induction a as [|x a IH]; simpl; [reflexivity|].
  rewrite IH. now rewrite orb_assoc.
Qed.

Lemma has_char_middle (c : ascii) (a b : string) :
  Py.has_char c (a ++ String c b) = true.
Proof.
  rewrite has_char_app. cbn [Py.has_char]. rewrite Ascii.eqb_refl.
  apply orb_true_r.
Qed.

Lemma differ_by_char (c : ascii) (s t : string) :
  Py.has_char c s = true -> Py.has_char c t = false -> s <> t.
Proof. intros Hs Ht ->. congruence. Qed.

Lemma token_na (k : string) : no_token k "N/A".
Proof. right. split; discriminate. Qed.

Lemma token_serial (v : string) : no_token "Serial ID" v.
Proof. left. reflexivity. Qed.

Lemma token_date (now : datetime) : no_token "Date" (strftime now).
Proof.
  right.
  assert (H : Py.has_char "-" (strftime now) = true).
  { unfold strftime. apply has_char_middle. }
  split; apply (differ_by_char "-" _ _ H); reflexivity.
Qed.

Lemma token_int (lo hi : Z) (t : string) :
  accepts_int lo hi t = true -> t <> "Back" /\ t <> "Skip".
Proof.
  unfold accepts_int. intros H. apply andb_prop in H. destruct H as [H _].
  split; intros ->; discriminate H.
Qed.

Lemma token_checked (k : string) (v : value) :
  checked k v -> no_token k (cell_of_value v).
Proof.
  intros H. right.
  destruct H as [k o _ Hs Hb | k t _ Ht | t Ht | t Ht | t Ht | l];
    try (exact (token_int _ _ _ Ht)).
  - destruct o as [t|]; simpl; [|split; discriminate].
    split; intros ->; congruence.
  - simpl. split; intros He; rewrite He in Ht; discriminate Ht.
  - assert (H : Py.has_char "," (location_text l) = true).
    { unfold location_text. apply has_char_middle. }
    simpl. split; apply (differ_by_char "," _ _ H); reflexivity.
Qed.

(** C10.  At the Serial ID step every text other than [Cancel] is stored
    as the identifier as it is, the texts [Back] and [Skip] included.  At
    every later step of the add flow and in the state of the update flow
    that takes the value, [Back] and [Skip] are taken before any check:
    [Back] stores nothing and [Skip] stores at most ["N/A"].  So, with no
    token in a field other than the Serial ID in the store and in the
    in-progress record, no update the bot handles puts one there. *)
Theorem tokens_absorbed (now : datetime) (ev : event) (s : system)
    (t : string) (w : world) (d : dict) :
  session_good no_token s ->
  t <> "Cancel" ->
  ud_research_data (user_data w) = Some d ->
  add_serial_id (text_message t) w
  = (with_sent (prompt INVENTORY_TAG)
       (with_research (dict_set "Serial ID" (Some t) d) w),
     Ok (Goto INVENTORY_TAG))
  /\ (forall st, In st later_steps ->
        callback now st (text_message "Back") w
        = (with_sent (back_prompt st) w, Ok (Goto (previous st)))
        /\ callback now st (text_message "Skip") w
           = onward now st
               (if dict_contains (field_of st) d then w
                else with_research (dict_set (field_of st) (Some "N/A") d) w))
  /\ (forall serial_id, ud_update_serial_id (user_data w) = Some serial_id ->
        update_value (text_message "Back") w
        = (with_sent
             (SendText ("Update field for '" ++ serial_id ++ "':") field_keyboard)
             w,
           Ok (Goto UPDATE_FIELD)))
  /\ update_value (text_message "Skip") w = commit_value (Some "N/A") w
  /\ session_good no_token (process_update now ev s).
Proof.
  intros Hs Ht Hd. split; [|split; [|split; [|split]]].
  - unfold add_serial_id, text_is. cbn [text text_message].
    destruct (String.eqb_spec t "Cancel"); [contradiction|].
    rewrite (bind_ok _ _ _ _ _
               (research_data_set_ok "Serial ID" (Some t) w d Hd)).
    reflexivity.
  - intros st Hst. split.
    + rewrite (handler_is_step now st _ w Hst). reflexivity.
    + rewrite (handler_is_step now st _ w Hst). unfold wizard_step.
      change (text_is (text_message "Skip") "Skip") with true. cbv iota.
      rewrite (bind_ok _ _ _ _ _ (skip_field_ok (field_of st) w d Hd)).
      reflexivity.
  - intros serial_id Hsid. unfold update_value.
    change (text_is (text_message "Back") "Skip") with false.
    change (text_is (text_message "Back") "Back") with true. cbv iota.
    rewrite bind_get, Hsid. reflexivity.
  - reflexivity.
  - apply (process_update_good no_token token_na token_serial token_date
             token_checked now ev s Hs).
Qed.

Lemma demo_session_no_token : session_good no_token demo_session.
Proof.
  rewrite <- demo_session_reached.
  apply (process_good no_token token_na token_serial token_date token_checked).
  apply boot_good. right. exists sample_rows. split; [reflexivity|].
  good_rows ltac:(first [ left; reflexivity | right; split; discriminate ]).
Qed.

Lemma tokens_absorbed_witness :
  session_good no_token demo_session /\
  "Back" <> "Cancel" /\
  ud_research_data (user_data demo_world) = Some demo_record /\
  add_serial_id (text_message "Back") demo_world
  = (with_sent (prompt INVENTORY_TAG)
       (with_research (dict_set "Serial ID" (Some "Back") demo_record)
          demo_world),
     Ok (Goto INVENTORY_TAG)).
Proof.
  assert (Hne : "Back" <> "Cancel") by discriminate.
  assert (Hd : ud_research_data (user_data demo_world) = Some demo_record)
    by reflexivity.
  split; [exact demo_session_no_token|]. split; [exact Hne|].
  split; [exact Hd|].
  exact (proj1 (tokens_absorbed t0 (Text "Skip") demo_session "Back"
                  demo_world demo_record demo_session_no_token Hne Hd)).
Defined.

(** ** The summary *)

Lemma append_assoc (a b c : string) : (a ++ b) ++ c = a ++ (b ++ c).
Proof. induction a as [|x a IH]; simpl; [reflexivity|]. now rewrite IH. Qed.

Lemma append_empty (a : string) : a ++ "" = a.
Proof. induction a as [|x a IH]; simpl; [reflexivity|]. now rewrite IH. Qed.

Lemma fold_summary (d : dict) (init : string) :
  fold_left
    (fun summary kv =>
       summary ++ fst kv ++ ": " ++ str_of_value (snd kv) ++ newline)
    d init
  = init ++ join_lines (map summary_line d).
Proof.
  revert init. induction d as [|kv d IH]; intros init; simpl.
  - now rewrite append_empty.
  - rewrite IH. unfold summary_line at 2. now rewrite append_assoc.
Qed.

(** The summary is the heading and then the lines of the entries, in the
    order in which the record holds them. *)
Lemma format_summary_lines (d : dict) :
  format_summary d
  = ("Summary:" ++ newline ++ newline) ++ join_lines (map summary_line d).
Proof. unfold format_summary. apply fold_summary. Qed.

(** The last step with a record that holds every field of the steps. *)
Lemma finish_summary (now : datetime) (w : world) (d : dict) :
  world_good any_cell w ->
  ud_research_data (user_data w) = Some d ->
  dict_keys d = WIZARD_FIELDS ->
  let d' := dict_set "Date" (Some (strftime now)) d in
  dict_keys d' = (WIZARD_FIELDS ++ ["Date"])%list
  /\ dict_get "Date" d' = Some (Some (strftime now))
  /\ exists w',
       finish now w = (w', Ok END)
       /\ sent w' = (sent w ++ [SendText (format_summary d') ReplyKeyboardRemove;
                                SendText "Saved" NoMarkup])%list.
Proof.
  intros Hw Hd Hk d'.
  assert (Hk' : dict_keys d' = (WIZARD_FIELDS ++ ["Date"])%list).
  { unfold d'. rewrite dict_keys_set.
    destruct (dict_contains "Date" d) eqn:E.
    - apply dict_contains_keys in E. rewrite Hk in E. simpl in E.
      exfalso. intuition discriminate.
    - now rewrite Hk. }
  split; [exact Hk'|]. split; [apply dict_get_set_same|].
  destruct (world_good_rows any_cell w Hw) as (rows & Hf & _ & Hwidth).
  assert (Hg : Forall (entry_good any_cell) d').
  { apply Forall_forall. intros x _. exact I. }
  destruct (record_row any_cell d' Hk' Hg) as (r & Hrow & _).
  eexists. split; [apply (finish_ok now w d rows r Hd Hf Hwidth Hrow)|].
  simpl. rewrite <- app_assoc. reflexivity.
Qed.

(** C7, as the code has it.  At the last step of the add flow, for a text
    other than [Back], the handler stamps the date into the record, and
    the first thing it sends is the summary of the stamped record.  The
    summary lists every field, one line each, in the order in which the
    record holds them: the order of the steps of the flow (Serial ID,
    Inventory Tag, Location, Is Straight Parking Angel, Tires Rate, Seat
    Hight, Appearence Rate, Battery Level, Left Brake Rate, Right Brake
    Rate, Pedaling Rate, Speed Rate, Note) and then the Date.  [Saved]
    follows. *)
Theorem summary_in_step_order (now : datetime) (t : string) (s : system)
    (d : dict) :
  session_good any_cell s ->
  add_conversation s = Some NOTE ->
  t <> "Back" ->
  ud_research_data (user_data (the_world s)) = Some d ->
  exists d',
    dict_keys d' = (WIZARD_FIELDS ++ ["Date"])%list
    /\ dict_get "Date" d' = Some (Some (strftime now))
    /\ (forall k, In k WIZARD_FIELDS -> k <> "Note" ->
                  dict_get k d' = dict_get k d)
    /\ sent (the_world (process_update now (Text t) s))
       = (sent (the_world s)
          ++ [SendText (format_summary d') ReplyKeyboardRemove;
              SendText "Saved" NoMarkup])%list
    /\ format_summary d'
       = ("Summary:" ++ newline ++ newline)
         ++ join_lines (map summary_line d').
Proof.
  intros [Hw Hadd] Hst Ht Hd.
  destruct (Hadd NOTE Hst) as [_ Hrec].
  destruct (Hrec d Hd) as (n & Hn & Hk & _). simpl in Hn.
  rewrite (process_add_text now t s NOTE Hst (Nat.le_refl _)).
  cbn [the_world]. set (w := the_world s) in *.
  assert (HN : In NOTE later_steps) by (simpl; tauto).
  assert (Hother : forall v k, In k WIZARD_FIELDS -> k <> "Note" ->
             dict_get k (dict_set "Date" (Some (strftime now))
                           (dict_set "Note" v d)) = dict_get k d).
  { intros v k Hin Hne.
    rewrite dict_get_set_other.
    - apply dict_get_set_other, Hne.
    - intros ->. simpl in Hin. intuition discriminate. }
  destruct (step_cases now NOTE (text_message t) w HN)
    as [(e & H & [Hnone | Hc]) | [(p & H & Hc) | [[H Hb] | [(d0 & Hd0 & Hc & H)
       | (d0 & v & Hd0 & Hv & H)]]]].
  - congruence.
  - discriminate Hc.
  - discriminate Hc.
  - exfalso. apply Ht. unfold text_is in Hb. simpl in Hb.
    now apply String.eqb_eq.
  - rewrite Hd in Hd0. inversion Hd0; subst d0.
    destruct (keys_after_set NOTE n None d ltac:(simpl; lia) Hn Hk) as [_ Hlt].
    change (field_of NOTE) with "Note" in *.
    rewrite Hc in Hlt. symmetry in Hlt. apply Nat.ltb_lt in Hlt. simpl in Hlt.
    assert (n = 13) by lia. subst n.
    destruct (finish_summary now w d Hw Hd Hk) as (Hk' & Hdate & w' & Hfin & Hsent).
    exists (dict_set "Date" (Some (strftime now)) d).
    split; [exact Hk'|]. split; [exact Hdate|]. split.
    { intros k Hin Hne. apply dict_get_set_other.
      intros ->. simpl in Hin. intuition discriminate. }
    split; [|apply format_summary_lines].
    unfold run. rewrite H. change (onward now NOTE) with (finish now).
    rewrite Hfin. exact Hsent.
  - rewrite Hd in Hd0. inversion Hd0; subst d0.
    destruct (keys_after_set NOTE n v d ltac:(simpl; lia) Hn Hk) as [Hk1 _].
    change (field_of NOTE) with "Note" in *.
    replace (Nat.max n (S (position NOTE))) with 13 in Hk1 by (simpl; lia).
    set (w1 := with_research (dict_set "Note" v d) w) in *.
    destruct (finish_summary now w1 (dict_set "Note" v d) Hw eq_refl Hk1)
      as (Hk' & Hdate & w' & Hfin & Hsent).
    exists (dict_set "Date" (Some (strftime now)) (dict_set "Note" v d)).
    split; [exact Hk'|]. split; [exact Hdate|]. split; [apply Hother|].
    split; [|apply format_summary_lines].
    unfold run. rewrite H. change (onward now NOTE) with (finish now).
    rewrite Hfin. exact Hsent.
Qed.

(** C7 as stated fails: after an add flow with everything skipped, the
    summary that is sent lists Location third and Pedaling Rate eleventh,
    while the header of the store has Pedaling Rate third and Location
    eleventh; the summary is not the one in the order of the header. *)
Lemma summary_not_in_column_order :
  let s' := process (all_skipped (fun _ => t0)) (boot None) in
  let d := skipped_record "2026-11-03 09:05:07" in
  nth 13 (sent (the_world s')) error_reply
  = SendText (format_summary d) ReplyKeyboardRemove
  /\ nth 2 (dict_keys d) "" = "Location"
  /\ nth 2 CSV_COLUMNS "" = "Pedaling Rate"
  /\ format_summary d <> summary_in_column_order d.
Proof.
  cbv zeta. split; [vm_compute; reflexivity|].
  split; [reflexivity|]. split; [reflexivity|].
  vm_compute. discriminate.
Qed.

Lemma note_session_reached :
  process (removelast (all_skipped (fun _ => t0)))
          (boot (Some (CSV_COLUMNS :: sample_rows)))
  = note_session.
Proof. vm_compute. reflexivity. Qed.

Lemma note_session_good : session_good any_cell note_session.
Proof.
  rewrite <- note_session_reached.
  apply (process_good any_cell); try (intros; exact I).
  apply boot_good. right. exists sample_rows. split; [reflexivity|].
  good_rows ltac:(exact I).
Qed.

Lemma summary_in_step_order_witness :
  session_good any_cell note_session /\
  add_conversation note_session = Some NOTE /\
  "checked twice" <> "Back" /\
  ud_research_data (user_data (the_world note_session))
  = Some (firstn 12 (skipped_record "")) /\
  exists d',
    dict_keys d' = (WIZARD_FIELDS ++ ["Date"])%list /\
    sent (the_world (process_update t0 (Text "checked twice") note_session))
    = (sent (the_world note_session)
       ++ [SendText (format_summary d') ReplyKeyboardRemove;
           SendText "Saved" NoMarkup])%list.
Proof.
  assert (Hne : "checked twice" <> "Back") by discriminate.
  split; [exact note_session_good|]. split; [reflexivity|].
  split; [exact Hne|]. split; [reflexivity|].
  destruct (summary_in_step_order t0 "checked twice" note_session
              (firstn 12 (skipped_record "")) note_session_good eq_refl Hne
              eq_refl) as (d' & Hk & _ & _ & Hsent & _).
  exists d'. split; [exact Hk|exact Hsent].
Defined.

(** * Further properties of the code *)

(** ** The store on files the bot did not write *)

(** Whatever [write_csv] is given, and whether it returns or raises, it
    leaves a file with the header of the schema in which every row has
    exactly as many cells as the header; the session and the chat are not
    touched. *)
Theorem write_csv_keeps_schema (data : list row_dict) (w : world) :
  store_ok (csv_file (fst (write_csv data w)))
  /\ user_data (fst (write_csv data w)) = user_data w
  /\ sent (fst (write_csv data w)) = sent w
  /\ ((forall d, In d data -> wrong_fields d = false) ->
      snd (write_csv data w) = Ok tt).
Proof.
  destruct (write_csv data w) as [w' r] eqn:E. simpl fst. simpl snd.
  pose proof (write_csv_store_ok data w w' r E) as Hok.
  unfold write_csv in E. destruct (writerows data) as [rows ok] eqn:Hw.
  inversion E; subst. simpl in *.
  split; [exact Hok|]. split; [reflexivity|]. split; [reflexivity|].
  intros Hall.
  assert (ok = true).
  { clear E Hok. revert rows ok Hw.
    induction data as [|d data IH]; intros rows ok Hw; simpl in Hw.
    - now inversion Hw.
    - unfold dict_to_list in Hw. rewrite (Hall d (or_introl eq_refl)) in Hw.
      destruct (writerows data) as [xs ok'] eqn:E'.
      inversion Hw; subst. eapply IH; [|reflexivity].
      intros x Hx. apply Hall. now right. }
  subst ok. reflexivity.
Qed.

(** A row with no more cells than the header is read with [None] for the
    columns it lacks and written back with empty cells there. *)
Lemma rewrite_row (r : row) :
  r <> [] -> length r <= length CSV_COLUMNS ->
  dict_to_list (DictReader_row CSV_COLUMNS r) = Some (pad r).
Proof.
  intros Hne Hlen. simpl in Hlen.
  do 15 (destruct r as [|? r]; [try contradiction; reflexivity|]).
  simpl in Hlen. lia.
Qed.

Lemma writerows_short (rows : list row) :
  Forall (fun r => length r <= length CSV_COLUMNS) rows ->
  writerows (map (DictReader_row CSV_COLUMNS) (filter not_blank_row rows))
  = (map pad (filter not_blank_row rows), true).
Proof.
  induction 1 as [|r rows Hr _ IH]; simpl; [reflexivity|].
  unfold not_blank_row at 1 3. destruct r as [|x r]; simpl is_blank; simpl negb;
    cbv iota; [exact IH|].
  cbn [map writerows].
  rewrite (rewrite_row (x :: r) ltac:(discriminate) Hr), IH. reflexivity.
Qed.

(** Reading a store and writing it back is not the identity outside the
    rows of full width: with the header of the schema and no row longer
    than it, blank rows are dropped and every shorter row comes back
    filled up with empty cells. *)
Theorem rewrite_pads_short_rows (w : world) (rows : list row) :
  csv_file w = Some (CSV_COLUMNS :: rows) ->
  Forall (fun r => length r <= length CSV_COLUMNS) rows ->
  (data <- read_csv ;; write_csv data) w
  = (with_file (Some (CSV_COLUMNS :: map pad (filter not_blank_row rows))) w,
     Ok tt).
Proof.
  intros Hf Hr. unfold bind, read_csv. rewrite Hf. cbn [initialize_csv].
  unfold DictReader. unfold write_csv.
  change (fun r : row => negb (is_blank r)) with not_blank_row.
  rewrite (writerows_short rows Hr). reflexivity.
Qed.

Lemma rewrite_pads_short_rows_witness :
  let w := store_only ragged_rows in
  csv_file w = Some (CSV_COLUMNS :: ragged_rows) /\
  Forall (fun r => length r <= length CSV_COLUMNS) ragged_rows /\
  (data <- read_csv ;; write_csv data) w
  = (with_file
       (Some [ CSV_COLUMNS;
               ["BK-007"; "T-1"; "9"; ""; ""; ""; ""; ""; ""; ""; ""; ""; ""; ""];
               hd [] sample_rows ]) w,
     Ok tt).
Proof.
  cbv zeta.
  assert (Hr : Forall (fun r => length r <= length CSV_COLUMNS) ragged_rows)
    by (repeat constructor; simpl; lia).
  split; [reflexivity|]. split; [exact Hr|].
  exact (rewrite_pads_short_rows (store_only ragged_rows) ragged_rows
           eq_refl Hr).
Defined.

Lemma long_row_refused (r : row) :
  length CSV_COLUMNS < length r ->
  dict_to_list (DictReader_row CSV_COLUMNS r) = None.
Proof.
  intros H. unfold dict_to_list, DictReader_row.
  apply Nat.ltb_lt in H. rewrite H. reflexivity.
Qed.

(** One row longer than the header costs the store its tail.  Reading
    succeeds, but writing the records back raises [ValueError] at that
    row, after the file has been opened for writing: the file is left with
    the header and the rows that came before the long one, and the rows
    after it are gone as well. *)
Theorem long_row_truncates_store (w : world) (pre post : list row) (r : row) :
  csv_file w = Some (CSV_COLUMNS :: (pre ++ r :: post)%list) ->
  Forall width_ok pre ->
  length CSV_COLUMNS < length r ->
  (data <- read_csv ;; write_csv data) w
  = (with_file (Some (CSV_COLUMNS :: pre)) w, Raise ValueError).
Proof.
  intros Hf Hpre Hlong. unfold bind, read_csv. rewrite Hf.
  cbn [initialize_csv]. unfold DictReader, write_csv.
  rewrite filter_app, (not_blank pre Hpre). simpl filter.
  assert (Hnb : is_blank r = false) by (destruct r; [simpl in Hlong; lia|reflexivity]).
  rewrite Hnb. simpl negb. cbv iota. rewrite map_app. simpl map.
  assert (Hw : forall tl,
             writerows (map (DictReader_row CSV_COLUMNS) pre
                        ++ DictReader_row CSV_COLUMNS r :: tl)
             = (pre, false)).
  { intros tl. clear Hf. induction Hpre as [|x pre Hx _ IH]; simpl.
    - now rewrite (long_row_refused r Hlong).
    - now rewrite (dict_to_list_decode x Hx), IH. }
  rewrite Hw. reflexivity.
Qed.

Lemma long_row_truncates_store_witness :
  let w := store_only long_rows in
  csv_file w
  = Some (CSV_COLUMNS
            :: ([hd [] sample_rows]
                ++ (skipped_row "2026-11-03 09:05:07" ++ ["stray"])
                :: [skipped_row "2026-11-03 09:05:08"])%list) /\
  Forall width_ok [hd [] sample_rows] /\
  length CSV_COLUMNS
  < length (skipped_row "2026-11-03 09:05:07" ++ ["stray"])%list /\
  (data <- read_csv ;; write_csv data) w
  = (with_file (Some [CSV_COLUMNS; hd [] sample_rows]) w, Raise ValueError).
Proof.
  cbv zeta.
  assert (Hp : Forall width_ok [hd [] sample_rows]) by (repeat constructor).
  assert (Hl : length CSV_COLUMNS
               < length (skipped_row "2026-11-03 09:05:07" ++ ["stray"])%list)
    by (simpl; lia).
  split; [reflexivity|]. split; [exact Hp|]. split; [exact Hl|].
  exact (long_row_truncates_store (store_only long_rows) [hd [] sample_rows]
           [skipped_row "2026-11-03 09:05:08"]
           (skipped_row "2026-11-03 09:05:07" ++ ["stray"])%list
           eq_refl Hp Hl).
Defined.

(** ** The [see] command *)

Lemma DictReader_length (h : row) (rows : list row) :
  length (DictReader (h :: rows)) = length (filter not_blank_row rows).
Proof. unfold DictReader. now rewrite length_map. Qed.

(** [see_command] counts the rows after the header that are not blank.
    With none it answers [No records]; otherwise it sends the file as it
    is, captioned with that number.  The file is not changed, except that
    a missing file is created with the header; an existing empty file is
    left empty. *)
Theorem see_command_counts_rows (m : Message) (w : world) :
  (csv_file w = None ->
   see_command m w
   = (with_sent (SendText "No records" NoMarkup)
        (with_file (Some [CSV_COLUMNS]) w), Ok ReturnNone))
  /\ (csv_file w = Some [] ->
      see_command m w
      = (with_sent (SendText "No records" NoMarkup) w, Ok ReturnNone))
  /\ (forall h rows,
        csv_file w = Some (h :: rows) ->
        see_command m w
        = (with_sent
             (match filter not_blank_row rows with
              | [] => SendText "No records" NoMarkup
              | kept => SendDocument (h :: rows) CSV_FILE
                          (str_of_nat (length kept) ++ " records")
              end) w,
           Ok ReturnNone)).
Proof.
  split; [|split].
  - intros Hf. unfold see_command, bind, read_csv. rewrite Hf. reflexivity.
  - intros Hf. unfold see_command, bind, read_csv. rewrite Hf. simpl.
    unfold with_sent. rewrite <- Hf at 1. reflexivity.
  - intros h rows Hf. unfold see_command, bind, read_csv. rewrite Hf.
    cbn [initialize_csv]. unfold DictReader.
    change (fun r : row => negb (is_blank r)) with not_blank_row.
    destruct (filter not_blank_row rows) as [|x kept] eqn:E.
    + simpl. unfold with_sent. rewrite <- Hf at 1. reflexivity.
    + cbn [map]. unfold send, mret. cbn [csv_file user_data sent].
      rewrite <- (length_map (DictReader_row h) (x :: kept)).
      unfold with_sent. rewrite <- Hf at 1. reflexivity.
Qed.

(** ** The choice of the field in the update flow *)

Lemma updatable_iff (k : string) : updatable k = true <-> In k UPDATABLE.
Proof.
  split.
  - intros H. updatable_cases H; simpl; tauto.
  - intros H. simpl in H.
    repeat (destruct H as [<- | H]); try contradiction; reflexivity.
Qed.

(** [update_field] takes exactly the names on the keyboard that
    [update_start] shows: the twelve columns other than Serial ID and
    Date.  For such a name it remembers the field, asks for the value with
    the keyboard the add flow shows at the step of that field, and moves
    to the state that takes the value; any other text except [Cancel]
    gets [Invalid field] and changes nothing. *)
Theorem update_field_takes_offered (t : string) (w : world) :
  t <> "Cancel" ->
  field_keyboard
  = ReplyKeyboardMarkup
      (map (fun k => [Btn k]) UPDATABLE ++ [[Btn "Cancel"]])
  /\ (In t UPDATABLE ->
      exists body st,
        In st later_steps /\ field_of st = t /\
        update_field (text_message t) w
        = (with_sent (SendText body (markup_of (prompt st)))
             (with_update_field t w),
           Ok (Goto UPDATE_VALUE)))
  /\ (~ In t UPDATABLE ->
      update_field (text_message t) w
      = (with_sent (SendText "Invalid field" NoMarkup) w,
         Ok (Goto UPDATE_FIELD))).
Proof.
  intros Hc. split; [reflexivity|]. split.
  - intros Hin. simpl in Hin.
    repeat (destruct Hin as [<- | Hin]); try contradiction.
    + exists "New Inventory Tag:", INVENTORY_TAG. repeat split. simpl; tauto.
    + exists "New Pedaling Rate (0-10):", PEDALING_RATE. repeat split. simpl; tauto.
    + exists "New Left Brake Rate (0-10):", LEFT_BRAKE_RATE. repeat split. simpl; tauto.
    + exists "New Right Brake Rate (0-10):", RIGHT_BRAKE_RATE. repeat split. simpl; tauto.
    + exists "New Tires Rate (0-10):", TIRES_RATE. repeat split. simpl; tauto.
    + exists "New Appearence Rate (0-10):", APPEARENCE_RATE. repeat split. simpl; tauto.
    + exists "New Battery Level (0-4):", BATTERY_LEVEL. repeat split. simpl; tauto.
    + exists "New Is Straight Parking Angel:", PARKING_ANGEL. repeat split. simpl; tauto.
    + exists "New Seat Hight (1-10):", SEAT_HEIGHT. repeat split. simpl; tauto.
    + exists "New Location:", LOCATION. repeat split. simpl; tauto.
    + exists "New Speed Rate (0-10):", SPEED_RATE. repeat split. simpl; tauto.
    + exists "New Note:", NOTE. repeat split. simpl; tauto.
  - intros Hn. unfold update_field, text_is. cbn [text text_message].
    destruct (String.eqb_spec t "Cancel"); [contradiction|].
    assert (Hu : updatable t = false).
    { destruct (updatable t) eqn:E; [|reflexivity].
      exfalso. apply Hn, updatable_iff, E. }
    assert (Hb : negb (mem t CSV_COLUMNS) || mem t ["Serial ID"; "Date"] = true).
    { unfold updatable in Hu.
      destruct (mem t CSV_COLUMNS), (mem t ["Serial ID"; "Date"]);
        simpl in *; congruence. }
    rewrite Hb. reflexivity.
Qed.

Lemma update_field_takes_offered_witness :
  "Tires Rate" <> "Cancel" /\
  exists body st,
    In st later_steps /\ field_of st = "Tires Rate" /\
    update_field (text_message "Tires Rate") sample_world
    = (with_sent (SendText body (markup_of (prompt st)))
         (with_update_field "Tires Rate" sample_world),
       Ok (Goto UPDATE_VALUE)).
Proof.
  assert (Hc : "Tires Rate" <> "Cancel") by discriminate.
  split; [exact Hc|].
  destruct (update_field_takes_offered "Tires Rate" sample_world Hc)
    as (_ & Hin & _).
  apply Hin. simpl. tauto.
Defined.

(** ** The write of the update flow *)

Lemma not_in_range_accepts (lo hi : Z) (t : string) (w : world) :
  accepts_int lo hi t = true ->
  not_in_range (Some t) lo hi w = (w, Ok false).
Proof.
  intros H. apply accepts_int_iff in H. destruct H as [Hl Hr].
  unfold not_in_range, py_int, str_method, bind, mret.
  rewrite (literal_isdigit t Hl), (int_of_literal t Hl). simpl.
  destruct (Z.ltb_spec (literal_value t) lo); [lia|].
  rewrite Z.gtb_ltb.
  destruct (Z.ltb_spec hi (literal_value t)); [lia|reflexivity].
Qed.

Lemma rate_commits (k t : string) (w : world) :
  ud_update_field (user_data w) = Some k ->
  mem k rate_fields = true -> accepts_int 0 10 t = true ->
  update_value (text_message t) w = commit_value (Some t) w.
Proof.
  intros Hk Hrate Hacc.
  destruct (token_int 0 10 t Hacc) as [Hb Hs].
  unfold update_value, text_is. cbn [text text_message].
  destruct (String.eqb_spec t "Skip"); [contradiction|].
  destruct (String.eqb_spec t "Back"); [contradiction|].
  rewrite bind_get, Hk. simpl lookup. rewrite bind_mret.
  column_cases Hrate;
    cbn [String.eqb Ascii.eqb Bool.eqb mem existsb orb rate_fields];
    rewrite (bind_ok _ _ _ _ _ (not_in_range_accepts 0 10 t w Hacc));
    reflexivity.
Qed.

(** A rate typed in the update flow changes one cell.  With a rate field
    chosen and a text that the range check accepts, [update_value] writes
    the text into that column of the first row with the identifier: every
    other cell of that row, and every other row, is written back as it
    was; then it answers [Updated] and clears the session. *)
Theorem update_changes_one_cell
    (w : world) (k serial_id t : string) (pre post : list row) (r : row) :
  csv_file w = Some (CSV_COLUMNS :: (pre ++ r :: post)%list) ->
  Forall width_ok (pre ++ r :: post)%list ->
  ud_update_field (user_data w) = Some k ->
  ud_update_serial_id (user_data w) = Some serial_id ->
  mem k rate_fields = true ->
  accepts_int 0 10 t = true ->
  existsb (has_serial serial_id) pre = false ->
  has_serial serial_id r = true ->
  update_value (text_message t) w
  = (cleared (with_sent (SendText "Updated" ReplyKeyboardRemove)
       (with_file
          (Some (CSV_COLUMNS :: (pre ++ put_cell k t r :: post)%list)) w)),
     Ok END)
  /\ get_cell k (put_cell k t r) = t
  /\ (forall k0, In k0 CSV_COLUMNS -> k0 <> k ->
                 get_cell k0 (put_cell k t r) = get_cell k0 r)
  /\ width_ok (put_cell k t r).
Proof.
  intros Hf Hr Hk Hsid Hrate Hacc Hpre Hmatch.
  assert (Hcol : mem k CSV_COLUMNS = true) by (column_cases Hrate; reflexivity).
  assert (Hw : width_ok r).
  { rewrite Forall_forall in Hr. apply Hr, in_elt. }
  split; [|split; [|split]].
  - rewrite (rate_commits k t w Hk Hrate Hacc).
    rewrite (commit_value_ok (Some t) w k serial_id _ Hk Hsid Hcol Hf Hr).
    simpl cell_of_value. now rewrite put_first_first.
  - apply get_cell_put_cell; assumption.
  - intros k0 Hin Hne. apply get_cell_put_other; try assumption.
    unfold mem. apply existsb_exists. exists k0.
    split; [exact Hin|apply String.eqb_refl].
  - apply put_cell_width, Hw.
Qed.

Lemma update_changes_one_cell_witness :
  csv_file demo_world
  = Some (CSV_COLUMNS :: ([] ++ hd [] sample_rows :: tl sample_rows)%list) /\
  Forall width_ok ([] ++ hd [] sample_rows :: tl sample_rows)%list /\
  ud_update_field (user_data demo_world) = Some "Tires Rate" /\
  ud_update_serial_id (user_data demo_world) = Some "BK-001" /\
  mem "Tires Rate" rate_fields = true /\
  accepts_int 0 10 "7" = true /\
  existsb (has_serial "BK-001") [] = false /\
  has_serial "BK-001" (hd [] sample_rows) = true /\
  update_value (text_message "7") demo_world
  = (cleared (with_sent (SendText "Updated" ReplyKeyboardRemove)
       (with_file
          (Some (CSV_COLUMNS
                   :: put_cell "Tires Rate" "7" (hd [] sample_rows)
                   :: tl sample_rows)) demo_world)),
     Ok END).
Proof.
  repeat (split; [first [reflexivity | exact sample_rows_width]|]).
  exact (proj1 (update_changes_one_cell demo_world "Tires Rate" "BK-001" "7"
                  [] (tl sample_rows) (hd [] sample_rows)
                  eq_refl sample_rows_width eq_refl eq_refl eq_refl eq_refl
                  eq_refl eq_refl)).
Defined.

(** The update flow does not look again for the record.  If no row has
    the identifier any more when the value arrives (the record was deleted
    after [update_start] found it), [update_value] writes the store back
    as it is, and answers [Updated] all the same. *)
Theorem update_of_deleted_record
    (m : Message) (w w' : world) (k serial_id : string) (rows : list row) :
  csv_file w = Some (CSV_COLUMNS :: rows) -> Forall width_ok rows ->
  ud_update_field (user_data w) = Some k -> updatable k = true ->
  ud_update_serial_id (user_data w) = Some serial_id ->
  existsb (has_serial serial_id) rows = false ->
  update_value (text_message "Skip") w
  = (cleared (with_sent (SendText "Updated" ReplyKeyboardRemove) w), Ok END)
  /\ (update_value m w = (w', Ok END) ->
      w' = cleared (with_sent (SendText "Updated" ReplyKeyboardRemove) w)).
Proof.
  intros Hf Hr Hk Hu Hsid Hnone.
  pose proof (updatable_column k Hu) as Hcol.
  assert (Hc : forall v,
             commit_value v w
             = (cleared (with_sent (SendText "Updated" ReplyKeyboardRemove) w),
                Ok END)).
  { intros v. rewrite (commit_value_ok v w k serial_id rows Hk Hsid Hcol Hf Hr).
    rewrite (put_first_none serial_id k _ rows Hnone).
    unfold with_file. rewrite <- Hf, world_eta. reflexivity. }
  split.
  - change (update_value (text_message "Skip") w)
      with (commit_value (Some "N/A") w). apply Hc.
  - intros Hrun.
    destruct (update_value_cases m w k Hk Hu)
      as [(v & H & _) | [(x & H) | [(x & H) | (e & H)]]];
      rewrite H in Hrun; try discriminate Hrun.
    rewrite Hc in Hrun. now inversion Hrun.
Qed.

Lemma orphan_reached :
  the_world (process orphan_events (boot (Some (CSV_COLUMNS :: sample_rows))))
  = orphan_world.
Proof. vm_compute. reflexivity. Qed.

Lemma update_of_deleted_record_witness :
  let rows := [nth 0 sample_rows []; nth 2 sample_rows []] in
  csv_file orphan_world = Some (CSV_COLUMNS :: rows) /\
  Forall width_ok rows /\
  ud_update_field (user_data orphan_world) = Some "Tires Rate" /\
  updatable "Tires Rate" = true /\
  ud_update_serial_id (user_data orphan_world) = Some "BK-002" /\
  existsb (has_serial "BK-002") rows = false /\
  update_value (text_message "Skip") orphan_world
  = (cleared (with_sent (SendText "Updated" ReplyKeyboardRemove) orphan_world),
     Ok END).
Proof.
  cbv zeta.
  assert (Hw : Forall width_ok [nth 0 sample_rows []; nth 2 sample_rows []])
    by (repeat constructor).
  repeat (split; [first [reflexivity | exact Hw]|]).
  exact (proj1 (update_of_deleted_record (text_message "Skip") orphan_world
                  orphan_world "Tires Rate" "BK-002" _
                  eq_refl Hw eq_refl eq_refl eq_refl eq_refl)).
Defined.

(** ** Deleting twice *)

Lemma without_twice (serial_id : string) (rows : list row) :
  existsb (has_serial serial_id)
          (filter (fun r => negb (has_serial serial_id r)) rows) = false.
Proof.
  induction rows as [|x rows IH]; simpl; [reflexivity|].
  destruct (has_serial serial_id x) eqn:E; simpl; [exact IH|].
  now rewrite E, IH.
Qed.

(** After a delete, the same delete finds nothing: the first one leaves
    no row with the identifier, so the second answers [Not found] and
    leaves the store as the first one left it. *)
Theorem delete_twice (args : list string) (m : Message) (w : world)
    (rows : list row) :
  args <> [] ->
  csv_file w = Some (CSV_COLUMNS :: rows) -> Forall width_ok rows ->
  let serial_id := Py.join " " args in
  let w1 := fst (delete_command args m w) in
  delete_command args m w1
  = (with_sent (SendText ("Not found '" ++ serial_id ++ "'") NoMarkup) w1,
     Ok ReturnNone)
  /\ csv_file w1
     = Some (CSV_COLUMNS
               :: filter (fun r => negb (has_serial serial_id r)) rows).
Proof.
  intros Ha Hf Hr serial_id w1. unfold w1.
  rewrite (delete_command_ok args m w rows Ha Hf Hr). cbn [fst].
  fold serial_id.
  set (kept := filter (fun r => negb (has_serial serial_id r)) rows).
  set (w2 := with_sent _ (with_file (Some (CSV_COLUMNS :: kept)) w)).
  assert (Hf2 : csv_file w2 = Some (CSV_COLUMNS :: kept)) by reflexivity.
  split; [|exact Hf2].
  rewrite (delete_command_ok args m w2 kept Ha Hf2
             (without_width serial_id rows Hr)).
  fold serial_id. unfold kept at 1 2.
  rewrite (without_twice serial_id rows).
  rewrite (without_none serial_id _ (without_twice serial_id rows)).
  fold kept. unfold with_file. rewrite <- Hf2, world_eta. reflexivity.
Qed.

Lemma delete_twice_witness :
  ["BK-001"] <> [] /\
  csv_file sample_world = Some (CSV_COLUMNS :: sample_rows) /\
  Forall width_ok sample_rows /\
  csv_file (fst (delete_command ["BK-001"] (text_message "/delete BK-001")
                   sample_world))
  = Some (CSV_COLUMNS
            :: filter (fun r => negb (has_serial "BK-001" r)) sample_rows).
Proof.
  assert (Ha : ["BK-001"] <> []) by discriminate.
  split; [exact Ha|]. split; [reflexivity|]. split; [exact sample_rows_width|].
  exact (proj2 (delete_twice ["BK-001"] (text_message "/delete BK-001")
                  sample_world sample_rows Ha eq_refl sample_rows_width)).
Defined.

(** ** The rate steps of the add flow *)

(** At each step that takes an integer, for a text other than [Skip]
    and [Back]: a literal (a string of the digits 0 to 9) whose value lies
    in the range of the step is stored, and the flow moves on; a literal
    whose value lies outside the range, and a text that is no string of
    digits for [isdigit], are answered with the prompt of the range, and
    the record and the step stay as they are.  Nothing is said of the
    strings of digits for [isdigit] that are no literals. *)
Theorem int_step_on_literals (now : datetime) (s : state) (t : string)
    (w : world) (d : dict) :
  In s int_steps -> t <> "Skip" -> t <> "Back" ->
  ud_research_data (user_data w) = Some d ->
  let lo := fst (range_of s) in
  let hi := snd (range_of s) in
  let again := (with_sent (SendText (range_prompt s) NoMarkup) w,
                Ok (Goto s)) in
  (is_literal t = true -> (lo <= literal_value t <= hi)%Z ->
   callback now s (text_message t) w
   = (with_sent (prompt (following s))
        (with_research (dict_set (field_of s) (Some t) d) w),
      Ok (Goto (following s))))
  /\ (is_literal t = true -> ~ (lo <= literal_value t <= hi)%Z ->
      callback now s (text_message t) w = again)
  /\ (Py.isdigit t = false -> callback now s (text_message t) w = again).
Proof.
  intros Hs Hskip Hback Hd. cbv zeta.
  pose proof (int_step_verdict now s t w d Hs Hskip Hback Hd) as H.
  cbv zeta in H. rewrite H.
  split; [|split].
  - intros Hl [Hlo Hhi]. rewrite Hl.
    apply Z.leb_le in Hlo. apply Z.leb_le in Hhi. now rewrite Hlo, Hhi.
  - intros Hl Hout. rewrite Hl. cbn [andb negb].
    rewrite andb_false_r.
    destruct (Z.leb_spec (fst (range_of s)) (literal_value t));
      destruct (Z.leb_spec (literal_value t) (snd (range_of s)));
      try reflexivity.
    exfalso. apply Hout. split; assumption.
  - intros Hd'.
    assert (Hl : is_literal t = false).
    { destruct (is_literal t) eqn:E; [|reflexivity].
      apply literal_isdigit in E. congruence. }
    rewrite Hl, Hd'. reflexivity.
Qed.

Lemma int_step_on_literals_witness :
  callback t0 TIRES_RATE (text_message "7") note_world
  = (with_sent (prompt SEAT_HEIGHT)
       (with_research
          (dict_set "Tires Rate" (Some "7") (firstn 12 (skipped_record "")))
          note_world),
     Ok (Goto SEAT_HEIGHT)).
Proof.
  assert (Hin : In TIRES_RATE int_steps) by (simpl; tauto).
  assert (Hs : "7" <> "Skip") by discriminate.
  assert (Hb : "7" <> "Back") by discriminate.
  assert (Hr : (0 <= literal_value "7" <= 10)%Z)
    by (vm_compute; split; discriminate).
  exact (proj1 (int_step_on_literals t0 TIRES_RATE "7" note_world
                  (firstn 12 (skipped_record "")) Hin Hs Hb eq_refl)
               eq_refl Hr).
Defined.

(** ** A shared location in the update flow *)

Lemma location_as_value
    (l : Location) (w : world) (k serial_id : string) (rows : list row) :
  csv_file w = Some (CSV_COLUMNS :: rows) -> Forall width_ok rows ->
  ud_update_field (user_data w) = Some k -> updatable k = true ->
  ud_update_serial_id (user_data w) = Some serial_id ->
  update_value (location_message l) w
  = if String.eqb k "Location"
    then (updated serial_id k (location_text l) rows w, Ok END)
    else if mem k ["Note"; "Inventory Tag"]
         then (updated serial_id k "" rows w, Ok END)
         else (w, Raise AttributeError).
Proof.
  intros Hf Hr Hk Hu Hsid.
  pose proof (updatable_column k Hu) as Hcol.
  pose proof (fun v => commit_value_ok v w k serial_id rows Hk Hsid Hcol Hf Hr)
    as Hc.
  unfold update_value, text_is. cbn [text location location_message].
  rewrite bind_get, Hk. simpl lookup. rewrite bind_mret.
  unfold updated.
  updatable_cases Hu;
    cbn [String.eqb Ascii.eqb Bool.eqb mem existsb orb rate_fields];
    first [ exact (Hc None)
          | exact (Hc (Some (location_text l)))
          | reflexivity ].
Qed.

(** The state that takes the value of an update takes a shared location
    whatever the field is.  Such a message has no text: for the Location it
    writes the coordinates; for the Note and the Inventory Tag it writes
    the empty cell; for every other field the handler raises, on the method
    call on the missing text, before anything is written. *)
Theorem update_with_shared_location
    (l : Location) (w : world) (k serial_id : string) (rows : list row) :
  csv_file w = Some (CSV_COLUMNS :: rows) -> Forall width_ok rows ->
  ud_update_field (user_data w) = Some k -> updatable k = true ->
  ud_update_serial_id (user_data w) = Some serial_id ->
  update_value (location_message l) w
  = if String.eqb k "Location"
    then (updated serial_id k (location_text l) rows w, Ok END)
    else if mem k ["Note"; "Inventory Tag"]
         then (updated serial_id k "" rows w, Ok END)
         else (w, Raise AttributeError).
Proof. exact (location_as_value l w k serial_id rows). Qed.

Lemma update_with_shared_location_witness :
  update_value (location_message (mkLocation "41.38" "2.17"))
               (the_world crossed_session)
  = (updated "BK-002" "Note" "" sample_rows (the_world crossed_session), Ok END).
Proof.
  exact (update_with_shared_location (mkLocation "41.38" "2.17")
           (the_world crossed_session) "Note" "BK-002" sample_rows
           eq_refl sample_rows_width eq_refl eq_refl eq_refl).
Defined.

(** ** The cancel command *)

Lemma cancel_ok (m : Message) (w : world) :
  cancel m w
  = (with_sent (SendText "Cancelled" ReplyKeyboardRemove) (cleared w), Ok END).
Proof. reflexivity. Qed.

(** [/cancel] is registered only as the fallback of the two conversations.
    With the add flow running it ends that flow, and clears the whole
    session, the keys of the update flow included, while the update flow
    stays in its state; with only the update flow running it ends that
    one; with no flow running the command is taken by no handler: nothing
    is answered. *)
Theorem cancel_dispatch (now : datetime) (line : string) (s : system) :
  command_of line = "cancel" ->
  let w' := with_sent (SendText "Cancelled" ReplyKeyboardRemove)
                      (cleared (the_world s)) in
  process_update now (Command line) s
  = match add_conversation s, update_conversation s with
    | Some _, u =>
        {| add_conversation := None; update_conversation := u;
           the_world := w' |}
    | None, Some _ =>
        {| add_conversation := None; update_conversation := None;
           the_world := w' |}
    | None, None => s
    end.
Proof.
  intros Hc. cbv zeta. destruct s as [a u w].
  unfold process_update, CommandHandler. rewrite Hc.
  cbn [String.eqb Ascii.eqb Bool.eqb add_conversation update_conversation
       the_world].
  destruct a as [st|].
  - destruct st;
      cbn [check_update add_handler states fallbacks entry_points first_match
           on_text on_location CommandHandler];
      rewrite Hc; cbn [String.eqb Ascii.eqb Bool.eqb];
      rewrite (run_ok _ _ _ _ (cancel_ok (text_message line) w)); reflexivity.
  - cbn [check_update add_handler states fallbacks entry_points first_match
         CommandHandler].
    rewrite Hc. cbn [String.eqb Ascii.eqb Bool.eqb].
    destruct u as [st|].
    + destruct st;
        cbn [check_update update_handler states fallbacks entry_points
             first_match on_text on_location CommandHandler];
        rewrite Hc; cbn [String.eqb Ascii.eqb Bool.eqb];
        rewrite (run_ok _ _ _ _ (cancel_ok (text_message line) w)); reflexivity.
    + cbn [check_update update_handler states fallbacks entry_points
           first_match CommandHandler].
      rewrite Hc. reflexivity.
Qed.

Lemma cancel_dispatch_witness :
  process_update t0 (Command "/cancel") demo_session = stranded_session.
Proof.
  exact (cancel_dispatch t0 "/cancel" demo_session eq_refl).
Defined.

(** ** An update flow whose session is gone *)

Lemma update_value_without_keys (m : Message) (w : world) :
  ud_update_field (user_data w) = None ->
  ud_update_serial_id (user_data w) = None ->
  exists key, update_value m w = (w, Raise (KeyError key)).
Proof.
  intros Hk Hs. unfold update_value.
  destruct (text_is m "Skip").
  { exists "update_field". rewrite bind_get, Hk. reflexivity. }
  destruct (text_is m "Back").
  { exists "update_serial_id". rewrite bind_get, Hs. reflexivity. }
  exists "update_field". rewrite bind_get, Hk. reflexivity.
Qed.

(** The update flow does not survive the loss of its keys.  When it waits
    for a value and the session holds neither the field nor the
    identifier (the add flow clears the whole session when it ends), every
    text and every shared location makes [update_value] raise a
    [KeyError]: the user gets the error message, the store is not touched,
    and the flow stays where it is. *)
Theorem stranded_update (now : datetime) (ev : event) (s : system) :
  add_conversation s = None ->
  update_conversation s = Some UPDATE_VALUE ->
  ud_update_field (user_data (the_world s)) = None ->
  ud_update_serial_id (user_data (the_world s)) = None ->
  (forall line, ev <> Command line) ->
  process_update now ev s
  = {| add_conversation := None;
       update_conversation := Some UPDATE_VALUE;
       the_world := with_sent error_reply (the_world s) |}.
Proof.
  intros Ha Hu Hk Hs Hev. destruct s as [a u w]. simpl in *. subst a u.
  unfold process_update.
  cbn [add_conversation update_conversation the_world].
  destruct ev as [line|t|l]; [now contradiction (Hev line)| |];
    cbn [CommandHandler check_update add_handler update_handler states
         fallbacks entry_points first_match on_text on_location];
    match goal with
    | |- context [run (update_value ?m) w] =>
        destruct (update_value_without_keys m w Hk Hs) as (key & H);
        rewrite (run_raise _ _ _ _ H)
    end; reflexivity.
Qed.

Lemma stranded_session_reached :
  process (demo_events ++ at_t0 [Command "/cancel"])
          (boot (Some (CSV_COLUMNS :: sample_rows)))
  = stranded_session.
Proof. rewrite process_app, demo_session_reached. vm_compute. reflexivity. Qed.

Lemma stranded_update_witness :
  process_update t0 (Text "7") stranded_session
  = {| add_conversation := None;
       update_conversation := Some UPDATE_VALUE;
       the_world := with_sent error_reply (the_world stranded_session) |}.
Proof.
  assert (Hev : forall line, Text "7" <> Command line) by discriminate.
  exact (stranded_update t0 (Text "7") stranded_session
           eq_refl eq_refl eq_refl eq_refl Hev).
Defined.

(** ** A shared location while both flows are running *)

Lemma skip_without_record (now : datetime) (st : state) (w : world) :
  In st later_steps -> ud_research_data (user_data w) = None ->
  callback now st (text_message "Skip") w = (w, Raise (KeyError "research_data")).
Proof.
  intros Hst Hd. rewrite (handler_is_step now st _ w Hst).
  unfold wizard_step, text_is. cbn [text text_message String.eqb Ascii.eqb Bool.eqb].
  apply bind_raise, skip_field_missing, Hd.
Qed.

(** The two flows share one session.  At a step of the add flow that
    takes texts only, a shared location goes to the update flow when that
    one waits for a value.  If the field is the Location, the Note or the
    Inventory Tag, the update is written and the session is cleared: the
    add flow is still at its step, but its record is gone, and [Skip] there
    raises instead of moving on. *)
Theorem shared_location_wipes_add_record
    (now now' : datetime) (l : Location) (s : system) (st : state)
    (k serial_id : string) (rows : list row) :
  add_conversation s = Some st -> In st later_steps -> st <> LOCATION ->
  update_conversation s = Some UPDATE_VALUE ->
  csv_file (the_world s) = Some (CSV_COLUMNS :: rows) -> Forall width_ok rows ->
  ud_update_field (user_data (the_world s)) = Some k ->
  mem k ["Location"; "Note"; "Inventory Tag"] = true ->
  ud_update_serial_id (user_data (the_world s)) = Some serial_id ->
  let s' := process_update now (Shared l) s in
  s' = {| add_conversation := Some st;
          update_conversation := None;
          the_world :=
            updated serial_id k
              (if String.eqb k "Location" then location_text l else "")
              rows (the_world s) |}
  /\ process_update now' (Text "Skip") s'
     = {| add_conversation := Some st;
          update_conversation := None;
          the_world := with_sent error_reply (the_world s') |}.
Proof.
  intros Ha Hst Hne Hu Hf Hr Hk Hmem Hsid s'.
  assert (Hup : updatable k = true) by (column_cases Hmem; reflexivity).
  pose proof (location_as_value l (the_world s) k serial_id rows
                Hf Hr Hk Hup Hsid) as Hrun.
  assert (Hs' : s' = {| add_conversation := Some st;
                        update_conversation := None;
                        the_world :=
                          updated serial_id k
                            (if String.eqb k "Location" then location_text l
                             else "")
                            rows (the_world s) |}).
  { unfold s'. destruct s as [a u w].
    cbn [add_conversation update_conversation the_world] in *. subst a u.
    unfold process_update.
    cbn [add_conversation update_conversation the_world].
    assert (Hrun' : run (update_value (location_message l)) w
                    = (updated serial_id k
                         (if String.eqb k "Location" then location_text l
                          else "") rows w, Some END)).
    { apply run_ok. rewrite Hrun. column_cases Hmem; reflexivity. }
    simpl in Hst.
    repeat (destruct Hst as [<- | Hst]); try contradiction;
      try (now contradiction Hne);
      cbn [CommandHandler check_update add_handler update_handler states
           fallbacks entry_points first_match on_text on_location];
      rewrite Hrun'; reflexivity. }
  split; [exact Hs'|].
  rewrite Hs'.
  match goal with
  | |- process_update _ _ ?x = _ =>
      rewrite (process_add_text now' "Skip" x st eq_refl
                 (proj2 (proj1 (later_steps_position st) Hst)))
  end.
  cbn [the_world update_conversation].
  match goal with
  | |- context [run _ ?x] =>
      rewrite (run_raise _ _ _ _ (skip_without_record now' st x Hst eq_refl))
  end.
  reflexivity.
Qed.

Lemma crossed_session_reached :
  process crossed_events (boot (Some (CSV_COLUMNS :: sample_rows)))
  = crossed_session.
Proof. vm_compute. reflexivity. Qed.

Lemma shared_location_wipes_add_record_witness :
  process_update t0 (Shared (mkLocation "41.38" "2.17")) crossed_session
  = {| add_conversation := Some INVENTORY_TAG;
       update_conversation := None;
       the_world :=
         updated "BK-002" "Note" "" sample_rows (the_world crossed_session) |}.
Proof.
  assert (Hin : In INVENTORY_TAG later_steps) by (simpl; tauto).
  assert (Hne : INVENTORY_TAG <> LOCATION) by discriminate.
  exact (proj1 (shared_location_wipes_add_record t0 t0
                  (mkLocation "41.38" "2.17") crossed_session INVENTORY_TAG
                  "Note" "BK-002" sample_rows
                  eq_refl Hin Hne eq_refl eq_refl sample_rows_width
                  eq_refl eq_refl eq_refl)).
Defined.

(** ** The identifier a command can name *)

Lemma rev_string_twice (x a b : string) :
  Py.rev_string a (Py.rev_string b x) = Py.rev_string (x ++ a) b.
Proof.
  revert a b. induction x as [|c x IH]; intros a b; simpl; [reflexivity|].
  rewrite IH. reflexivity.
Qed.

Lemma rev_string_filled (x acc : string) :
  acc <> "" -> Py.rev_string acc x <> "".
Proof.
  revert acc. induction x as [|c x IH]; intros acc H; simpl; [exact H|].
  apply IH. discriminate.
Qed.

Lemma rev_string_chars (p : ascii -> bool) (x acc : string) :
  Py.all_chars p x = true -> Py.all_chars p acc = true ->
  Py.all_chars p (Py.rev_string acc x) = true.
Proof.
  revert acc. induction x as [|c x IH]; intros acc Hx Hacc; simpl; [exact Hacc|].
  simpl in Hx. apply andb_prop in Hx. destruct Hx as [Hc Hx].
  apply IH; [exact Hx|]. simpl. now rewrite Hc, Hacc.
Qed.

Lemma flush_words (cur : string) (out : list string) :
  Py.all_chars (fun c => negb (Py.isspace_char c)) cur = true ->
  Forall word out -> Forall word (Py.flush cur out).
Proof.
  intros Hc Ho. destruct cur as [|c cur]; [exact Ho|].
  unfold Py.flush. constructor; [|exact Ho]. split.
  - simpl. apply rev_string_filled. discriminate.
  - apply rev_string_chars; [exact Hc|reflexivity].
Qed.

Lemma split_go_words (s cur : string) (out : list string) :
  Py.all_chars (fun c => negb (Py.isspace_char c)) cur = true ->
  Forall word out -> Forall word (Py.split_go s cur out).
Proof.
  revert cur out. induction s as [|c s IH]; intros cur out Hc Ho; simpl.
  - apply Forall_rev, flush_words; assumption.
  - destruct (Py.isspace_char c) eqn:E.
    + apply IH; [reflexivity|]. apply flush_words; assumption.
    + apply IH; [|exact Ho]. simpl. now rewrite E, Hc.
Qed.

Lemma split_go_run (x s cur : string) (out : list string) :
  Py.all_chars (fun c => negb (Py.isspace_char c)) x = true ->
  Py.split_go (x ++ s) cur out = Py.split_go s (Py.rev_string cur x) out.
Proof.
  revert cur. induction x as [|c x IH]; intros cur H; simpl; [reflexivity|].
  simpl in H. apply andb_prop in H. destruct H as [Hc Hx].
  apply negb_true_iff in Hc. rewrite Hc. apply IH, Hx.
Qed.

Lemma flush_word (x : string) (out : list string) :
  word x -> Py.flush (Py.rev_string "" x) out = x :: out.
Proof.
  intros [Hne _]. unfold Py.flush.
  destruct (Py.rev_string "" x) eqn:E.
  - destruct x as [|c x]; [contradiction|]. simpl in E.
    exfalso. revert E. apply rev_string_filled. discriminate.
  - rewrite <- E, rev_string_twice, append_empty. reflexivity.
Qed.

Lemma split_go_join (ws out : list string) :
  Forall word ws ->
  Py.split_go (Py.join " " ws) "" out = (rev out ++ ws)%list.
Proof.
  revert out. induction ws as [|x ws IH]; intros out H.
  - simpl. now rewrite app_nil_r.
  - inversion H as [|? ? Hx Hws]; subst.
    destruct ws as [|y ws].
    + cbn [Py.join]. rewrite <- (append_empty x) at 1.
      rewrite (split_go_run x "" "" out (proj2 Hx)). cbn [Py.split_go].
      rewrite (flush_word x out Hx). reflexivity.
    + change (Py.join " " (x :: y :: ws))
        with (x ++ String " " (Py.join " " (y :: ws))).
      rewrite (split_go_run x _ "" out (proj2 Hx)).
      change (Py.split_go (String " " (Py.join " " (y :: ws)))
                          (Py.rev_string "" x) out)
        with (Py.split_go (Py.join " " (y :: ws)) ""
                          (Py.flush (Py.rev_string "" x) out)).
      rewrite (flush_word x out Hx), (IH (x :: out) Hws).
      simpl. now rewrite <- app_assoc.
Qed.

Lemma args_are_words (line : string) : Forall word (context_args line).
Proof.
  unfold context_args, Py.split.
  assert (H : Forall word (Py.split_go line "" []))
    by (apply split_go_words; [reflexivity|constructor]).
  destruct (Py.split_go line "" []); [constructor|].
  inversion H. assumption.
Qed.

Lemma kept_under_other_name (serial_id other : string) (rows : list row) :
  serial_id <> other ->
  filter (has_serial serial_id)
         (filter (fun r => negb (has_serial other r)) rows)
  = filter (has_serial serial_id) rows.
Proof.
  intros Hne. induction rows as [|r rows IH]; simpl; [reflexivity|].
  destruct (has_serial other r) eqn:Ho; simpl.
  - unfold has_serial in *. apply String.eqb_eq in Ho.
    destruct (String.eqb_spec (get_cell "Serial ID" r) serial_id);
      [congruence|exact IH].
  - now rewrite IH.
Qed.

(** The identifier of a command is the words after the command, joined by
    single spaces: splitting it gives those words back.  So an identifier
    that is not of this form (white space at an end, two spaces in a row,
    a tab) is named by no command line: whatever [/delete] line is sent,
    the rows with such an identifier are all still in the store. *)
Theorem untidy_identifier_out_of_reach
    (line serial_id : string) (m : Message) (w : world) (rows : list row) :
  Py.join " " (Py.split serial_id) <> serial_id ->
  csv_file w = Some (CSV_COLUMNS :: rows) -> Forall width_ok rows ->
  Py.split (Py.join " " (context_args line)) = context_args line
  /\ exists rows',
       csv_file (fst (delete_command (context_args line) m w))
       = Some (CSV_COLUMNS :: rows')
       /\ filter (has_serial serial_id) rows'
          = filter (has_serial serial_id) rows.
Proof.
  intros Hun Hf Hr.
  assert (Htidy : Py.split (Py.join " " (context_args line))
                  = context_args line).
  { unfold Py.split at 1. apply (split_go_join _ [] (args_are_words line)). }
  split; [exact Htidy|].
  destruct (context_args line) as [|a args] eqn:Ha.
  - exists rows. split; [exact Hf|reflexivity].
  - assert (Hne : a :: args <> []) by discriminate.
    rewrite (delete_command_ok (a :: args) m w rows Hne Hf Hr).
    eexists. split; [reflexivity|].
    apply kept_under_other_name. intros He. apply Hun.
    rewrite He, Htidy. reflexivity.
Qed.

Lemma untidy_identifier_out_of_reach_witness :
  filter (has_serial "BK  001")
    (match csv_file (fst (delete_command (context_args "/delete BK  001")
                            (text_message "/delete BK  001")
                            (store_only spaced_rows)))
     with Some (_ :: rows') => rows' | _ => [] end)
  = spaced_rows.
Proof.
  assert (Hun : Py.join " " (Py.split "BK  001") <> "BK  001")
    by (vm_compute; discriminate).
  assert (Hw : Forall width_ok spaced_rows) by (repeat constructor).
  destruct (untidy_identifier_out_of_reach "/delete BK  001" "BK  001"
              (text_message "/delete BK  001") (store_only spaced_rows)
              spaced_rows Hun eq_refl Hw) as (_ & rows' & Hfile & Hkept).
  rewrite Hfile, Hkept. reflexivity.
Defined.

(** ** Commands while a flow is running *)

Ltac dispatch Hc :=
  repeat (cbn [check_update add_handler update_handler states fallbacks
               entry_points first_match on_text on_location CommandHandler
               add_conversation update_conversation the_world];
          rewrite ?Hc;
          cbn [String.eqb Ascii.eqb Bool.eqb]).

(** A conversation that is running does not look at its entry point.
    [/add] in the middle of the add flow, and [/update] in the middle of
    the update flow, are taken by no handler: nothing is answered, and the
    record in progress and the steps of both flows stay as they are. *)
Theorem no_reentry (now : datetime) (line : string) (s : system) :
  (add_conversation s <> None /\ command_of line = "add")
  \/ (update_conversation s <> None /\ command_of line = "update") ->
  process_update now (Command line) s = s.
Proof.
  intros H. destruct s as [a u w]. unfold process_update.
  destruct H as [[Hrun Hc] | [Hrun Hc]];
    cbn [add_conversation update_conversation] in Hrun.
  - destruct a as [st|]; [|contradiction].
    destruct st; (destruct u as [su|]; [destruct su|]); dispatch Hc;
      reflexivity.
  - destruct u as [su|]; [|contradiction].
    destruct su; (destruct a as [st|]; [destruct st|]); dispatch Hc;
      reflexivity.
Qed.

Lemma no_reentry_witness :
  process_update t0 (Command "/add") demo_session = demo_session.
Proof.
  assert (H : (add_conversation demo_session <> None
               /\ command_of "/add" = "add")
              \/ (update_conversation demo_session <> None
                  /\ command_of "/add" = "update")).
  { left. split; [discriminate|reflexivity]. }
  exact (no_reentry t0 "/add" demo_session H).
Defined.

(** ** A file with another header *)

Lemma In_mem (k : string) (l : list string) : In k l -> mem k l = true.
Proof.
  intros H. unfold mem. apply existsb_exists. exists k.
  split; [exact H|apply String.eqb_refl].
Qed.

Lemma dict_get_zip (k : string) (l : list (string * string)) (d : dict) :
  ~ In k (map fst l) ->
  dict_get k (fold_left (fun d kv => dict_set (fst kv) (Some (snd kv)) d) l d)
  = dict_get k d.
Proof.
  revert d. induction l as [|[k' v] l IH]; intros d H; simpl; [reflexivity|].
  simpl in H. rewrite IH by tauto.
  apply dict_get_set_other. intros He. apply H. left. now subst.
Qed.

Lemma dict_get_fill (k : string) (ks : list string) (d : dict) :
  ~ In k ks ->
  dict_get k (fold_left (fun d k' => dict_set k' None d) ks d) = dict_get k d.
Proof.
  revert d. induction ks as [|k' ks IH]; intros d H; simpl; [reflexivity|].
  simpl in H. rewrite IH by tauto.
  apply dict_get_set_other. intros He. apply H. left. now subst.
Qed.

Lemma foreign_row_lacks (k : string) (h : list string) (r : row) :
  mem k h = false -> dict_get k (fields (DictReader_row h r)) = None.
Proof.
  intros Hm.
  assert (Hn : ~ In k h).
  { intros Hin. apply In_mem in Hin. congruence. }
  assert (Hz : dict_get k
                 (fold_left (fun d kv => dict_set (fst kv) (Some (snd kv)) d)
                            (combine h r) dict_empty) = None).
  { rewrite dict_get_zip; [reflexivity|].
    intros Hin. apply in_map_iff in Hin.
    destruct Hin as ([k' v] & <- & Hin). apply in_combine_l in Hin.
    exact (Hn Hin). }
  unfold DictReader_row.
  destruct (Nat.ltb (length h) (length r)); [exact Hz|].
  destruct (Nat.ltb (length r) (length h)); [|exact Hz].
  cbn [fields]. rewrite dict_get_fill; [exact Hz|].
  intros Hin. apply Hn.
  rewrite <- (firstn_skipn (length r) h). apply in_or_app. now right.
Qed.

(** [initialize_csv] writes the header only when there is no file; a file
    that is there is taken as it is.  When its first row has no Serial ID
    and a row that is not blank follows, [/delete] and [/update] with an
    identifier raise [KeyError] on the first row they look at, and leave
    the file and the session as they are. *)
Theorem foreign_header_blocks_commands
    (args : list string) (m : Message) (w : world)
    (h : list string) (rows : list row) :
  csv_file w = Some (h :: rows) ->
  mem "Serial ID" h = false ->
  existsb not_blank_row rows = true ->
  args <> [] ->
  initialize_csv (csv_file w) = csv_file w
  /\ delete_command args m w = (w, Raise (KeyError "Serial ID"))
  /\ update_start args m w = (w, Raise (KeyError "Serial ID")).
Proof.
  intros Hf Hm Hrows Ha.
  assert (Hread : read_csv w = (w, Ok (DictReader (h :: rows)))).
  { unfold read_csv. rewrite Hf. cbn [initialize_csv].
    destruct w as [u f s]. cbn [csv_file] in Hf. subst f. reflexivity. }
  assert (Hdata : exists r rest,
             DictReader (h :: rows) = DictReader_row h r :: rest).
  { cbn [DictReader]. apply existsb_exists in Hrows.
    destruct Hrows as (r & Hin & Hnb).
    assert (Hin' : In r (filter (fun r => negb (is_blank r)) rows))
      by (apply filter_In; split; assumption).
    destruct (filter (fun r => negb (is_blank r)) rows) as [|r0 rest];
      [contradiction|].
    exists r0, (map (DictReader_row h) rest). reflexivity. }
  destruct Hdata as (r & rest & Hdata).
  assert (Hser : serial_id_of (DictReader_row h r) w
                 = (w, Raise (KeyError "Serial ID"))).
  { unfold serial_id_of. now rewrite (foreign_row_lacks "Serial ID" h r Hm). }
  split; [rewrite Hf; reflexivity|].
  destruct args as [|a args]; [contradiction|].
  split.
  - unfold delete_command.
    rewrite (bind_ok _ _ _ _ _ Hread), Hdata.
    apply bind_raise. cbn [rows_without]. apply bind_raise, Hser.
  - unfold update_start.
    rewrite (bind_ok _ _ _ _ _ Hread), Hdata.
    apply bind_raise. cbn [find_record]. apply bind_raise, Hser.
Qed.

Lemma foreign_header_blocks_commands_witness :
  let w := {| user_data := user_data_empty;
              csv_file := Some foreign_table;
              sent := [] |} in
  csv_file (the_world (boot (Some foreign_table))) = Some foreign_table
  /\ delete_command ["BK-001"] (text_message "/delete BK-001") w
     = (w, Raise (KeyError "Serial ID")).
Proof.
  cbv zeta. split; [reflexivity|].
  assert (Ha : ["BK-001"] <> []) by discriminate.
  exact (proj1 (proj2 (foreign_header_blocks_commands ["BK-001"]
                         (text_message "/delete BK-001")
                         {| user_data := user_data_empty;
                            csv_file := Some foreign_table;
                            sent := [] |}
                         ["Bike"; "Remark"] [["BK-001"; "left at the depot"]]
                         eq_refl eq_refl eq_refl Ha))).
Defined.

(** ** A handler that raises *)

Lemma chosen_raise (now : datetime) (ev : event) (s : system) (c : M ret)
    (w' : world) (e : exn) :
  chosen now ev s = Some c -> c (the_world s) = (w', Raise e) ->
  process_update now ev s
  = {| add_conversation := add_conversation s;
       update_conversation := update_conversation s;
       the_world := with_sent error_reply w' |}.
Proof.
  intros Hc Hrun. unfold chosen in Hc. unfold process_update.
  pose proof (run_raise c (the_world s) w' e Hrun) as Hr.
  destruct (CommandHandler "start" (fun _ => start) ev) as [c0|].
  { inversion Hc; subst c0. now rewrite Hr. }
  destruct (check_update (add_handler now) (add_conversation s) ev) as [c0|].
  { inversion Hc; subst c0. now rewrite Hr. }
  destruct (CommandHandler "delete" delete_command ev) as [c0|].
  { inversion Hc; subst c0. now rewrite Hr. }
  destruct (check_update update_handler (update_conversation s) ev) as [c0|].
  { inversion Hc; subst c0. now rewrite Hr. }
  rewrite Hc, Hr. reflexivity.
Qed.

Lemma other_raise (c : M ret) (w w' : world) (e : exn) :
  other_callback c -> world_good any_cell w -> c w = (w', Raise e) -> w' = w.
Proof.
  intros Hc Hw Hrun.
  destruct (world_good_rows any_cell w Hw) as (rows & Hf & _ & Hr).
  destruct Hc.
  - discriminate Hrun.
  - destruct args as [|a args]; [discriminate Hrun|].
    rewrite (delete_command_ok (a :: args) m w rows ltac:(discriminate) Hf Hr)
      in Hrun.
    discriminate Hrun.
  - destruct args as [|a args]; [discriminate Hrun|].
    destruct (find (has_serial (Py.join " " (a :: args))) rows) as [x|] eqn:E.
    + rewrite (update_start_found (a :: args) m w rows x
                 ltac:(discriminate) Hf Hr E) in Hrun.
      discriminate Hrun.
    + rewrite (update_start_not_found (a :: args) m w rows
                 ltac:(discriminate) Hf Hr E) in Hrun.
      discriminate Hrun.
  - destruct (update_field_cases m w) as [(x & H) | [(x & H) | (x & k & Hu & H)]];
      rewrite H in Hrun; discriminate Hrun.
  - destruct (ud_update_field (user_data w)) as [k|] eqn:Hk.
    + destruct (update_value_cases m w k Hk (proj2 Hw k Hk))
        as [(v & H & Hv) | [(x & H) | [(x & H) | (e0 & H)]]];
        rewrite H in Hrun; try discriminate Hrun.
      * destruct (ud_update_serial_id (user_data w)) as [sid|] eqn:Hs.
        -- rewrite (commit_value_ok v w k sid rows Hk Hs
                      (updatable_column k (proj2 Hw k Hk)) Hf Hr) in Hrun.
           discriminate Hrun.
        -- unfold commit_value in Hrun. rewrite bind_get, Hk, Hs in Hrun.
           now inversion Hrun.
      * now inversion Hrun.
    + destruct (update_value_no_field m w Hk) as [(e0 & H) | (x & H)];
        rewrite H in Hrun; [now inversion Hrun|discriminate Hrun].
  - destruct (see_command_ok any_cell m w Hw) as (x & H). rewrite H in Hrun.
    discriminate Hrun.
  - discriminate Hrun.
Qed.

Lemma onward_returns (now : datetime) (s : state) (w1 : world) (d1 : dict)
    (n : nat) :
  In s later_steps -> world_good any_cell w1 ->
  ud_research_data (user_data w1) = Some d1 ->
  S (position s) <= n <= 13 ->
  dict_keys d1 = firstn n WIZARD_FIELDS ->
  exists w' r, onward now s w1 = (w', Ok r).
Proof.
  intros Hs Hw Hd Hn Hk.
  apply later_steps_position in Hs.
  destruct (Nat.eq_dec (position s) 12) as [H12 | H12].
  - assert (s = NOTE) by (destruct s; simpl in H12; try lia; reflexivity).
    subst s. simpl in Hn. assert (n = 13) by lia. subst n.
    change (firstn 13 WIZARD_FIELDS) with WIZARD_FIELDS in Hk.
    destruct (world_good_rows any_cell w1 Hw) as (rows & Hf & _ & Hwidth).
    set (d' := dict_set "Date" (Some (strftime now)) d1).
    assert (Hk' : dict_keys d' = (WIZARD_FIELDS ++ ["Date"])%list).
    { unfold d'. rewrite dict_keys_set.
      destruct (dict_contains "Date" d1) eqn:E.
      - apply dict_contains_keys in E. rewrite Hk in E. simpl in E.
        exfalso. intuition discriminate.
      - now rewrite Hk. }
    assert (Hg' : Forall (entry_good any_cell) d').
    { apply Forall_forall. intros x _. exact I. }
    destruct (record_row any_cell d' Hk' Hg') as (r & Hrow & _).
    cbn [onward].
    rewrite (finish_ok now w1 d1 rows r Hd Hf Hwidth Hrow). eauto.
  - assert (Hne : s <> NOTE) by (intros ->; simpl in H12; lia).
    rewrite (onward_next now s w1 Hne). eauto.
Qed.

Lemma callback_raise (now : datetime) (s : state) (m : Message)
    (w w' : world) (e : exn) :
  position s <= 12 -> world_good any_cell w ->
  (forall d, ud_research_data (user_data w) = Some d ->
             record_good any_cell s d) ->
  callback now s m w = (w', Raise e) -> w' = w.
Proof.
  intros Hp Hw Hrec Hrun.
  destruct (Nat.eq_dec (position s) 0) as [H0 | H0].
  { assert (s = SERIAL_ID) by (destruct s; simpl in H0; try lia; reflexivity).
    subst s. cbn [callback] in Hrun.
    destruct (serial_cases m w) as [H | [(e0 & H) | (d & _ & _ & H)]];
      rewrite H in Hrun; try discriminate Hrun. now inversion Hrun. }
  assert (Hs : In s later_steps) by (apply later_steps_position; lia).
  destruct (step_cases now s m w Hs)
    as [(e0 & H & _) | [(r & H & _) | [[H _] | [(d & Hd & Hc & H) | (d & v & Hd & Hv & H)]]]];
    rewrite H in Hrun; try discriminate Hrun.
  - now inversion Hrun.
  - destruct (Hrec d Hd) as (n & Hn & Hk & _).
    destruct (keys_after_set s n (Some "N/A") d ltac:(lia) Hn Hk) as [_ Hlt].
    rewrite Hc in Hlt. symmetry in Hlt. apply Nat.ltb_lt in Hlt.
    destruct (onward_returns now s w d n Hs Hw Hd ltac:(lia) Hk)
      as (w1 & r & Ho).
    rewrite Ho in Hrun. discriminate Hrun.
  - destruct (Hrec d Hd) as (n & Hn & Hk & _).
    destruct (keys_after_set s n v d ltac:(lia) Hn Hk) as [Hk' _].
    destruct (onward_returns now s (with_research (dict_set (field_of s) v d) w)
                (dict_set (field_of s) v d) (Nat.max n (S (position s)))
                Hs (world_good_research any_cell _ w Hw) eq_refl
                ltac:(lia) Hk')
      as (w1 & r & Ho).
    rewrite Ho in Hrun. discriminate Hrun.
Qed.

(** The exceptions of the handlers' own code leave no trace on a store
    that is in order.  Take a run of new messages, every reply of which is
    delivered, that starts with no file, or with a file that has the
    header and rows of its width.  When a handler then raises a
    [KeyError], a [ValueError] or an [AttributeError], it has changed
    neither the file nor the session, and has sent nothing; after the
    update the file, the session and the steps of both flows are what
    they were. *)
Theorem own_exception_changes_nothing
    (f : file) (evs : list (datetime * event)) (now : datetime) (ev : event)
    (c : M ret) (w' : world) (e : exn) :
  f = None \/ store_ok f ->
  let s := process evs (boot f) in
  chosen now ev s = Some c ->
  c (the_world s) = (w', Raise e) ->
  let s' := process_update now ev s in
  w' = the_world s
  /\ add_conversation s' = add_conversation s
  /\ update_conversation s' = update_conversation s
  /\ csv_file (the_world s') = csv_file (the_world s)
  /\ user_data (the_world s') = user_data (the_world s).
Proof.
  intros Hf s Hc Hrun s'.
  assert (Hs : session_good any_cell s).
  { unfold s. apply (process_good any_cell); try (intros; exact I).
    apply boot_good. destruct Hf as [-> | (rows & -> & Hr)]; [now left|].
    right. exists rows. split; [reflexivity|].
    eapply Forall_impl; [|exact Hr]. intros r Hw.
    unfold row_good. explode_row r Hw.
    repeat (apply Forall2_cons; [exact I|]). apply Forall2_nil. }
  assert (Hw' : w' = the_world s).
  { destruct Hs as [Hw Hadd]. unfold chosen in Hc.
    destruct (command_handler_cases "start" (fun _ => start) ev)
      as [H | (args & m & H)]; rewrite H in Hc.
    2:{ inversion Hc; subst c. discriminate Hrun. }
    destruct (add_dispatch now (add_conversation s) ev)
      as [H1 | [(Hn & m & H1) | [(st & m & Hst & Hp & H1) | (m & H1)]]];
      rewrite H1 in Hc.
    - destruct (command_handler_cases "delete" delete_command ev)
        as [H2 | (args & m & H2)]; rewrite H2 in Hc.
      2:{ inversion Hc; subst c.
          apply (other_raise _ _ _ e (oc_delete args m) Hw Hrun). }
      destruct (update_dispatch (update_conversation s) ev)
        as [H3 | (c0 & Hoc & H3)]; rewrite H3 in Hc.
      2:{ inversion Hc; subst c. apply (other_raise _ _ _ e Hoc Hw Hrun). }
      destruct (command_handler_cases "see" (fun _ => see_command) ev)
        as [H4 | (args & m & H4)]; rewrite H4 in Hc; [discriminate Hc|].
      inversion Hc; subst c. apply (other_raise _ _ _ e (oc_see m) Hw Hrun).
    - inversion Hc; subst c. discriminate Hrun.
    - inversion Hc; subst c. destruct (Hadd st Hst) as [_ Hrec].
      apply (callback_raise now st m _ _ e Hp Hw Hrec Hrun).
    - inversion Hc; subst c. discriminate Hrun. }
  split; [exact Hw'|].
  unfold s'. rewrite (chosen_raise now ev s c w' e Hc Hrun), Hw'.
  repeat split.
Qed.

Lemma own_exception_changes_nothing_witness :
  let s := process demo_events (boot (Some (CSV_COLUMNS :: sample_rows))) in
  let s' := process_update t0 (Shared (mkLocation "41.38" "2.17")) s in
  add_conversation s' = add_conversation s
  /\ update_conversation s' = update_conversation s
  /\ csv_file (the_world s') = csv_file (the_world s)
  /\ user_data (the_world s') = user_data (the_world s).
Proof.
  assert (Hf : Some (CSV_COLUMNS :: sample_rows) = None
               \/ store_ok (Some (CSV_COLUMNS :: sample_rows))).
  { right. exists sample_rows. split; [reflexivity|exact sample_rows_width]. }
  assert (Hc : chosen t0 (Shared (mkLocation "41.38" "2.17"))
                 (process demo_events (boot (Some (CSV_COLUMNS :: sample_rows))))
               = Some (update_value
                         (location_message (mkLocation "41.38" "2.17")))).
  { rewrite demo_session_reached. reflexivity. }
  assert (Hrun : update_value (location_message (mkLocation "41.38" "2.17"))
                   (the_world (process demo_events
                                 (boot (Some (CSV_COLUMNS :: sample_rows)))))
                 = (demo_world, Raise AttributeError)).
  { rewrite demo_session_reached. reflexivity. }
  exact (proj2 (own_exception_changes_nothing
                  (Some (CSV_COLUMNS :: sample_rows))
                  demo_events t0 (Shared (mkLocation "41.38" "2.17"))
                  _ demo_world AttributeError Hf Hc Hrun)).
Defined.

(** [chosen] is the callback [process_update] runs. *)
Lemma chosen_runs (now : datetime) (ev : event) (s : system) :
  the_world (process_update now ev s)
  = match chosen now ev s with
    | Some c => fst (run c (the_world s))
    | None => the_world s
    end.
Proof.
  unfold chosen, process_update.
  destruct (CommandHandler "start" (fun _ => start) ev); [reflexivity|].
  destruct (check_update (add_handler now) (add_conversation s) ev) as [c|].
  { destruct (run c (the_world s)); reflexivity. }
  destruct (CommandHandler "delete" delete_command ev); [reflexivity|].
  destruct (check_update update_handler (update_conversation s) ev) as [c|].
  { destruct (run c (the_world s)); reflexivity. }
  destruct (CommandHandler "see" (fun _ => see_command) ev); reflexivity.
Qed.
